(** * Public-IP exporter (src/ip/app.py): the resolution engine

    A shallow embedding of [is_valid_ipv4], [get_json], [ping_ip],
    [fetch_ip_metadata] and [get_ip_data], followed by the properties of
    the engine: validation order, first success wins, exhaustion, the TTL
    boundary of the single-slot cache, the always-fresh probe and the
    handling of failures.

    Conventions of the model.
    - Python [str] values are [string]s of ASCII characters.
    - Python [float] values that the program computes with (clock readings,
      elapsed times, latencies) are rationals [Q], every finite double
      being one.  The one float operation whose result the program branches
      on, the difference of line 191, is rounded as binary64 rounds it
      ([float64.sub]); in the values that are only logged or returned
      rounding is not modelled.
    - A raised exception is a value of [exn]; a Python computation is a
      function from the program state to an outcome and a new state. *)

From Stdlib Require Import List String Ascii Bool Arith ZArith QArith Lia Lqa.
From Stdlib Require Import Qround Qpower Qabs.
From Stdlib Require Import Permutation DecimalString.
Import ListNotations.

Set Implicit Arguments.
Set Warnings "-register-all".

Local Open Scope string_scope.

(** ** Strings *)

Module PyStr.

Definition is_ascii_digit (c : ascii) : bool :=
  (48 <=? nat_of_ascii c)%nat && (nat_of_ascii c <=? 57)%nat.

Definition is_ascii_lower (c : ascii) : bool :=
  (97 <=? nat_of_ascii c)%nat && (nat_of_ascii c <=? 122)%nat.

(** [\s] of the [re] module, on the ASCII range: tab, line feed, vertical
    tab, form feed, carriage return, the four separators 0x1c-0x1f and the
    space. *)
Definition is_space (c : ascii) : bool :=
  let n := nat_of_ascii c in
  ((9 <=? n)%nat && (n <=? 13)%nat) || ((28 <=? n)%nat && (n <=? 32)%nat).

Definition upper_char (c : ascii) : ascii :=
  if is_ascii_lower c then ascii_of_nat (nat_of_ascii c - 32) else c.

(** [s.upper()] *)
Fixpoint upper (s : string) : string :=
  match s with
  | EmptyString => EmptyString
  | String c t => String (upper_char c) (upper t)
  end.

(** [s.startswith(p)] *)
Definition startswith (s p : string) : bool := String.prefix p s.

(** [s.isascii() and s.isdigit()]; as in Python, [isdigit] is false on the
    empty string. *)
Fixpoint all_digits (s : string) : bool :=
  match s with
  | EmptyString => true
  | String c t => is_ascii_digit c && all_digits t
  end.

Definition isdigit (s : string) : bool :=
  match s with
  | EmptyString => false
  | _ => all_digits s
  end.

(** [s.split(sep)] for a one-character separator: never the empty list. *)
Fixpoint split (sep : ascii) (s : string) : list string :=
  match s with
  | EmptyString => [EmptyString]
  | String c t =>
      if Ascii.eqb c sep then EmptyString :: split sep t
      else match split sep t with
           | [] => [String c EmptyString]
           | w :: ws => String c w :: ws
           end
  end.

Definition digit_value (c : ascii) : Z := Z.of_nat (nat_of_ascii c - 48).

(** [int(s, 10)] on a string of decimal digits. *)
Definition int_of_digits (s : string) : Z :=
  fold_left (fun acc c => 10 * acc + digit_value c)%Z (list_ascii_of_string s) 0%Z.

(** [c in s] *)
Fixpoint contains (c : ascii) (s : string) : bool :=
  match s with
  | EmptyString => false
  | String d t => Ascii.eqb d c || contains c t
  end.

(** [str(n)] for an [int]. *)
Definition of_int (z : Z) : string := NilZero.string_of_int (Z.to_int z).

End PyStr.

(** ** Exceptions

    The classes of exception the program meets, each constructor standing
    for the class and its subclasses.  All of them derive from [Exception]. *)

Inductive exn : Type :=
  | RequestException (detail : string)
      (* requests.RequestException: ConnectionError, Timeout, ... *)
  | ValueError (detail : string)
      (* ValueError: json.JSONDecodeError, ipaddress.AddressValueError, ... *)
  | KeyError (key : string)
  | TypeError (detail : string)
  | RecursionError
      (* raised by the json decoder on a body nested deeper than the
         interpreter's recursion limit; a RuntimeError *)
  | OSError (detail : string)
      (* FileNotFoundError, PermissionError: the child process cannot start *)
  | TimeoutExpired
      (* subprocess.TimeoutExpired *)
  | OtherException (detail : string).

(** [except (requests.RequestException, ValueError)] *)
Definition is_RequestException_or_ValueError (e : exn) : bool :=
  match e with
  | RequestException _ | ValueError _ => true
  | _ => false
  end.

(** [except Exception] *)
Definition is_Exception (e : exn) : bool := true.

(** Outcome of evaluating a Python expression or call. *)
Inductive outcome (A : Type) : Type :=
  | Val (a : A)
  | Exc (e : exn).
Arguments Val {A} a.
Arguments Exc {A} e.

(** ** The [ipaddress] module, as far as [is_valid_ipv4] reaches it

    The parser of the standard library, as it is since CPython 3.9.5: four
    parts separated by dots, each of one to three ASCII digits, without a
    leading zero unless it is ["0"], and at most 255. *)

Module ipaddress.

(** [IPv4Address._parse_octet] *)
Definition _parse_octet (octet_str : string) : outcome Z :=
  if String.eqb octet_str "" then Exc (ValueError "Empty octet not permitted")
  else if negb (PyStr.isdigit octet_str)
  then Exc (ValueError "Only decimal digits permitted")
  else if (3 <? String.length octet_str)%nat
  then Exc (ValueError "At most 3 characters permitted")
  else if negb (String.eqb octet_str "0") && PyStr.startswith octet_str "0"
  then Exc (ValueError "Leading zeros are not permitted")
  else
    let octet_int := PyStr.int_of_digits octet_str in
    if (255 <? octet_int)%Z then Exc (ValueError "Octet (> 255) not permitted")
    else Val octet_int.

(** [int.from_bytes(map(cls._parse_octet, octets), 'big')]: the first
    octet that does not parse raises. *)
Fixpoint from_octets (acc : Z) (octets : list string) : outcome Z :=
  match octets with
  | [] => Val acc
  | o :: rest =>
      match _parse_octet o with
      | Val n => from_octets (256 * acc + n)%Z rest
      | Exc e => Exc e
      end
  end.

(** [IPv4Address._ip_int_from_string] *)
Definition _ip_int_from_string (ip_str : string) : outcome Z :=
  if String.eqb ip_str "" then Exc (ValueError "Address cannot be empty")
  else
    let octets := PyStr.split "." ip_str in
    if negb (List.length octets =? 4)%nat then Exc (ValueError "Expected 4 octets")
    else from_octets 0%Z octets.

(** [IPv4Address(address)] for a [str] argument. *)
Definition IPv4Address (address : string) : outcome Z :=
  if PyStr.contains "/" address then Exc (ValueError "Unexpected '/'")
  else _ip_int_from_string address.

Inductive address : Type :=
  | V4 (ip : Z)
  | V6 (ip : Z).

Definition version (a : address) : Z :=
  match a with V4 _ => 4 | V6 _ => 6 end.

Section IpAddress.
(** [IPv6Address(address)]: its text syntax is not needed, any parser
    does. *)
Variable IPv6Address : string -> outcome Z.

(** [ipaddress.ip_address]: IPv4 first, then IPv6, else [ValueError]. *)
Definition ip_address (s : string) : outcome address :=
  match IPv4Address s with
  | Val n => Val (V4 n)
  | Exc _ =>
      match IPv6Address s with
      | Val n => Val (V6 n)
      | Exc _ => Exc (ValueError "does not appear to be an IPv4 or IPv6 address")
      end
  end.
End IpAddress.

End ipaddress.

(** ** JSON values, as [r.json()] returns them *)

(** A Python [float]: a finite value, or one of the three special values the
    json decoder also produces ([Infinity], [-Infinity], [NaN]). *)
Inductive pyfloat : Type :=
  | Finite (q : Q)
  | PosInf
  | NegInf
  | NaN.

(** A [dict] is kept as the list of its items in insertion order; its keys
    are pairwise distinct, and [dict_get] returns the value of the first
    item with the key. *)
Inductive json : Type :=
  | JNull
  | JBool (b : bool)
  | JInt (n : Z)
  | JFloat (x : pyfloat)
  | JString (s : string)
  | JArray (items : list json)
  | JObject (members : list (string * json)).

Definition dict : Type := list (string * json).

(** [d.get(key)]: [None] stands for Python's [None] of a missing key. *)
Fixpoint dict_get (d : dict) (key : string) : option json :=
  match d with
  | [] => None
  | (k, v) :: rest => if String.eqb k key then Some v else dict_get rest key
  end.

(** [d.get(key, default)] *)
Definition dict_get_default (d : dict) (key : string) (default : json) : json :=
  match dict_get d key with
  | Some v => v
  | None => default
  end.

(** [d[key]] *)
Definition getitem (d : dict) (key : string) : outcome json :=
  match dict_get d key with
  | Some v => Val v
  | None => Exc (KeyError key)
  end.

(** [", ".join(parts)] *)
Fixpoint join (sep : string) (parts : list string) : string :=
  match parts with
  | [] => ""
  | [p] => p
  | p :: rest => p ++ sep ++ join sep rest
  end.

Section Str.
(** [repr] of a finite [float] and of a [str] are the interpreter's;
    the program only prints them. *)
Variable repr_finite : Q -> string.
Variable repr_str : string -> string.

Definition repr_float (x : pyfloat) : string :=
  match x with
  | Finite q => repr_finite q
  | PosInf => "inf"
  | NegInf => "-inf"
  | NaN => "nan"
  end.

(** [repr(v)] *)
Fixpoint repr (v : json) : string :=
  match v with
  | JNull => "None"
  | JBool true => "True"
  | JBool false => "False"
  | JInt n => PyStr.of_int n
  | JFloat x => repr_float x
  | JString s => repr_str s
  | JArray items => "[" ++ join ", " (map repr items) ++ "]"
  | JObject members =>
      "{" ++ join ", " (map (fun kv => repr_str (fst kv) ++ ": " ++ repr (snd kv)) members)
          ++ "}"
  end.

(** [str(v)]: the text itself for a [str], [repr(v)] otherwise. *)
Definition str (v : json) : string :=
  match v with
  | JString s => s
  | _ => repr v
  end.
End Str.

(** ** The pattern of [ping_ip]: [time[=<]?\s*([\d.]+)\s*ms] *)

Module re.

Definition is_num_char (c : ascii) : bool :=
  PyStr.is_ascii_digit c || Ascii.eqb c ".".

(** [\s*] *)
Fixpoint skip_spaces (s : string) : string :=
  match s with
  | String c t => if PyStr.is_space c then skip_spaces t else s
  | EmptyString => s
  end.

(** [[\d.]+], greedy: the longest run and what follows it.  No shorter run
    can lead to a match, since the next character would have to be a space
    or the letter m. *)
Fixpoint take_num (s : string) : string * string :=
  match s with
  | String c t =>
      if is_num_char c then let (g, r) := take_num t in (String c g, r)
      else (EmptyString, s)
  | EmptyString => (EmptyString, EmptyString)
  end.

(** [[=<]?] *)
Definition skip_sign (s : string) : string :=
  match s with
  | String c t => if Ascii.eqb c "=" || Ascii.eqb c "<" then t else s
  | EmptyString => s
  end.

Definition drop_prefix (p s : string) : option string :=
  if String.prefix p s
  then Some (String.substring (String.length p) (String.length s - String.length p) s)
  else None.

(** The pattern anchored at the start of [s]: group 1 of the match. *)
Definition match_here (s : string) : option string :=
  match drop_prefix "time" s with
  | None => None
  | Some s1 =>
      let (g, s2) := take_num (skip_spaces (skip_sign s1)) in
      if String.eqb g "" then None
      else match drop_prefix "ms" (skip_spaces s2) with
           | Some _ => Some g
           | None => None
           end
  end.

(** [re.search(pattern, s)]: the leftmost position where the pattern
    matches; the result is [m.group(1)]. *)
Fixpoint search (s : string) : option string :=
  match match_here s with
  | Some g => Some g
  | None =>
      match s with
      | String _ t => search t
      | EmptyString => None
      end
  end.

End re.

(** [float(g)] for a group [g] of the pattern, that is a non-empty string of
    digits and dots: the decimal value when [g] has at most one dot and at
    least one digit, [ValueError] otherwise. *)
Definition float_of_group (g : string) : outcome Q :=
  match PyStr.split "." g with
  | [i] =>
      if PyStr.isdigit i then Val (inject_Z (PyStr.int_of_digits i))
      else Exc (ValueError "could not convert string to float")
  | [i; f] =>
      if PyStr.all_digits i && PyStr.all_digits f
         && negb (String.eqb i "" && String.eqb f "")
      then Val (inject_Z (PyStr.int_of_digits (i ++ f))
                / inject_Z (10 ^ Z.of_nat (String.length f)))
      else Exc (ValueError "could not convert string to float")
  | _ => Exc (ValueError "could not convert string to float")
  end.

(** ** The world outside the process *)

(** A provider of the list in [fetch_ip_metadata]: [(name, url, code_key)]. *)
Definition provider : Type := (string * string * string)%type.

(** What the program reads of a [requests.Response]. *)
Record response : Type := {
  status_code : Z;
  content_type : option string;   (* r.headers.get("Content-Type") *)
  json_result : outcome json;     (* r.json(): the parsed body or the exception *)
  content : string                (* r.content *)
}.

(** The collaborators of the engine.  [world] is the state of everything
    outside the process (network, clock, random generator, the ping
    binary); each call returns its result and the next state of the world.
    Nothing is assumed about their behaviour. *)
Class Platform : Type := {
  world : Type;
  (** [time.monotonic()] *)
  monotonic : world -> Q * world;
  (** [session.get(url, timeout=HTTP_TIMEOUT)] *)
  session_get : string -> world -> outcome response * world;
  (** [random.sample(population, len(population))] *)
  random_sample : list provider -> world -> list provider * world;
  (** [subprocess.run(argv, capture_output=True, text=True, timeout=3).stdout] *)
  subprocess_run : list string -> world -> outcome string * world;
  (** [ipaddress.IPv6Address] *)
  IPv6Address : string -> outcome Z;
  (** [repr] of a finite float and of a string *)
  repr_finite : Q -> string;
  repr_str : string -> string;
  (** [text.encode("utf-8")] succeeds: the text holds no surrogate code
      point.  It always does on ASCII texts; a provider can send any code
      point. *)
  utf8_encodable : string -> bool
}.

(** ** Program state and log *)

(** The dictionary built by [fetch_ip_metadata] (lines 167-174) always has
    the same six keys and is a record here; the empty dictionary it returns
    on failure, which is falsy, is [None]. *)
Record metadata : Type := {
  m_provider : string;
  m_ip : json;
  m_country_code : string;
  m_http_latency_ms : Q;
  m_http_payload_bytes : nat;
  m_attempt : nat
}.

(** The dictionary returned by [get_ip_data] (lines 224-229). *)
Record resolution : Type := {
  r_provider : string;
  r_ip : json;
  r_country_code : string;
  r_ping_ms : Q
}.

Inductive level : Type := DEBUG | INFO | WARNING | ERROR.

(** One constructor for each call of [logger], with its arguments. *)
Inductive message : Type :=
  | Requesting (name url : string)
  | UnexpectedStatus (name : string) (status : Z) (latency_ms : Q)
  | WrongContentType (name : string) (ct : option string) (latency_ms : Q)
  | PayloadNotDict (name : string)
  | InvalidIp (name : string) (ip : option json)
  | HttpOk (name : string) (latency_ms : Q) (payload_bytes : nat)
  | RequestFailed (name : string) (latency_ms : Q) (exc : exn)
  | PingSuccessful (ip : json) (latency : Q)
  | PingMissingLatency (ip : json)
  | PingFailed (ip : json) (exc : exn)
  | Querying (name : string) (attempt : nat)
  | ProviderSuccess (name : string) (ip : json) (cc : string) (attempt : nat)
      (latency_ms : Q) (payload_bytes : nat)
  | MissingKeys (name : string)
  | AllProvidersFailed
  | UsingCached (name : string) (cache_age_ms : Q)
  | Refreshing
  | MetadataUnavailable
  | Resolved (name : string) (ip : json) (ping_ms : option Q) (cache_hit : bool)
      (attempt : nat).

Section Engine.
Context {P : Platform}.

(** The two module globals, the world, and three ghost fields that record
    what the process did: the URL of every [session.get], the argument
    vector of every [subprocess.run] and the number of assignments to the
    cache. *)
Record state : Type := {
  env : world;
  _ip_cache_data : option metadata;
  _ip_cache_timestamp : Q;
  requests_sent : list string;
  processes_run : list (list string);
  cache_writes : nat;
  log : list (level * message)
}.

Definition set_env (w : world) (s : state) : state :=
  {| env := w; _ip_cache_data := _ip_cache_data s;
     _ip_cache_timestamp := _ip_cache_timestamp s;
     requests_sent := requests_sent s; processes_run := processes_run s;
     cache_writes := cache_writes s; log := log s |}.

(** The state of a freshly started process (lines 54-55). *)
Definition initial_state (w : world) : state :=
  {| env := w; _ip_cache_data := None; _ip_cache_timestamp := 0;
     requests_sent := []; processes_run := []; cache_writes := 0; log := [] |}.

(** *** Computations *)

Definition M (A : Type) : Type := state -> outcome A * state.

Definition ret {A} (a : A) : M A := fun s => (Val a, s).

Definition bind {A B} (m : M A) (k : A -> M B) : M B :=
  fun s => match m s with
           | (Val a, s') => k a s'
           | (Exc e, s') => (Exc e, s')
           end.

(** An expression that may raise, evaluated without touching the state. *)
Definition lift {A} (o : outcome A) : M A := fun s => (o, s).

(** [try: body except <classes>: handler].  An exception of another class
    leaves the statement; the state reached when it was raised is kept. *)
Definition try_except {A} (body : M A) (classes : exn -> bool)
    (handler : exn -> M A) : M A :=
  fun s => match body s with
           | (Val a, s') => (Val a, s')
           | (Exc e, s') => if classes e then handler e s' else (Exc e, s')
           end.

Definition logger (lvl : level) (msg : message) : M unit :=
  fun s => (Val tt,
            {| env := env s; _ip_cache_data := _ip_cache_data s;
               _ip_cache_timestamp := _ip_cache_timestamp s;
               requests_sent := requests_sent s; processes_run := processes_run s;
               cache_writes := cache_writes s; log := log s ++ [(lvl, msg)] |}).

Definition time_monotonic : M Q :=
  fun s => let (t, w) := monotonic (env s) in (Val t, set_env w s).

Definition http_get (url : string) : M response :=
  fun s => let (o, w) := session_get url (env s) in
           (o, {| env := w; _ip_cache_data := _ip_cache_data s;
                  _ip_cache_timestamp := _ip_cache_timestamp s;
                  requests_sent := requests_sent s ++ [url];
                  processes_run := processes_run s;
                  cache_writes := cache_writes s; log := log s |}).

Definition sample (population : list provider) : M (list provider) :=
  fun s => let (l, w) := random_sample population (env s) in (Val l, set_env w s).

Definition run_stdout (argv : list string) : M string :=
  fun s => let (o, w) := subprocess_run argv (env s) in
           (o, {| env := w; _ip_cache_data := _ip_cache_data s;
                  _ip_cache_timestamp := _ip_cache_timestamp s;
                  requests_sent := requests_sent s;
                  processes_run := processes_run s ++ [argv];
                  cache_writes := cache_writes s; log := log s |}).

(** Reading the two globals. *)
Definition load_cache : M (option metadata * Q) :=
  fun s => (Val (_ip_cache_data s, _ip_cache_timestamp s), s).

(** Lines 205-206: [_ip_cache_data = dict(metadata)] and
    [_ip_cache_timestamp = now]. *)
Definition store_cache (md : metadata) (now : Q) : M unit :=
  fun s => (Val tt,
            {| env := env s; _ip_cache_data := Some md; _ip_cache_timestamp := now;
               requests_sent := requests_sent s; processes_run := processes_run s;
               cache_writes := S (cache_writes s); log := log s |}).

End Engine.

Declare Scope py_scope.
Delimit Scope py_scope with py.
Notation "x <- c1 ;; c2" := (bind c1 (fun x => c2))
  (at level 61, c1 at next level, right associativity) : py_scope.
Notation "c1 ;; c2" := (bind c1 (fun _ => c2))
  (at level 61, right associativity) : py_scope.

(** ** Subtraction of doubles

    [x - y] on two Python floats is the exact difference rounded to the
    nearest binary64 number, ties to the even significand.  Overflow to an
    infinity is not modelled: the difference of two clock readings does not
    reach it, and an infinity compares with the TTL as the exact value
    does. *)

Module float64.

(** The nearest integer, ties to the even one. *)
Definition round_half_even (q : Q) : Z :=
  let f := Qfloor q in
  match Qcompare (q - inject_Z f) (1 # 2) with
  | Lt => f
  | Gt => (f + 1)%Z
  | Eq => if Z.even f then f else (f + 1)%Z
  end.

(** For [q > 0], the exponent [e] with [2 ^ e <= q < 2 ^ (e + 1)]. *)
Definition binade (q : Q) : Z :=
  let e := (Z.log2 (Qnum q) - Z.log2 (Z.pos (Qden q)))%Z in
  if Qle_bool (2 ^ e) q then e else (e - 1)%Z.

(** The unit in the last place of the 53-bit significand; below
    [2 ^ -1022] the numbers are subnormal and the unit stays [2 ^ -1074]. *)
Definition ulp (q : Q) : Q := 2 ^ (Z.max (binade (Qabs q)) (-1022) - 52).

Definition round (q : Q) : Q :=
  if Qeq_bool q 0 then 0
  else inject_Z (round_half_even (q / ulp q)) * ulp q.

(** [x - y] *)
Definition sub (x y : Q) : Q := round (x - y).

End float64.

(** ** The program *)

Definition HTTP_TIMEOUT : Q := 5.
Definition CACHE_TTL_SECONDS : Q := 30.

(** [x < y] on floats. *)
Definition Qltb (x y : Q) : bool := negb (Qle_bool y x).

Section Program.
Context {P : Platform}.
Local Open Scope py_scope.

(** Lines 58-63. *)
Definition is_valid_ipv4 (ip_str : string) : bool :=
  match ipaddress.ip_address IPv6Address ip_str with
  | Val ip => (ipaddress.version ip =? 4)%Z
  | Exc _ => false
  end.

(** Lines 66-116.  The result is [None] or the tuple
    [(data, elapsed_ms, payload_bytes)]. *)
Definition get_json (name url : string) : M (option (dict * Q * nat)) :=
  logger DEBUG (Requesting name url) ;;
  start <- time_monotonic ;;
  try_except
    (r <- http_get url ;;
     t <- time_monotonic ;;
     let elapsed_ms := (t - start) * 1000 in
     if negb (status_code r =? 200)%Z then
       logger WARNING (UnexpectedStatus name (status_code r) elapsed_ms) ;;
       ret None
     else if negb (PyStr.startswith
                     (match content_type r with Some ct => ct | None => "" end)
                     "application/json") then
       logger WARNING (WrongContentType name (content_type r) elapsed_ms) ;;
       ret None
     else
       data <- lift (json_result r) ;;
       match data with
       | JObject d =>
           let ip := dict_get d "ip" in
           if match ip with
              | Some (JString s) => negb (is_valid_ipv4 s)
              | _ => true
              end
           then
             logger WARNING (InvalidIp name ip) ;;
             ret None
           else
             let payload_bytes := String.length (content r) in
             logger INFO (HttpOk name elapsed_ms payload_bytes) ;;
             ret (Some (d, elapsed_ms, payload_bytes))
       | _ =>
           logger WARNING (PayloadNotDict name) ;;
           ret None
       end)
    is_RequestException_or_ValueError
    (fun exc =>
       t <- time_monotonic ;;
       let elapsed_ms := (t - start) * 1000 in
       logger WARNING (RequestFailed name elapsed_ms exc) ;;
       ret None).

(** An element of an argument vector: [subprocess.run] raises [TypeError]
    on one that is not a string. *)
Definition argv_item (v : json) : outcome string :=
  match v with
  | JString s => Val s
  | _ => Exc (TypeError "expected str, bytes or os.PathLike object")
  end.

(** Lines 119-136. *)
Definition ping_ip (ip : json) : M (option Q) :=
  try_except
    (target <- lift (argv_item ip) ;;
     out <- run_stdout ["ping"; "-4"; "-c"; "1"; "-w"; "2"; target] ;;
     match re.search out with
     | Some g =>
         latency <- lift (float_of_group g) ;;
         logger INFO (PingSuccessful ip latency) ;;
         ret (Some latency)
     | None =>
         logger WARNING (PingMissingLatency ip) ;;
         ret None
     end)
    is_Exception
    (fun exc =>
       logger WARNING (PingFailed ip exc) ;;
       ret None).

(** Lines 140-145. *)
Definition providers : list provider :=
  [ ("ipapi", "https://ipapi.co/json", "country_code");
    ("ipwhois", "https://ipwho.is/", "country_code");
    ("ifconfig", "https://ifconfig.co/json", "country_iso");
    ("ipsb", "https://api.ip.sb/geoip", "country_code") ].

(** Line 157: [str(j.get(code_key, "")).upper()]. *)
Definition country_code_of (j : dict) (code_key : string) : string :=
  PyStr.upper (str repr_finite repr_str (dict_get_default j code_key (JString ""))).

(** Lines 147-180: the loop over [enumerate(order, start=attempt)].
    [continue] is the recursive call on the rest of the order. *)
Fixpoint fetch_loop (attempt : nat) (order : list provider) : M (option metadata) :=
  match order with
  | [] =>
      logger ERROR AllProvidersFailed ;;
      ret None
  | (name, url, code_key) :: rest =>
      logger INFO (Querying name attempt) ;;
      result <- get_json name url ;;
      match result with
      | None => fetch_loop (S attempt) rest
      | Some (j, http_latency_ms, payload_bytes) =>
          try_except
            (ip <- lift (getitem j "ip") ;;
             let cc := country_code_of j code_key in
             logger INFO (ProviderSuccess name ip cc attempt http_latency_ms
                            payload_bytes) ;;
             ret (Some {| m_provider := name; m_ip := ip; m_country_code := cc;
                          m_http_latency_ms := http_latency_ms;
                          m_http_payload_bytes := payload_bytes;
                          m_attempt := attempt |}))
            is_Exception
            (fun _ =>
               logger WARNING (MissingKeys name) ;;
               fetch_loop (S attempt) rest)
      end
  end.

(** Lines 139-180. *)
Definition fetch_ip_metadata : M (option metadata) :=
  order <- sample providers ;;
  fetch_loop 1 order.

(** Lines 199-206, the [else] branch of [get_ip_data]: [None] is the
    [return {}] of line 204, otherwise the metadata and [cache_hit]. *)
Definition refresh (now : Q) : M (option (metadata * bool)) :=
  logger INFO Refreshing ;;
  fetched <- fetch_ip_metadata ;;
  match fetched with
  | None =>
      logger ERROR MetadataUnavailable ;;
      ret None
  | Some metadata =>
      store_cache metadata now ;;
      ret (Some (metadata, false))
  end.

(** Lines 208-229: the probe and the dictionary returned. *)
Definition probe_and_assemble (metadata : metadata) (cache_hit : bool)
  : M (option resolution) :=
  latency <- ping_ip (m_ip metadata) ;;
  logger INFO (Resolved (m_provider metadata) (m_ip metadata) latency cache_hit
                 (m_attempt metadata)) ;;
  ret (Some {| r_provider := m_provider metadata;
               r_ip := m_ip metadata;
               r_country_code := m_country_code metadata;
               r_ping_ms := match latency with Some l => l | None => 0 end |}).

(** Lines 183-229.  [None] is the empty dictionary of line 204. *)
Definition get_ip_data : M (option resolution) :=
  now <- time_monotonic ;;
  cache <- load_cache ;;
  let '(cache_data, cache_timestamp) := cache in
  chosen <- match cache_data with
            | Some cached =>
                if Qltb (float64.sub now cache_timestamp) CACHE_TTL_SECONDS then
                  logger INFO (UsingCached (m_provider cached)
                                 (float64.sub now cache_timestamp * 1000)) ;;
                  ret (Some (cached, true))
                else refresh now
            | None => refresh now
            end ;;
  match chosen with
  | None => ret None
  | Some (metadata, cache_hit) => probe_and_assemble metadata cache_hit
  end.

End Program.

(** ** Vocabulary of the statements *)

Definition url_of (p : provider) : string := snd (fst p).
Definition name_of (p : provider) : string := fst (fst p).

Section Vocabulary.
Context {P : Platform}.

(** The world answers the request that [get_json] sends from [s]: the
    clock reads [t0] before the request and [t1] after it, the request to
    [url] returns the response [r], and the world is left in [w]. *)
Definition answers (s : state) (url : string) (t0 : Q) (r : response) (t1 : Q)
    (w : world) : Prop :=
  exists w1 w2,
    monotonic (env s) = (t0, w1) /\
    session_get url w1 = (Val r, w2) /\
    monotonic w2 = (t1, w).

(** [r.headers.get("Content-Type", "")] *)
Definition declared_type (r : response) : string :=
  match content_type r with Some ct => ct | None => "" end.

(** The state [get_json] leaves behind: one request sent, the world in
    [w], and the given records appended to the log. *)
Definition after_request (s : state) (w : world) (url : string)
    (records : list (level * message)) : state :=
  {| env := w;
     _ip_cache_data := _ip_cache_data s;
     _ip_cache_timestamp := _ip_cache_timestamp s;
     requests_sent := requests_sent s ++ [url];
     processes_run := processes_run s;
     cache_writes := cache_writes s;
     log := log s ++ records |}.

(** The state in which the loop calls [get_json] at a given attempt. *)
Definition querying (name : string) (attempt : nat) (s : state) : state :=
  snd (logger INFO (Querying name attempt) s).

(** Every provider of the list is rejected in turn, from attempt [k] on:
    [get_json] returns [None] for each of them. *)
Inductive rejected_run : nat -> list provider -> state -> state -> Prop :=
  | rejected_nil k s : rejected_run k [] s s
  | rejected_cons k name url code_key rest s s1 s2 :
      get_json name url (querying name k s) = (Val None, s1) ->
      rejected_run (S k) rest s1 s2 ->
      rejected_run k ((name, url, code_key) :: rest) s s2.

(** The cache check of line 191 succeeds in [s]. *)
Definition cache_fresh (s : state) : Prop :=
  exists cached, _ip_cache_data s = Some cached /\
    float64.sub (fst (monotonic (env s))) (_ip_cache_timestamp s) < CACHE_TTL_SECONDS.

(** Any number of calls of [get_ip_data], each of them served from the
    cache; the world may change in any way between two calls. *)
Inductive cache_hits : state -> state -> Prop :=
  | hits_none s : cache_hits s s
  | hits_more s w out s1 s2 :
      cache_fresh (set_env w s) ->
      get_ip_data (set_env w s) = (out, s1) ->
      cache_hits s1 s2 ->
      cache_hits s s2.

End Vocabulary.

(** ** A scripted world, to run the engine on concrete inputs *)

Module Scripted.

Record script : Type := {
  clock : Q;                                (* the next reading of the clock *)
  web : string -> outcome response;          (* what each URL answers *)
  shuffle : list provider -> list provider;  (* the order drawn *)
  pings : list (outcome string)              (* the outputs of the next pings *)
}.

Definition tick (w : script) : script :=
  {| clock := clock w + (1 # 100); web := web w; shuffle := shuffle w;
     pings := pings w |}.

Definition next_ping (w : script) : outcome string * script :=
  match pings w with
  | [] => (Exc (OSError "ping: not found"), w)
  | o :: rest =>
      (o, {| clock := clock w; web := web w; shuffle := shuffle w; pings := rest |})
  end.

#[export] Instance platform : Platform := {|
  world := script;
  monotonic w := (clock w, tick w);
  session_get url w := (web w url, w);
  random_sample population w := (shuffle w population, w);
  subprocess_run _ w := next_ping w;
  IPv6Address s :=
    if PyStr.contains ":" s then Val 0%Z else Exc (ValueError "not an IPv6 address");
  repr_finite _ := "0.0";
  repr_str s := "'" ++ s ++ "'";
  utf8_encodable _ := true
|}.

Definition json_response (body : json) : response :=
  {| status_code := 200; content_type := Some "application/json";
     json_result := Val body; content := "{}" |}.

(** The body of the specification's example. *)
Definition example_body : json :=
  JObject [("ip", JString "203.0.113.5"); ("country_code", JString "us")].

Definition unreachable : outcome response :=
  Exc (RequestException "ConnectionError").

(** A body whose country code is present and is the empty string. *)
Definition body_without_country : json :=
  JObject [("ip", JString "203.0.113.5"); ("country_code", JString "")].

(** Every provider answers the example body. *)
Definition all_up : string -> outcome response :=
  fun _ => Val (json_response example_body).

(** No provider can be reached. *)
Definition all_down : string -> outcome response :=
  fun _ => unreachable.

(** The first provider of the list is down, the others answer. *)
Definition first_down : string -> outcome response :=
  fun url => if String.eqb url "https://ipapi.co/json" then unreachable
             else Val (json_response example_body).

(** A body nested deeper than the recursion limit of the interpreter, for
    instance 100000 opening brackets: [r.json()] raises [RecursionError]. *)
Definition too_deep : response :=
  {| status_code := 200; content_type := Some "application/json";
     json_result := Exc RecursionError; content := "[[[[[[[[" |}.

Definition start (now : Q) (answers : string -> outcome response)
    (ping_outputs : list (outcome string)) : state :=
  initial_state {| clock := now; web := answers; shuffle := fun l => l;
                   pings := ping_outputs |}.

Definition ping_reply : string :=
  "64 bytes from 203.0.113.5: icmp_seq=1 ttl=57 time=12.3 ms".

(** The metadata of an earlier successful fetch. *)
Definition example_metadata : metadata :=
  {| m_provider := "ifconfig"; m_ip := JString "198.51.100.7";
     m_country_code := "DE"; m_http_latency_ms := 41; m_http_payload_bytes := 2;
     m_attempt := 3 |}.

(** A process that stored [example_metadata] at [stored_at] and is called
    again when the clock reads [now]. *)
Definition cached (stored_at now : Q) (answers : string -> outcome response)
    (ping_outputs : list (outcome string)) : state :=
  {| env := {| clock := now; web := answers; shuffle := fun l => l;
               pings := ping_outputs |};
     _ip_cache_data := Some example_metadata;
     _ip_cache_timestamp := stored_at;
     requests_sent := []; processes_run := []; cache_writes := 1; log := [] |}.

End Scripted.

(** ** Threads

    The server started by [app.run] handles requests in threads, and the
    interpreter may switch threads between two accesses to the module
    globals.  The accesses of [get_ip_data] to the cache are four: line 191
    loads [_ip_cache_data] and then [_ip_cache_timestamp], line 205 stores
    [_ip_cache_data] and line 206 stores [_ip_cache_timestamp].  The source
    takes no lock around them. *)

Module Threads.

Record globals : Type := {
  g_data : option metadata;
  g_timestamp : Q
}.

Inductive access : Type :=
  | LoadData
  | LoadTimestamp
  | StoreData (md : metadata)
  | StoreTimestamp (t : Q).

(** What a thread sees of the globals. *)
Inductive seen : Type :=
  | SawData (d : option metadata)
  | SawTimestamp (t : Q).

Definition exec (a : access) (g : globals) : list seen * globals :=
  match a with
  | LoadData => ([SawData (g_data g)], g)
  | LoadTimestamp => ([SawTimestamp (g_timestamp g)], g)
  | StoreData md => ([], {| g_data := Some md; g_timestamp := g_timestamp g |})
  | StoreTimestamp t => ([], {| g_data := g_data g; g_timestamp := t |})
  end.

(** The read of line 191 and the write of lines 205-206. *)
Definition get : list access := [LoadData; LoadTimestamp].
Definition put (md : metadata) (now : Q) : list access :=
  [StoreData md; StoreTimestamp now].

(** A thread runs its accesses in program order. *)
Fixpoint run_thread (code : list access) (g : globals) : list seen * globals :=
  match code with
  | [] => ([], g)
  | a :: rest =>
      let (o1, g1) := exec a g in
      let (o2, g2) := run_thread rest g1 in
      ((o1 ++ o2)%list, g2)
  end.

(** Two threads under a schedule: [true] lets the first thread make its
    next access, [false] the second; a thread that has finished is
    skipped.  The result is what each thread saw, and the globals. *)
Fixpoint run_two (schedule : list bool) (c1 c2 : list access) (g : globals)
  : list seen * list seen * globals :=
  match schedule with
  | [] => ([], [], g)
  | true :: sch =>
      match c1 with
      | [] => run_two sch c1 c2 g
      | a :: c1' =>
          let (o, g') := exec a g in
          let '(o1, o2, g'') := run_two sch c1' c2 g' in
          ((o ++ o1)%list, o2, g'')
      end
  | false :: sch =>
      match c2 with
      | [] => run_two sch c1 c2 g
      | a :: c2' =>
          let (o, g') := exec a g in
          let '(o1, o2, g'') := run_two sch c1 c2' g' in
          (o1, (o ++ o2)%list, g'')
      end
  end.

(** The pair a [get] saw was stored by one [put] of the history (or is the
    pair the globals started with). *)
Definition consistent (history : list (option metadata * Q)) (view : list seen)
  : Prop :=
  exists d t, view = [SawData d; SawTimestamp t] /\ In (d, t) history.

(** Calls that do not overlap: each call makes all its accesses before
    the next one starts. *)
Inductive call : Type :=
  | Get
  | Put (md : metadata) (now : Q).

Definition code_of (c : call) : list access :=
  match c with
  | Get => get
  | Put md now => put md now
  end.

(** What the successive calls saw. *)
Fixpoint run_serial (calls : list call) (g : globals) : list (list seen) * globals :=
  match calls with
  | [] => ([], g)
  | c :: rest =>
      let (o, g1) := run_thread (code_of c) g in
      let (os, g2) := run_serial rest g1 in
      (o :: os, g2)
  end.

(** The pairs stored so far: the initial one and one for each [put]. *)
Fixpoint stored (calls : list call) : list (option metadata * Q) :=
  match calls with
  | [] => []
  | Get :: rest => stored rest
  | Put md now :: rest => (Some md, now) :: stored rest
  end.

Definition globals_of {P : Platform} (s : state) : globals :=
  {| g_data := _ip_cache_data s; g_timestamp := _ip_cache_timestamp s |}.

End Threads.


(** ** Vocabulary of the probe *)

(** The argument vector of line 122. *)
Definition ping_argv (ip : string) : list string :=
  ["ping"; "-4"; "-c"; "1"; "-w"; "2"; ip].

(** The ways the probe fails: the process does not deliver an output (it
    cannot be started, it is killed by the timeout, ...), the output matches
    no latency pattern, or the matched figure is not a number. *)
Inductive probe_failed : outcome string -> Prop :=
  | did_not_run e : probe_failed (Exc e)
  | no_latency out : re.search out = None -> probe_failed (Val out)
  | bad_latency out g e :
      re.search out = Some g -> float_of_group g = Exc e -> probe_failed (Val out).


(** ** Vocabulary of the engine *)

Section Notions.
Context {P : Platform}.

(** What a computation leaves alone. *)
Definition same_cache (s s' : state) : Prop :=
  _ip_cache_data s' = _ip_cache_data s /\
  _ip_cache_timestamp s' = _ip_cache_timestamp s /\
  cache_writes s' = cache_writes s.

(** The metadata the loop builds from an accepted response. *)
Definition metadata_of (name : string) (ip : json) (j : dict) (code_key : string)
    (elapsed : Q) (n attempt : nat) : metadata :=
  {| m_provider := name; m_ip := ip; m_country_code := country_code_of j code_key;
     m_http_latency_ms := elapsed; m_http_payload_bytes := n;
     m_attempt := attempt |}.

(** How a run of the loop ends: every provider was rejected; or the
    providers before one of them were rejected and that one was accepted;
    or the request to one of them raised an exception that [get_json]
    does not handle. *)
Inductive loop_end (k : nat) (order : list provider) (s : state)
  : outcome (option metadata) -> state -> Prop :=
  | end_exhausted s1 :
      rejected_run k order s s1 ->
      loop_end k order s (Val None) (snd (logger ERROR AllProvidersFailed s1))
  | end_accepted pre name url code_key post s1 j elapsed n s2 ip :
      order = (pre ++ (name, url, code_key) :: post)%list ->
      rejected_run k pre s s1 ->
      get_json name url (querying name (k + List.length pre) s1)
        = (Val (Some (j, elapsed, n)), s2) ->
      dict_get j "ip" = Some (JString ip) ->
      is_valid_ipv4 ip = true ->
      loop_end k order s
        (Val (Some (metadata_of name (JString ip) j code_key elapsed n
                      (k + List.length pre))))
        (snd (logger INFO
                (ProviderSuccess name (JString ip) (country_code_of j code_key)
                   (k + List.length pre) elapsed n) s2))
  | end_raised pre name url code_key post s1 e s2 :
      order = (pre ++ (name, url, code_key) :: post)%list ->
      rejected_run k pre s s1 ->
      get_json name url (querying name (k + List.length pre) s1) = (Exc e, s2) ->
      loop_end k order s (Exc e) s2.

(** The latency the probe reports for an outcome of the process. *)
Definition reported (o : outcome string) : option Q :=
  match o with
  | Exc _ => None
  | Val out =>
      match re.search out with
      | None => None
      | Some g => match float_of_group g with Val l => Some l | Exc _ => None end
      end
  end.

(** The dictionary assembled from the metadata and a probe result. *)
Definition assembled (md : metadata) (latency : option Q) : resolution :=
  {| r_provider := m_provider md; r_ip := m_ip md;
     r_country_code := m_country_code md;
     r_ping_ms := match latency with Some l => l | None => 0 end |}.

(** Lines 208-229, or the empty result of line 204. *)
Definition finish (chosen : option (metadata * bool)) : M (option resolution) :=
  match chosen with
  | None => ret None
  | Some (md, hit) => probe_and_assemble md hit
  end.

(** The state in which the probe starts on a cache hit. *)
Definition hit_state (s : state) (cached : metadata) : state :=
  snd (logger INFO
         (UsingCached (m_provider cached)
            (float64.sub (fst (monotonic (env s))) (_ip_cache_timestamp s) * 1000))
         (set_env (snd (monotonic (env s))) s)).

(** The state in which the [else] branch starts. *)
Definition miss_state (s : state) : state := set_env (snd (monotonic (env s))) s.

(** The order that [random.sample] draws for a call that misses the cache. *)
Definition drawn_order (s : state) : list provider :=
  fst (random_sample providers (env (miss_state s))).

(** The state in which the loop of that call starts. *)
Definition loop_start (s : state) : state :=
  set_env (snd (random_sample providers (env (miss_state s))))
    (snd (logger INFO Refreshing (miss_state s))).

(** The cache check of line 191 fails in [s]: the cache is empty, or its
    entry is TTL old or older. *)
Definition cache_stale (s : state) : Prop :=
  _ip_cache_data s = None \/
  CACHE_TTL_SECONDS <= float64.sub (fst (monotonic (env s))) (_ip_cache_timestamp s).

(** The test of line 191. *)
Definition cache_hit_test (s : state) : bool :=
  match _ip_cache_data s with
  | Some _ => Qltb (float64.sub (fst (monotonic (env s))) (_ip_cache_timestamp s)) CACHE_TTL_SECONDS
  | None => false
  end.

(** The run of the loop that a call starting in [s] makes on a miss. *)
Definition loop_run (s : state) : outcome (option metadata) * state :=
  fetch_loop 1 (drawn_order s) (loop_start s).

(** The metadata a call starting in [s] goes on with, if any: the cached
    one on a hit, the one the loop returns on a miss. *)
Definition chosen_metadata (s : state) : option metadata :=
  if cache_hit_test s then _ip_cache_data s
  else match fst (loop_run s) with
       | Val (Some md) => Some md
       | _ => None
       end.

(** The world in which that call runs its probe. *)
Definition probe_world (s : state) : world :=
  if cache_hit_test s then snd (monotonic (env s)) else env (snd (loop_run s)).

(** The metadata was built from a validated response: its address is a
    string that is a valid IPv4 address. *)
Definition validated (md : metadata) : Prop :=
  exists ip, m_ip md = JString ip /\ is_valid_ipv4 ip = true.

(** The invariant of the cache. *)
Definition cache_valid (s : state) : Prop :=
  forall md, _ip_cache_data s = Some md -> validated md.

(** The states of a running process: it starts with an empty cache, and
    every call of [get_ip_data] finds the world in some state. *)
Inductive reachable : state -> Prop :=
  | reach_start w : reachable (initial_state w)
  | reach_call s w : reachable s -> reachable (snd (get_ip_data (set_env w s))).

(** The HTTP side raises only what line 108 handles: every exception of
    [session.get] and of [r.json()] is a [RequestException] or a
    [ValueError]. *)
Definition http_contained : Prop :=
  forall url w,
    match fst (session_get url w) with
    | Exc e => is_RequestException_or_ValueError e = true
    | Val r =>
        match json_result r with
        | Exc e => is_RequestException_or_ValueError e = true
        | Val _ => True
        end
    end.

End Notions.

(** ** The route handlers (lines 232-258) *)

(** One constructor for each call of [logger] in the two handlers. *)
Inductive route_message : Type :=
  | IpServed (success : bool)
  | MetricsFailed
  | MetricsServed (name : string) (ip : json).

(** The body of a reply: the value given to [jsonify], or a text. *)
Inductive reply_body : Type :=
  | JsonBody (v : json)
  | TextBody (t : string).

(** What a handler returns: status, MIME type and body. *)
Record reply : Type := {
  reply_status : Z;
  reply_mimetype : string;
  reply_body_of : reply_body
}.

(** The double quote and the line feed. *)
Definition quote : string := String (ascii_of_nat 34) EmptyString.
Definition newline : string := String (ascii_of_nat 10) EmptyString.

Section Handlers.
Context {P : Platform}.

(** The dictionary of lines 224-229, as [jsonify] receives it. *)
Definition to_dict (data : resolution) : dict :=
  [ ("provider", JString (r_provider data));
    ("ip", r_ip data);
    ("country_code", JString (r_country_code data));
    ("ping_ms", JFloat (Finite (r_ping_ms data))) ].

(** A handler returns its reply and the records it logs itself; the state
    keeps the records of the engine.  An exception of [get_ip_data] leaves
    the handler. *)
Definition handled : Type :=
  (outcome reply * list (level * route_message) * state)%type.

(** Lines 232-236. *)
Definition ip_json (s : state) : handled :=
  match get_ip_data s with
  | (Val data, s') =>
      let success := match data with Some _ => true | None => false end in
      (Val (match data with
            | Some d => {| reply_status := 200; reply_mimetype := "application/json";
                           reply_body_of := JsonBody (JObject (to_dict d)) |}
            | None => {| reply_status := 502; reply_mimetype := "application/json";
                         reply_body_of := JsonBody (JObject []) |}
            end),
       [(INFO, IpServed success)], s')
  | (Exc e, s') => (Exc e, [], s')
  end.

(** The sample line of [ip_info] (line 252) and that of [ip_current_info]
    (line 256): the values are put between the quotes as they are. *)
Definition ip_info_line (data : resolution) : string :=
  "ip_info{provider=" ++ quote ++ r_provider data ++ quote
    ++ ",country_code=" ++ quote ++ r_country_code data ++ quote ++ "} "
    ++ repr_finite (r_ping_ms data).

Definition ip_current_info_line (data : resolution) : string :=
  "ip_current_info{label=" ++ quote ++ "ip_address" ++ quote
    ++ ",value=" ++ quote ++ str repr_finite repr_str (r_ip data) ++ quote ++ "} 1".

(** Lines 249-257. *)
Definition metrics_lines (data : resolution) : list string :=
  [ "# HELP ip_info Public IP info with ping latency";
    "# TYPE ip_info gauge";
    ip_info_line data;
    "";
    "# HELP ip_current_info Current public IP as text in label, stable series";
    "# TYPE ip_current_info gauge";
    ip_current_info_line data ].

(** The text of line 258: ["\n".join(lines) + "\n"]. *)
Definition metrics_body (data : resolution) : string :=
  join newline (metrics_lines data) ++ newline.

(** [Response(text, mimetype="text/plain")] encodes a [str] body as UTF-8
    when the response is built; [str.encode] raises [UnicodeEncodeError], a
    [ValueError], on a text that holds a surrogate code point. *)
Definition text_response (status : Z) (text : string) : outcome reply :=
  if utf8_encodable text then
    Val {| reply_status := status; reply_mimetype := "text/plain";
           reply_body_of := TextBody text |}
  else Exc (ValueError "UnicodeEncodeError").

(** Lines 239-258.  Nothing handles the exception of line 258. *)
Definition metrics (s : state) : handled :=
  match get_ip_data s with
  | (Val None, s') =>
      (Val {| reply_status := 502; reply_mimetype := "text/plain";
              reply_body_of := TextBody "" |},
       [(ERROR, MetricsFailed)], s')
  | (Val (Some data), s') =>
      (text_response 200 (metrics_body data),
       [(INFO, MetricsServed (r_provider data) (r_ip data))], s')
  | (Exc e, s') => (Exc e, [], s')
  end.

End Handlers.

(** ** Vocabulary of the further properties *)

(** The text of an address with the four octets [a], [b], [c], [d]. *)
Definition dotted (a b c d : Z) : string :=
  join "." (map PyStr.of_int [a; b; c; d]).

Definition octet (n : Z) : Prop := (0 <= n <= 255)%Z.

(** The decimal digits, and the texts of one to three digits. *)
Definition digit_chars : list ascii :=
  ["0"; "1"; "2"; "3"; "4"; "5"; "6"; "7"; "8"; "9"]%char.

Definition digit_texts : list string :=
  (flat_map (fun a => [String a EmptyString]) digit_chars
   ++ flat_map (fun a => flat_map (fun b => [String a (String b EmptyString)])
                           digit_chars) digit_chars
   ++ flat_map (fun a => flat_map (fun b => flat_map
                  (fun c => [String a (String b (String c EmptyString))])
                  digit_chars) digit_chars) digit_chars)%list.

(** An octet text that parses is the decimal text of its value. *)
Definition octet_text_canonical (o : string) : bool :=
  match ipaddress._parse_octet o with
  | Val n => String.eqb o (PyStr.of_int n) && (0 <=? n)%Z && (n <=? 255)%Z
  | Exc _ => true
  end.

(** The decimal text of an octet parses to it and has neither dot nor
    slash. *)
Definition octet_value_parses (n : Z) : bool :=
  match ipaddress._parse_octet (PyStr.of_int n) with
  | Val m => (m =? n)%Z
  | Exc _ => false
  end
  && negb (PyStr.contains "." (PyStr.of_int n))
  && negb (PyStr.contains "/" (PyStr.of_int n)).

Definition octet_values : list Z := map Z.of_nat (seq 0 256).

(** White space and figures of the latency pattern. *)
Fixpoint all_spaces (s : string) : bool :=
  match s with
  | EmptyString => true
  | String c t => PyStr.is_space c && all_spaces t
  end.

Fixpoint all_num_chars (s : string) : bool :=
  match s with
  | EmptyString => true
  | String c t => re.is_num_char c && all_num_chars t
  end.

(** The texts the pattern of line 127 matches, with their group: [time], an
    optional [=] or [<], white space, a non-empty run of digits and dots,
    white space, [ms]. *)
Inductive latency_fragment : string -> string -> Prop :=
  | fragment sign sp1 g sp2 :
      sign = "" \/ sign = "=" \/ sign = "<" ->
      all_spaces sp1 = true ->
      all_num_chars g = true -> g <> "" ->
      all_spaces sp2 = true ->
      latency_fragment ("time" ++ sign ++ sp1 ++ g ++ sp2 ++ "ms") g.

(** The text is empty or starts with a character that fails the test. *)
Definition starts_without (test : ascii -> bool) (s : string) : Prop :=
  match s with
  | EmptyString => True
  | String c _ => test c = false
  end.

(** The records [get_json] writes to the log. *)
Definition from_get_json (m : message) : bool :=
  match m with
  | Requesting _ _ | UnexpectedStatus _ _ _ | WrongContentType _ _ _
  | PayloadNotDict _ | InvalidIp _ _ | HttpOk _ _ _ | RequestFailed _ _ _ => true
  | _ => false
  end.

Definition is_missing_keys (r : level * message) : bool :=
  match snd r with
  | MissingKeys _ => true
  | _ => false
  end.

Section Soundness.
Context {P : Platform}.

(** Metadata as the loop builds it: a validated address, a country code
    that upper-casing leaves as it is, and an attempt counted from 1. *)
Definition sound_metadata (md : metadata) : Prop :=
  validated md /\
  PyStr.upper (m_country_code md) = m_country_code md /\
  (1 <= m_attempt md)%nat.

Definition cache_sound (s : state) : Prop :=
  forall md, _ip_cache_data s = Some md -> sound_metadata md.

End Soundness.

(** A world without network and without ping binary: every request fails
    with a connection error. *)
Module Offline.

Definition platform : Platform := {|
  world := Q;
  monotonic t := (t, t + 1);
  session_get _ w := (Exc (RequestException "ConnectionError"), w);
  random_sample population w := (population, w);
  subprocess_run _ w := (Exc (OSError "ping: not found"), w);
  IPv6Address _ := Exc (ValueError "not an IPv6 address");
  repr_finite _ := "0.0";
  repr_str s := s;
  utf8_encodable _ := true
|}.

End Offline.

(** ** Vocabulary of the corrections *)

(** Half a unit in the last place below the TTL, [2 ^ -49]: the exact
    differences from [TTL - TTL_MARGIN] on are rounded to the TTL or more. *)
Definition TTL_MARGIN : Q := 1 # 562949953421312.

(** What [ping -4 -c 1 -w 2] of iputils prints when no reply arrives
    before the deadline; it exits with status 1. *)
Definition lost_ping_output : string :=
  "PING 203.0.113.5 (203.0.113.5) 56(84) bytes of data." ++ newline
    ++ newline
    ++ "--- 203.0.113.5 ping statistics ---" ++ newline
    ++ "2 packets transmitted, 0 received, 100% packet loss, time 1001ms"
    ++ newline.

(** A scripted world in which every request takes ten seconds. *)
Module Slow.

Definition answer (url : string) (w : Scripted.script)
  : outcome response * Scripted.script :=
  (Scripted.web w url,
   {| Scripted.clock := Scripted.clock w + 10; Scripted.web := Scripted.web w;
      Scripted.shuffle := Scripted.shuffle w; Scripted.pings := Scripted.pings w |}).

Definition platform : Platform := {|
  world := Scripted.script;
  monotonic w := (Scripted.clock w, Scripted.tick w);
  session_get := answer;
  random_sample population w := (Scripted.shuffle w population, w);
  subprocess_run _ w := Scripted.next_ping w;
  IPv6Address s :=
    if PyStr.contains ":" s then Val 0%Z else Exc (ValueError "not an IPv6 address");
  repr_finite _ := "0.0";
  repr_str s := "'" ++ s ++ "'";
  utf8_encodable _ := true
|}.

(** The host has moved: the providers report another address. *)
Definition moved_body : json :=
  JObject [("ip", JString "198.51.100.7"); ("country_code", JString "de")].

Definition all_moved : string -> outcome response :=
  fun _ => Val (Scripted.json_response moved_body).

Definition at_clock (now : Q) (answers : string -> outcome response)
  : Scripted.script :=
  {| Scripted.clock := now; Scripted.web := answers;
     Scripted.shuffle := fun l => l; Scripted.pings := [] |}.

End Slow.

(** A scripted world whose providers can send a surrogate code point.  The
    characters of the model are bytes; this world reads the byte 237, which
    is no ASCII character, as the code point U+D800: a JSON body spells it
    [\ud800], [str.upper] leaves it as it is and [str.encode] refuses
    it. *)
Module Surrogate.

Definition lone : ascii := ascii_of_nat 237.

Definition platform : Platform := {|
  world := Scripted.script;
  monotonic w := (Scripted.clock w, Scripted.tick w);
  session_get url w := (Scripted.web w url, w);
  random_sample population w := (Scripted.shuffle w population, w);
  subprocess_run _ w := Scripted.next_ping w;
  IPv6Address s :=
    if PyStr.contains ":" s then Val 0%Z else Exc (ValueError "not an IPv6 address");
  repr_finite _ := "0.0";
  repr_str s := "'" ++ s ++ "'";
  utf8_encodable s := negb (PyStr.contains lone s)
|}.

(** [{"ip": "203.0.113.5", "country_code": "\ud800"}] *)
Definition body : json :=
  JObject [("ip", JString "203.0.113.5");
           ("country_code", JString (String lone EmptyString))].

Definition answers : string -> outcome response :=
  fun _ => Val (Scripted.json_response body).

End Surrogate.

(** ** Tactics *)

Ltac unfold_steps :=
  unfold bind, ret, lift, logger, time_monotonic, http_get, sample, run_stdout,
    load_cache, store_cache, try_except, set_env in *.

Ltac run := unfold_steps; simpl in *.

(** One step of symbolic execution: ask the world for the answer to the next
    call, or split on the next test. *)
Ltac step :=
  match goal with
  | |- context [monotonic ?w] =>
      let t := fresh "t" in let w' := fresh "w" in let E := fresh "Eclock" in
      destruct (monotonic w) as [t w'] eqn:E
  | |- context [session_get ?u ?w] =>
      let o := fresh "o" in let w' := fresh "w" in let E := fresh "Eget" in
      destruct (session_get u w) as [o w'] eqn:E; destruct o
  | |- context [subprocess_run ?a ?w] =>
      let o := fresh "o" in let w' := fresh "w" in let E := fresh "Erun" in
      destruct (subprocess_run a w) as [o w'] eqn:E; destruct o
  | |- context [random_sample ?l ?w] =>
      let o := fresh "order" in let w' := fresh "w" in let E := fresh "Esample" in
      destruct (random_sample l w) as [o w'] eqn:E
  | |- context [json_result ?r] =>
      let E := fresh "Ejson" in destruct (json_result r) eqn:E
  | |- context [match ?x with _ => _ end] => is_var x; destruct x
  | |- context [if ?b then _ else _] =>
      let E := fresh "Etest" in destruct b eqn:E
  | |- context [match ?x with _ => _ end] =>
      let E := fresh "Ecase" in destruct x eqn:E
  end; simpl.

Ltac enter_get_json H :=
  destruct H as (?w & ?w & Hclock0 & Hget & Hclock1);
  unfold get_json; run; rewrite Hclock0; simpl; rewrite Hget; simpl;
  rewrite Hclock1; simpl.

Ltac same_state :=
  unfold after_request; simpl; repeat rewrite <- app_assoc; reflexivity.

(** * Properties *)

(** ** The rounded difference *)

Section Doubles.
Import float64.

Lemma round_half_even_bounds (q : Q) :
  (Qfloor q <= round_half_even q <= Qfloor q + 1)%Z.
Proof.
  unfold round_half_even. cbv zeta.
  destruct (Qcompare (q - inject_Z (Qfloor q)) (1 # 2)); [|lia|lia].
  destruct (Z.even (Qfloor q)); lia.
Qed.

Lemma inject_Z_pred (m : Z) : inject_Z (m - 1) == inject_Z m - 1.
Proof.
  unfold Z.sub. rewrite inject_Z_plus, inject_Z_opp.
  change (inject_Z 1) with 1. lra.
Qed.

(** An integer above [q] is above its rounding, one below is below. *)
Lemma round_half_even_le (q : Q) (m : Z) :
  q <= inject_Z m -> (round_half_even q <= m)%Z.
Proof.
  intros H. pose proof (Qfloor_le q) as Hf. pose proof (Qlt_floor q) as Hl.
  assert (Hfm : (Qfloor q <= m)%Z).
  { rewrite Zle_Qle. lra. }
  unfold round_half_even. cbv zeta.
  destruct (Z.eq_dec (Qfloor q) m) as [E|E].
  - assert (Hq : q == inject_Z m) by (rewrite <- E in *; lra).
    assert (Hc : Qcompare (q - inject_Z (Qfloor q)) (1 # 2) = Lt).
    { apply -> Qlt_alt. rewrite E. lra. }
    rewrite Hc. lia.
  - destruct (Qcompare (q - inject_Z (Qfloor q)) (1 # 2)); [|lia|lia].
    destruct (Z.even (Qfloor q)); lia.
Qed.

Lemma round_half_even_ge (q : Q) (m : Z) :
  inject_Z m <= q -> (m <= round_half_even q)%Z.
Proof.
  intros H. pose proof (round_half_even_bounds q) as Hb.
  assert (Hfm : (m <= Qfloor q)%Z).
  { rewrite <- (Qfloor_Z m). apply Qfloor_resp_le. exact H. }
  lia.
Qed.

(** Half way below an even integer rounds up to it. *)
Lemma round_half_even_tie (q : Q) (m : Z) :
  Z.even m = true -> inject_Z m - (1 # 2) <= q -> (m <= round_half_even q)%Z.
Proof.
  intros Hev H. pose proof (Qfloor_le q) as Hf. pose proof (Qlt_floor q) as Hl.
  pose proof (round_half_even_bounds q) as Hb.
  pose proof (inject_Z_pred m) as Hm1.
  assert (Hfm : (m - 1 <= Qfloor q)%Z).
  { rewrite <- (Qfloor_Z (m - 1)). apply Qfloor_resp_le. lra. }
  destruct (Z.eq_dec (Qfloor q) (m - 1)) as [E|E]; [|lia].
  unfold round_half_even. cbv zeta. rewrite E.
  assert (Hodd : Z.even (m - 1) = false).
  { rewrite Z.even_sub, Hev. reflexivity. }
  rewrite Hodd.
  destruct (Qcompare (q - inject_Z (m - 1)) (1 # 2)) eqn:Hc; try lia.
  apply Qlt_alt in Hc. lra.
Qed.

(** Below that half way point the rounding stays below. *)
Lemma round_half_even_below (q : Q) (m : Z) :
  q < inject_Z m - (1 # 2) -> (round_half_even q <= m - 1)%Z.
Proof.
  intros H. pose proof (Qfloor_le q) as Hf. pose proof (Qlt_floor q) as Hl.
  pose proof (round_half_even_bounds q) as Hb.
  pose proof (inject_Z_pred m) as Hm1.
  assert (Hfm : (Qfloor q <= m - 1)%Z).
  { assert (Hlt : (Qfloor q < m)%Z) by (rewrite Zlt_Qlt; lra). lia. }
  destruct (Z.eq_dec (Qfloor q) (m - 1)) as [E|E]; [|lia].
  unfold round_half_even. cbv zeta. rewrite E.
  assert (Hc : Qcompare (q - inject_Z (m - 1)) (1 # 2) = Lt).
  { apply -> Qlt_alt. lra. }
  rewrite Hc. lia.
Qed.

Lemma two_neq_0 : ~ 2 == 0.
Proof. intro H. discriminate H. Qed.

Lemma pow2_pos (e : Z) : 0 < 2 ^ e.
Proof. apply Qpower_0_lt. reflexivity. Qed.

Lemma pow2_succ (e : Z) : 2 ^ (e + 1) == 2 * 2 ^ e.
Proof. rewrite Qpower_plus by exact two_neq_0. rewrite Qpower_1_r. lra. Qed.

Lemma pow2_Z (n : Z) : (0 <= n)%Z -> inject_Z (2 ^ n) == 2 ^ n.
Proof. intros H. rewrite (Zpower_Qpower 2 n H). reflexivity. Qed.

(** [2 ^ a] as a multiple of a smaller power. *)
Lemma pow2_split (a e : Z) :
  (e <= a)%Z -> 2 ^ a == inject_Z (2 ^ (a - e)) * 2 ^ e.
Proof.
  intros H. rewrite pow2_Z by lia. rewrite <- Qpower_plus by exact two_neq_0.
  replace (a - e + e)%Z with a by lia. reflexivity.
Qed.

(** [binade] is the exponent of the binade of [q]. *)
Lemma binade_spec (q : Q) :
  0 < q -> 2 ^ binade q <= q /\ q < 2 ^ (binade q + 1).
Proof.
  intros Hq. destruct q as [n d]. unfold binade. cbn [Qnum Qden].
  assert (Hn : (0 < n)%Z).
  { unfold Qlt in Hq. cbn in Hq. lia. }
  set (ln := Z.log2 n). set (ld := Z.log2 (Z.pos d)).
  destruct (Z.log2_spec n Hn) as (Hn1 & Hn2). fold ln in Hn1, Hn2.
  destruct (Z.log2_spec (Z.pos d) (Pos2Z.is_pos d)) as (Hd1 & Hd2).
  fold ld in Hd1, Hd2.
  assert (Hln : (0 <= ln)%Z) by apply Z.log2_nonneg.
  assert (Hld : (0 <= ld)%Z) by apply Z.log2_nonneg.
  pose proof (pow2_pos ln) as Pa. pose proof (pow2_pos ld) as Pb.
  assert (Ha1 : 2 ^ ln <= inject_Z n).
  { rewrite <- pow2_Z by exact Hln. rewrite <- Zle_Qle. exact Hn1. }
  assert (Ha2 : inject_Z n < 2 * 2 ^ ln).
  { rewrite <- pow2_succ. rewrite <- pow2_Z by lia. rewrite <- Zlt_Qlt.
    exact Hn2. }
  assert (Hb1 : 2 ^ ld <= inject_Z (Z.pos d)).
  { rewrite <- pow2_Z by exact Hld. rewrite <- Zle_Qle. exact Hd1. }
  assert (Hb2 : inject_Z (Z.pos d) < 2 * 2 ^ ld).
  { rewrite <- pow2_succ. rewrite <- pow2_Z by lia. rewrite <- Zlt_Qlt.
    exact Hd2. }
  assert (HD : 0 < inject_Z (Z.pos d)) by (rewrite <- (Zlt_Qlt 0); lia).
  assert (Hqe : n # d == inject_Z n / inject_Z (Z.pos d)) by apply Qmake_Qdiv.
  assert (He : 2 ^ (ln - ld) == 2 ^ ln / 2 ^ ld)
    by (apply Qpower_minus; exact two_neq_0).
  destruct (Qle_bool (2 ^ (ln - ld)) (n # d)) eqn:Htest.
  - apply Qle_bool_iff in Htest. split; [exact Htest|].
    rewrite pow2_succ, He, Hqe.
    apply Qlt_shift_div_r; [exact HD|].
    setoid_replace (2 * (2 ^ ln / 2 ^ ld) * inject_Z (Z.pos d))
      with (2 * 2 ^ ln * (inject_Z (Z.pos d) / 2 ^ ld)) by (field; lra).
    assert (H1 : 1 <= inject_Z (Z.pos d) / 2 ^ ld).
    { apply Qle_shift_div_l; [exact Pb|]. lra. }
    nra.
  - assert (Hlt : n # d < 2 ^ (ln - ld)).
    { apply Qnot_le_lt. intro H. apply Qle_bool_iff in H. congruence. }
    replace (ln - ld - 1 + 1)%Z with (ln - ld)%Z by lia.
    split; [|exact Hlt].
    assert (He' : 2 ^ (ln - ld) == 2 * 2 ^ (ln - ld - 1)).
    { rewrite <- pow2_succ. replace (ln - ld - 1 + 1)%Z with (ln - ld)%Z by lia.
      reflexivity. }
    assert (Hgoal : 2 ^ ln / 2 ^ ld <= 2 * (inject_Z n / inject_Z (Z.pos d))).
    { apply Qle_shift_div_r; [exact Pb|].
      setoid_replace (2 * (inject_Z n / inject_Z (Z.pos d)) * 2 ^ ld)
        with (inject_Z n * (2 * 2 ^ ld / inject_Z (Z.pos d))) by (field; lra).
      assert (H1 : 1 <= 2 * 2 ^ ld / inject_Z (Z.pos d)).
      { apply Qle_shift_div_l; [exact HD|]. lra. }
      nra. }
    rewrite Hqe. rewrite He in He'. lra.
Qed.

Lemma scaled_le (u q : Q) (m : Z) :
  0 < u -> q <= inject_Z m * u ->
  inject_Z (round_half_even (q / u)) * u <= inject_Z m * u.
Proof.
  intros Hu H. apply Qmult_le_compat_r; [|lra].
  rewrite <- Zle_Qle. apply round_half_even_le.
  apply Qle_shift_div_r; assumption.
Qed.

Lemma scaled_ge (u q : Q) (m : Z) :
  0 < u -> inject_Z m * u <= q ->
  inject_Z m * u <= inject_Z (round_half_even (q / u)) * u.
Proof.
  intros Hu H. apply Qmult_le_compat_r; [|lra].
  rewrite <- Zle_Qle. apply round_half_even_ge.
  apply Qle_shift_div_l; assumption.
Qed.

Lemma Qabs_pos_eq (q : Q) : 0 < q -> Qabs q = q.
Proof.
  destruct q as [n d]. unfold Qlt, Qabs. cbn. intros H.
  rewrite Z.abs_eq by lia. reflexivity.
Qed.

Lemma round_nonzero (q : Q) :
  ~ q == 0 -> round q = inject_Z (round_half_even (q / ulp q)) * ulp q.
Proof.
  intros H. unfold round. destruct (Qeq_bool q 0) eqn:E; [|reflexivity].
  apply Qeq_bool_iff in E. contradiction.
Qed.

Lemma ulp_pos (q : Q) : 0 < ulp q.
Proof. apply pow2_pos. Qed.

(** A difference under [TTL - TTL_MARGIN] is rounded to a double under the
    TTL: to the one next below it at most, [30 - 2 ^ -48]. *)
Lemma round_below_TTL (q : Q) :
  q < CACHE_TTL_SECONDS - TTL_MARGIN -> round q < CACHE_TTL_SECONDS.
Proof.
  unfold TTL_MARGIN, CACHE_TTL_SECONDS. intros H.
  destruct (Qeq_bool q 0) eqn:E0.
  - unfold round. rewrite E0. reflexivity.
  - assert (Hnz : ~ q == 0).
    { intro Hz. apply Qeq_bool_iff in Hz. congruence. }
    rewrite (round_nonzero Hnz). pose proof (ulp_pos q) as Hu.
    destruct (Qlt_le_dec 0 q) as [Hpos|Hneg].
    + unfold ulp in *. rewrite (Qabs_pos_eq Hpos) in *.
      destruct (binade_spec Hpos) as (Hlo & Hhi).
      set (b := binade q) in *.
      assert (Hb : (b <= 4)%Z).
      { destruct (Z_le_gt_dec b 4) as [Hle|Hgt]; [exact Hle|].
        assert (H5 : 2 ^ 5 <= 2 ^ b) by (apply Qpower_le_compat_l; [lia|lra]).
        assert (H32 : 2 ^ 5 == 32) by reflexivity.
        lra. }
      destruct (Z.eq_dec b 4) as [E4|N4].
      * rewrite E4 in *. change (Z.max 4 (-1022) - 52)%Z with (-48)%Z in *.
        assert (Hu48 : 2 ^ (-48) == 1 # 281474976710656) by reflexivity.
        assert (Hr : (round_half_even (q / 2 ^ (-48)) <= 8444249301319680 - 1)%Z).
        { apply round_half_even_below. apply Qlt_shift_div_r; [exact Hu|].
          rewrite Hu48. change (inject_Z 8444249301319680) with 8444249301319680.
          lra. }
        rewrite Zle_Qle in Hr. rewrite Hu48 in *.
        change (inject_Z (8444249301319680 - 1)) with 8444249301319679 in Hr.
        nra.
      * set (E := (Z.max b (-1022) - 52)%Z) in *.
        assert (HE : (E <= 4)%Z) by lia.
        assert (H16 : q <= inject_Z (2 ^ (4 - E)) * 2 ^ E).
        { rewrite <- (pow2_split HE).
          assert (Hb1 : 2 ^ (b + 1) <= 2 ^ 4)
            by (apply Qpower_le_compat_l; [lia|lra]).
          lra. }
        pose proof (scaled_le Hu H16) as Hr.
        rewrite <- (pow2_split HE) in Hr.
        assert (H4 : 2 ^ 4 == 16) by reflexivity.
        lra.
    + assert (H0 : q <= inject_Z 0 * ulp q).
      { change (inject_Z 0) with 0. lra. }
      pose proof (scaled_le Hu H0) as Hr.
      change (inject_Z 0) with 0 in Hr. lra.
Qed.

(** From [TTL - TTL_MARGIN] on, a difference is rounded to the TTL or to a
    double above it: the tie at [TTL - TTL_MARGIN] goes to the TTL, whose
    significand is even. *)
Lemma round_from_TTL (q : Q) :
  CACHE_TTL_SECONDS - TTL_MARGIN <= q -> CACHE_TTL_SECONDS <= round q.
Proof.
  unfold TTL_MARGIN, CACHE_TTL_SECONDS. intros H.
  assert (Hpos : 0 < q) by lra.
  assert (Hnz : ~ q == 0) by lra.
  rewrite (round_nonzero Hnz). pose proof (ulp_pos q) as Hu.
  unfold ulp in *. rewrite (Qabs_pos_eq Hpos) in *.
  destruct (binade_spec Hpos) as (Hlo & Hhi).
  set (b := binade q) in *.
  assert (Hb : (4 <= b)%Z).
  { assert (H4 : 2 ^ 4 < 2 ^ (b + 1)).
    { assert (H16 : 2 ^ 4 == 16) by reflexivity. lra. }
    apply Qpower_lt_compat_l_inv in H4; [lia|lra]. }
  destruct (Z.eq_dec b 4) as [E4|N4].
  - rewrite E4 in *. change (Z.max 4 (-1022) - 52)%Z with (-48)%Z in *.
    assert (Hu48 : 2 ^ (-48) == 1 # 281474976710656) by reflexivity.
    assert (Hr : (8444249301319680 <= round_half_even (q / 2 ^ (-48)))%Z).
    { apply round_half_even_tie; [reflexivity|].
      apply Qle_shift_div_l; [exact Hu|].
      rewrite Hu48. change (inject_Z 8444249301319680) with 8444249301319680.
      lra. }
    rewrite Zle_Qle in Hr. rewrite Hu48 in *.
    change (inject_Z 8444249301319680) with 8444249301319680 in Hr.
    nra.
  - replace (Z.max b (-1022)) with b in * by lia.
    assert (HE : (b - 52 <= b)%Z) by lia.
    assert (Hm : inject_Z (2 ^ (b - (b - 52))) * 2 ^ (b - 52) <= q).
    { rewrite <- (pow2_split HE). exact Hlo. }
    pose proof (scaled_ge Hu Hm) as Hr.
    rewrite <- (pow2_split HE) in Hr.
    assert (H5 : 2 ^ 5 <= 2 ^ b) by (apply Qpower_le_compat_l; [lia|lra]).
    assert (H32 : 2 ^ 5 == 32) by reflexivity.
    lra.
Qed.

(** The test of line 191, on the rounded difference, in terms of the exact
    one. *)
Lemma sub_lt_TTL (x y : Q) :
  float64.sub x y < CACHE_TTL_SECONDS <-> x - y < CACHE_TTL_SECONDS - TTL_MARGIN.
Proof.
  unfold float64.sub. split; intros H.
  - destruct (Qlt_le_dec (x - y) (CACHE_TTL_SECONDS - TTL_MARGIN)) as [Hlt|Hge];
      [exact Hlt|].
    pose proof (round_from_TTL Hge). lra.
  - apply round_below_TTL. exact H.
Qed.

(** The rounding on three differences, as CPython computes them:
    [0.3 - 0.1] is [0.19999999999999998], [1e16 - 1.0] is [1e16] (a tie,
    which goes to the even significand), and
    [31.095513149 - 1.095513149] is [30.0]. *)
Lemma sub_examples :
  float64.sub (5404319552844595 # 18014398509481984)
              (3602879701896397 # 36028797018963968)
    == 7205759403792793 # 36028797018963968 /\
  float64.sub 10000000000000000 1 == 10000000000000000 /\
  float64.sub (34189878278987 # 1099511627776)
              (4933752609615879 # 4503599627370496) == 30.
Proof. split; [|split]; vm_compute; reflexivity. Qed.

End Doubles.

(** ** Address syntax *)

Section AddressFacts.
Context {P : Platform}.

Lemma is_valid_ipv4_eq (s : string) :
  is_valid_ipv4 s = match ipaddress.IPv4Address s with Val _ => true | Exc _ => false end.
Proof.
  unfold is_valid_ipv4, ipaddress.ip_address.
  destruct (ipaddress.IPv4Address s); [reflexivity|].
  destruct (IPv6Address s); reflexivity.
Qed.

Lemma from_octets_digits (l : list string) :
  forall acc n, ipaddress.from_octets acc l = Val n ->
  Forall (fun o => PyStr.isdigit o = true) l.
Proof.
  induction l as [|o l IH]; intros acc n H; [constructor|].
  simpl in H. destruct (ipaddress._parse_octet o) as [v|e] eqn:E; [|discriminate].
  constructor; [|eapply IH; eassumption].
  unfold ipaddress._parse_octet in E.
  destruct (String.eqb o ""); [discriminate|].
  destruct (PyStr.isdigit o); [reflexivity|discriminate].
Qed.

Lemma from_octets_each (l : list string) :
  forall acc n o, ipaddress.from_octets acc l = Val n -> In o l ->
  exists v, ipaddress._parse_octet o = Val v.
Proof.
  induction l as [|o' l IH]; intros acc n o H Hin; [destruct Hin|].
  simpl in H. destruct (ipaddress._parse_octet o') as [v|e] eqn:E; [|discriminate].
  destruct Hin as [->|Hin]; [eauto|eapply IH; eassumption].
Qed.

Lemma isdigit_all_digits (o : string) :
  PyStr.isdigit o = true -> PyStr.all_digits o = true.
Proof. destruct o; [discriminate|trivial]. Qed.

(** Every character of the text is in one of the pieces or is the
    separator. *)
Lemma split_chars (sep : ascii) (s : string) :
  Forall (fun o => PyStr.all_digits o = true) (PyStr.split sep s) ->
  forall c, In c (list_ascii_of_string s) ->
  PyStr.is_ascii_digit c = true \/ c = sep.
Proof.
  induction s as [|a s IH]; intros HF c Hin; [destruct Hin|].
  simpl in HF, Hin. destruct (Ascii.eqb_spec a sep) as [->|Hne].
  - inversion HF; subst. destruct Hin as [<-|Hin]; [now right|now apply IH].
  - destruct (PyStr.split sep s) as [|w ws] eqn:E.
    + inversion HF as [|? ? Hd _]; subst. simpl in Hd.
      apply andb_true_iff in Hd as [Hd _].
      destruct Hin as [<-|Hin]; [now left|].
      apply IH; [constructor|assumption].
    + inversion HF as [|? ? Hd Hr]; subst. simpl in Hd.
      apply andb_true_iff in Hd as [Hd Hw].
      destruct Hin as [<-|Hin]; [now left|].
      apply IH; [constructor; assumption|assumption].
Qed.

(** An address the parser accepts is made of decimal digits and dots. *)
Lemma IPv4Address_chars (s : string) (n : Z) :
  ipaddress.IPv4Address s = Val n ->
  forall c, In c (list_ascii_of_string s) ->
  PyStr.is_ascii_digit c = true \/ c = "."%char.
Proof.
  unfold ipaddress.IPv4Address, ipaddress._ip_int_from_string. intros H.
  destruct (PyStr.contains "/" s); [discriminate|].
  destruct (String.eqb s ""); [discriminate|].
  destruct (negb _); [discriminate|].
  apply from_octets_digits in H.
  apply split_chars.
  eapply Forall_impl; [|exact H]. apply isdigit_all_digits.
Qed.

(** A text with a character that is neither a digit nor a dot - every
    IPv6 literal has a colon, every host name a letter or a hyphen - is
    not a valid IPv4 address. *)
Lemma is_valid_ipv4_foreign_char (s : string) (c : ascii) :
  In c (list_ascii_of_string s) ->
  PyStr.is_ascii_digit c = false -> c <> "."%char ->
  is_valid_ipv4 s = false.
Proof.
  intros Hin Hd Hdot. rewrite is_valid_ipv4_eq.
  destruct (ipaddress.IPv4Address s) as [n|e] eqn:E; [|reflexivity].
  edestruct IPv4Address_chars as [H|H]; [exact E|exact Hin| |]; congruence.
Qed.

(** A text one of whose dot-separated parts is not an octet (empty, not
    decimal, longer than three digits, with a leading zero, above 255) is
    not a valid IPv4 address. *)
Lemma is_valid_ipv4_bad_octet (s o : string) (e : exn) :
  In o (PyStr.split "." s) -> ipaddress._parse_octet o = Exc e ->
  is_valid_ipv4 s = false.
Proof.
  intros Hin Ho. rewrite is_valid_ipv4_eq.
  destruct (ipaddress.IPv4Address s) as [n|e'] eqn:E; [|reflexivity].
  unfold ipaddress.IPv4Address, ipaddress._ip_int_from_string in E.
  destruct (PyStr.contains "/" s); [discriminate|].
  destruct (String.eqb s ""); [discriminate|].
  destruct (negb _); [discriminate|].
  edestruct from_octets_each as [v Hv]; [exact E|exact Hin|]. congruence.
Qed.

Lemma is_valid_ipv4_four_parts (s : string) :
  is_valid_ipv4 s = true -> List.length (PyStr.split "." s) = 4%nat.
Proof.
  rewrite is_valid_ipv4_eq.
  unfold ipaddress.IPv4Address, ipaddress._ip_int_from_string.
  destruct (PyStr.contains "/" s); [discriminate|].
  destruct (String.eqb s ""); [discriminate|].
  destruct (List.length (PyStr.split "." s) =? 4)%nat eqn:E; [|discriminate].
  intros _. now apply Nat.eqb_eq.
Qed.

End AddressFacts.

(** ** Running the computations *)

Section GetJson.
Context {P : Platform}.

Lemma same_cache_refl s : same_cache s s.
Proof. repeat split. Qed.

Lemma same_cache_trans s1 s2 s3 :
  same_cache s1 s2 -> same_cache s2 s3 -> same_cache s1 s3.
Proof. unfold same_cache. intuition congruence. Qed.

Lemma Qltb_lt (x y : Q) : Qltb x y = true <-> x < y.
Proof.
  unfold Qltb. rewrite negb_true_iff. split; intro H.
  - apply Qnot_le_lt. intro Hle. apply Qle_bool_iff in Hle. congruence.
  - destruct (Qle_bool y x) eqn:E; [|reflexivity].
    apply Qle_bool_iff in E. exfalso. apply (Qlt_not_le _ _ H E).
Qed.

Lemma Qltb_ge (x y : Q) : Qltb x y = false <-> y <= x.
Proof.
  unfold Qltb. rewrite negb_false_iff. apply Qle_bool_iff.
Qed.

(** [get_json] sends exactly one request, to [url], and touches neither
    the cache nor the ping binary, whatever comes back. *)
Lemma get_json_frame (name url : string) (s s' : state) out :
  get_json name url s = (out, s') ->
  same_cache s s' /\ processes_run s' = processes_run s /\
  requests_sent s' = (requests_sent s ++ [url])%list.
Proof.
  unfold get_json, same_cache. run.
  repeat step; intros H; inversion H; subst; simpl; auto.
Qed.
End GetJson.

(** ** The validation of one response *)

Section Validation.
Context {P : Platform}.

Lemma get_json_status name url s t0 r t1 w :
  answers s url t0 r t1 w -> status_code r <> 200%Z ->
  get_json name url s =
    (Val None,
     after_request s w url
       [(DEBUG, Requesting name url);
        (WARNING, UnexpectedStatus name (status_code r) ((t1 - t0) * 1000))]).
Proof.
  intros H Hs. enter_get_json H.
  apply Z.eqb_neq in Hs. rewrite Hs. simpl. same_state.
Qed.

Lemma get_json_content_type name url s t0 r t1 w :
  answers s url t0 r t1 w -> status_code r = 200%Z ->
  PyStr.startswith (declared_type r) "application/json" = false ->
  get_json name url s =
    (Val None,
     after_request s w url
       [(DEBUG, Requesting name url);
        (WARNING, WrongContentType name (content_type r) ((t1 - t0) * 1000))]).
Proof.
  intros H Hs Hct. enter_get_json H.
  rewrite Hs. unfold declared_type in Hct. simpl. rewrite Hct. simpl. same_state.
Qed.

Lemma get_json_not_dict name url s t0 r t1 w v :
  answers s url t0 r t1 w -> status_code r = 200%Z ->
  PyStr.startswith (declared_type r) "application/json" = true ->
  json_result r = Val v -> (forall d, v <> JObject d) ->
  get_json name url s =
    (Val None,
     after_request s w url
       [(DEBUG, Requesting name url); (WARNING, PayloadNotDict name)]).
Proof.
  intros H Hs Hct Hj Hv. enter_get_json H.
  rewrite Hs. unfold declared_type in Hct. simpl. rewrite Hct. simpl.
  rewrite Hj. destruct v; simpl; try same_state.
  exfalso. eapply Hv. reflexivity.
Qed.

Lemma get_json_ip_not_str name url s t0 r t1 w d :
  answers s url t0 r t1 w -> status_code r = 200%Z ->
  PyStr.startswith (declared_type r) "application/json" = true ->
  json_result r = Val (JObject d) ->
  (forall ip, dict_get d "ip" <> Some (JString ip)) ->
  get_json name url s =
    (Val None,
     after_request s w url
       [(DEBUG, Requesting name url); (WARNING, InvalidIp name (dict_get d "ip"))]).
Proof.
  intros H Hs Hct Hj Hip. enter_get_json H.
  rewrite Hs. unfold declared_type in Hct. simpl. rewrite Hct. simpl.
  rewrite Hj. simpl.
  destruct (dict_get d "ip") as [[| | | |ip| |]|] eqn:E; simpl; try same_state.
  exfalso. eapply Hip. reflexivity.
Qed.

Lemma get_json_bad_ip name url s t0 r t1 w d ip :
  answers s url t0 r t1 w -> status_code r = 200%Z ->
  PyStr.startswith (declared_type r) "application/json" = true ->
  json_result r = Val (JObject d) ->
  dict_get d "ip" = Some (JString ip) -> is_valid_ipv4 ip = false ->
  get_json name url s =
    (Val None,
     after_request s w url
       [(DEBUG, Requesting name url);
        (WARNING, InvalidIp name (Some (JString ip)))]).
Proof.
  intros H Hs Hct Hj Hip Hv. enter_get_json H.
  rewrite Hs. unfold declared_type in Hct. simpl. rewrite Hct. simpl.
  rewrite Hj. simpl. rewrite Hip, Hv. simpl. same_state.
Qed.

Lemma get_json_accepts name url s t0 r t1 w d ip :
  answers s url t0 r t1 w -> status_code r = 200%Z ->
  PyStr.startswith (declared_type r) "application/json" = true ->
  json_result r = Val (JObject d) ->
  dict_get d "ip" = Some (JString ip) -> is_valid_ipv4 ip = true ->
  get_json name url s =
    (Val (Some (d, (t1 - t0) * 1000, String.length (content r))),
     after_request s w url
       [(DEBUG, Requesting name url);
        (INFO, HttpOk name ((t1 - t0) * 1000) (String.length (content r)))]).
Proof.
  intros H Hs Hct Hj Hip Hv. enter_get_json H.
  rewrite Hs. unfold declared_type in Hct. simpl. rewrite Hct. simpl.
  rewrite Hj. simpl. rewrite Hip, Hv. simpl. same_state.
Qed.

(** A body that does not parse: [r.json()] raises a [ValueError], which
    the handler of line 108 turns into [None]. *)
Lemma get_json_unparsable name url s t0 r t1 w detail :
  answers s url t0 r t1 w -> status_code r = 200%Z ->
  PyStr.startswith (declared_type r) "application/json" = true ->
  json_result r = Exc (ValueError detail) ->
  get_json name url s =
    (Val None,
     after_request s (snd (monotonic w)) url
       [(DEBUG, Requesting name url);
        (WARNING, RequestFailed name ((fst (monotonic w) - t0) * 1000)
                    (ValueError detail))]).
Proof.
  intros H Hs Hct Hj. enter_get_json H.
  rewrite Hs. unfold declared_type in Hct. simpl. rewrite Hct. simpl.
  rewrite Hj. simpl. destruct (monotonic w). simpl. same_state.
Qed.

(** A transport failure: [session.get] raises a [RequestException]
    (connection error, timeout, ...), which the handler of line 108 turns
    into [None] as well. *)
Lemma get_json_transport_failure name url s detail :
  fst (session_get url (snd (monotonic (env s)))) = Exc (RequestException detail) ->
  fst (get_json name url s) = Val None /\
  requests_sent (snd (get_json name url s)) = (requests_sent s ++ [url])%list.
Proof.
  intros H. unfold get_json. run.
  destruct (monotonic (env s)) as [t0 w1]. simpl in *.
  destruct (session_get url w1) as [o w2]. simpl in *. subst o. simpl.
  destruct (monotonic w2). simpl. split; reflexivity.
Qed.

(** A tuple returned by [get_json] carries a string under ["ip"] that is a
    valid IPv4 address. *)
Lemma get_json_validated name url s d elapsed n s' :
  get_json name url s = (Val (Some (d, elapsed, n)), s') ->
  exists ip, dict_get d "ip" = Some (JString ip) /\ is_valid_ipv4 ip = true.
Proof.
  unfold get_json. run.
  repeat step; intros H; inversion H; subst.
  match goal with
  | E : match dict_get ?d "ip" with _ => _ end = false |- _ =>
      destruct (dict_get d "ip") as [[| | | |ip| |]|]; try discriminate E;
      exists ip; split; [reflexivity|]; now apply negb_false_iff in E
  end.
Qed.

End Validation.

(** ** The provider loop *)

Section Loop.
Context {P : Platform}.

(** One turn of the loop. *)
Lemma fetch_loop_cons k name url code_key rest s :
  fetch_loop k ((name, url, code_key) :: rest) s =
    match get_json name url (querying name k s) with
    | (Val None, s1) => fetch_loop (S k) rest s1
    | (Val (Some (j, elapsed, n)), s1) =>
        match getitem j "ip" with
        | Val ip =>
            (Val (Some (metadata_of name ip j code_key elapsed n k)),
             snd (logger INFO
                    (ProviderSuccess name ip (country_code_of j code_key) k elapsed n)
                    s1))
        | Exc _ => fetch_loop (S k) rest (snd (logger WARNING (MissingKeys name) s1))
        end
    | (Exc e, s1) => (Exc e, s1)
    end.
Proof.
  simpl. unfold bind at 1. unfold logger at 1. unfold bind at 1.
  unfold querying, logger at 1; simpl.
  destruct (get_json name url _) as [[[[[j elapsed] n]|]|e] s1]; try reflexivity.
  unfold try_except, bind, lift. destruct (getitem j "ip"); reflexivity.
Qed.

Lemma fetch_loop_nil k s :
  fetch_loop k [] s = (Val None, snd (logger ERROR AllProvidersFailed s)).
Proof. reflexivity. Qed.

(** Rejected providers are skipped, and the counter moves on. *)
Lemma fetch_loop_skip k pre rest s s1 :
  rejected_run k pre s s1 ->
  fetch_loop k (pre ++ rest) s = fetch_loop (k + List.length pre) rest s1.
Proof.
  induction 1 as [k s|k name url code_key pre s s1 s2 Hget Hrun IH].
  - simpl. now rewrite Nat.add_0_r.
  - change (((name, url, code_key) :: pre) ++ rest)%list
      with ((name, url, code_key) :: (pre ++ rest))%list.
    rewrite fetch_loop_cons, Hget, IH. simpl. f_equal. lia.
Qed.

(** The first provider that is accepted ends the loop. *)
Lemma fetch_loop_accept k name url code_key rest s j elapsed n s1 :
  get_json name url (querying name k s) = (Val (Some (j, elapsed, n)), s1) ->
  exists ip,
    dict_get j "ip" = Some (JString ip) /\ is_valid_ipv4 ip = true /\
    fetch_loop k ((name, url, code_key) :: rest) s =
      (Val (Some (metadata_of name (JString ip) j code_key elapsed n k)),
       snd (logger INFO
              (ProviderSuccess name (JString ip) (country_code_of j code_key) k
                 elapsed n) s1)).
Proof.
  intros Hget. destruct (get_json_validated _ _ _ Hget) as (ip & Hip & Hvalid).
  exists ip. repeat split; trivial.
  rewrite fetch_loop_cons, Hget. unfold getitem. now rewrite Hip.
Qed.

Lemma rejected_run_frame k l s s1 :
  rejected_run k l s s1 ->
  same_cache s s1 /\ processes_run s1 = processes_run s /\
  requests_sent s1 = (requests_sent s ++ map url_of l)%list.
Proof.
  induction 1 as [k s|k name url code_key pre s s1 s2 Hget Hrun IH].
  - simpl. rewrite app_nil_r. auto using same_cache_refl.
  - apply get_json_frame in Hget. destruct Hget as (Hc & Hp & Hr).
    destruct IH as (Hc' & Hp' & Hr').
    split; [|split].
    + eapply same_cache_trans; [|exact Hc']. exact Hc.
    + rewrite Hp', Hp. reflexivity.
    + rewrite Hr', Hr. simpl. rewrite <- app_assoc. reflexivity.
Qed.

Lemma fetch_loop_end order :
  forall k s, loop_end k order s (fst (fetch_loop k order s)) (snd (fetch_loop k order s)).
Proof.
  induction order as [|[[name url] code_key] rest IH]; intros k s.
  - rewrite fetch_loop_nil. simpl. apply end_exhausted. constructor.
  - rewrite fetch_loop_cons.
    destruct (get_json name url (querying name k s))
      as [[[[[j elapsed] n]|]|e] s1] eqn:Hget.
    + destruct (get_json_validated _ _ _ Hget) as (ip & Hip & Hvalid).
      unfold getitem. rewrite Hip.
      pose proof (@end_accepted P k ((name, url, code_key) :: rest) s [] name url
                    code_key rest s j elapsed n s1 ip eq_refl (rejected_nil k s)) as H.
      cbn [List.length] in H. rewrite Nat.add_0_r in H. now apply H.
    + specialize (IH (S k) s1).
      destruct (fetch_loop (S k) rest s1) as [o sx]. simpl in IH |- *.
      inversion IH as [s2 Hrun Ho Hs
                      |pre name' url' ck' post s2 j el n s3 ip Ho Hrun Hget' Hip Hv Hout Hst
                      |pre name' url' ck' post s2 e s3 Ho Hrun Hget' Hout Hst]; subst.
      * apply end_exhausted. econstructor; eassumption.
      * pose proof (@end_accepted P k
                      ((name, url, code_key) :: pre ++ (name', url', ck') :: post)%list s
                      ((name, url, code_key) :: pre) name' url' ck' post s2 j el n
                      s3 ip) as H.
        cbn [List.length] in H. rewrite Nat.add_succ_r in H.
        apply H; trivial; try reflexivity. econstructor; eassumption.
      * match goal with
        | Hg : get_json name' url' _ = (Exc ?e', ?sf) |- _ =>
            pose proof (@end_raised P k
                      ((name, url, code_key) :: pre ++ (name', url', ck') :: post)%list s
                      ((name, url, code_key) :: pre) name' url' ck' post s2 e' sf) as H
        end.
        cbn [List.length] in H. rewrite Nat.add_succ_r in H.
        apply H; trivial; try reflexivity. econstructor; eassumption.
    + pose proof (@end_raised P k ((name, url, code_key) :: rest) s [] name url
                    code_key rest s e s1 eq_refl (rejected_nil k s)) as H.
      cbn [List.length] in H. rewrite Nat.add_0_r in H. now apply H.
Qed.

End Loop.

(** ** The probe *)

Section Probe.
Context {P : Platform}.

Lemma reported_failed (o : outcome string) : probe_failed o -> reported o = None.
Proof.
  destruct 1 as [e|out H|out g e H1 H2]; simpl; trivial.
  - now rewrite H.
  - now rewrite H1, H2.
Qed.

(** [ping_ip] returns, whatever the process does. *)
Lemma ping_ip_returns (ip : string) (s : state) :
  fst (ping_ip (JString ip) s)
    = Val (reported (fst (subprocess_run (ping_argv ip) (env s)))).
Proof.
  unfold ping_ip, ping_argv. run.
  destruct (subprocess_run _ (env s)) as [[out|e] w]; simpl; trivial.
  destruct (re.search out) as [g|]; simpl; trivial.
  destruct (float_of_group g); reflexivity.
Qed.

Lemma ping_ip_frame (ip : string) (s : state) :
  same_cache s (snd (ping_ip (JString ip) s)) /\
  requests_sent (snd (ping_ip (JString ip) s)) = requests_sent s /\
  processes_run (snd (ping_ip (JString ip) s))
    = (processes_run s ++ [ping_argv ip])%list.
Proof.
  unfold ping_ip, ping_argv, same_cache. run.
  destruct (subprocess_run _ (env s)) as [[out|e] w]; simpl; auto.
  destruct (re.search out) as [g|]; simpl; auto.
  destruct (float_of_group g); simpl; auto.
Qed.

(** A probe on something that is not a string does not start a process,
    and returns [None] as well. *)
Lemma ping_ip_not_str (ip : json) (s : state) :
  (forall a, ip <> JString a) ->
  ping_ip ip s = (Val None, snd (logger WARNING
    (PingFailed ip (TypeError "expected str, bytes or os.PathLike object")) s)).
Proof.
  intros H. unfold ping_ip. run.
  destruct ip; try reflexivity. exfalso. eapply H. reflexivity.
Qed.

Lemma probe_and_assemble_eq md hit ip s :
  m_ip md = JString ip ->
  let latency := reported (fst (subprocess_run (ping_argv ip) (env s))) in
  probe_and_assemble md hit s =
    (Val (Some (assembled md latency)),
     snd (logger INFO
            (Resolved (m_provider md) (m_ip md) latency hit (m_attempt md))
            (snd (ping_ip (JString ip) s)))).
Proof.
  intros Hip latency. unfold probe_and_assemble. rewrite Hip.
  pose proof (ping_ip_returns ip s) as H. unfold bind at 1.
  destruct (ping_ip (JString ip) s) as [o s1]. simpl in H. subst o.
  unfold assembled. rewrite Hip. reflexivity.
Qed.

Lemma probe_and_assemble_frame md hit ip s :
  m_ip md = JString ip ->
  same_cache s (snd (probe_and_assemble md hit s)) /\
  requests_sent (snd (probe_and_assemble md hit s)) = requests_sent s /\
  processes_run (snd (probe_and_assemble md hit s))
    = (processes_run s ++ [ping_argv ip])%list.
Proof.
  intros Hip. rewrite (probe_and_assemble_eq md hit s Hip). simpl.
  exact (ping_ip_frame ip s).
Qed.

End Probe.

(** ** The two paths of [get_ip_data] *)

Section Paths.
Context {P : Platform}.

Lemma get_ip_data_hit s cached :
  _ip_cache_data s = Some cached ->
  float64.sub (fst (monotonic (env s))) (_ip_cache_timestamp s) < CACHE_TTL_SECONDS ->
  get_ip_data s = probe_and_assemble cached true (hit_state s cached).
Proof.
  intros Hdata Hlt. apply Qltb_lt in Hlt.
  unfold get_ip_data, hit_state. unfold_steps.
  destruct (monotonic (env s)) as [now w]. simpl in *.
  rewrite Hdata, Hlt. reflexivity.
Qed.

Lemma get_ip_data_miss s :
  (_ip_cache_data s = None \/
   CACHE_TTL_SECONDS <= float64.sub (fst (monotonic (env s))) (_ip_cache_timestamp s)) ->
  get_ip_data s = bind (refresh (fst (monotonic (env s)))) finish (miss_state s).
Proof.
  intros H. unfold get_ip_data, miss_state. unfold bind at 1 2. unfold time_monotonic.
  destruct (monotonic (env s)) as [now w]. simpl in *.
  destruct (_ip_cache_data s) as [cached|]; [|reflexivity].
  destruct H as [H|H]; [discriminate|].
  apply Qltb_ge in H. rewrite H. reflexivity.
Qed.

(** The [else] branch draws an order and runs the loop on it. *)
Lemma refresh_eq now s :
  refresh now s =
    let s0 := snd (logger INFO Refreshing s) in
    let order := fst (random_sample providers (env s0)) in
    let s1 := set_env (snd (random_sample providers (env s0))) s0 in
    match fetch_loop 1 order s1 with
    | (Val None, s2) => (Val None, snd (logger ERROR MetadataUnavailable s2))
    | (Val (Some md), s2) => (Val (Some (md, false)), snd (store_cache md now s2))
    | (Exc e, s2) => (Exc e, s2)
    end.
Proof.
  unfold refresh, fetch_ip_metadata. unfold bind at 1 2 3. unfold logger at 1.
  unfold sample. simpl.
  destruct (random_sample providers (env s)) as [order w]. simpl.
  destruct (fetch_loop 1 order _) as [[[md|]|e] s2]; reflexivity.
Qed.

End Paths.

(** * The claims *)

(** C1.  [get_json] applies its checks to a response in a fixed order and
    stops at the first that fails: (1) the status code is 200, (2) the
    declared content type starts with [application/json], (3) the body
    parses as JSON and is a dictionary, (4) the dictionary has a string
    under ["ip"], (5) that string is a valid IPv4 dotted quad.  Each failure
    returns [None] and logs the warning of that check and of no later one;
    in particular a status other than 200 is rejected whatever the rest of
    the response is.  An ["ip"] text with a character that is not a digit or
    a dot (an IPv6 literal, a host name) or with a part that is not an octet
    (such as 999.1.1.1) is rejected.  A status-200 JSON response with the
    body [{"ip": "203.0.113.5", "country_code": "us"}] is accepted, and the
    loop extracts the country code ["US"] from it. *)
Theorem validator_checks_in_order :
  forall (P : Platform) (name url : string) (s : state) (t0 t1 : Q)
         (r : response) (w : world),
    answers s url t0 r t1 w ->
    let elapsed := (t1 - t0) * 1000 in
    let json_declared := PyStr.startswith (declared_type r) "application/json" in
    let rejected_with msg :=
      get_json name url s =
        (Val None,
         after_request s w url [(DEBUG, Requesting name url); (WARNING, msg)]) in
    (status_code r <> 200%Z ->
       rejected_with (UnexpectedStatus name (status_code r) elapsed)) /\
    (status_code r = 200%Z -> json_declared = false ->
       rejected_with (WrongContentType name (content_type r) elapsed)) /\
    (status_code r = 200%Z -> json_declared = true ->
       forall detail, json_result r = Exc (ValueError detail) ->
       fst (get_json name url s) = Val None /\
       exists latency,
         log (snd (get_json name url s)) =
           (log s ++ [(DEBUG, Requesting name url);
                      (WARNING, RequestFailed name latency (ValueError detail))])%list) /\
    (status_code r = 200%Z -> json_declared = true ->
       forall v, json_result r = Val v -> (forall d, v <> JObject d) ->
       rejected_with (PayloadNotDict name)) /\
    (status_code r = 200%Z -> json_declared = true ->
       forall d, json_result r = Val (JObject d) ->
       (forall ip, dict_get d "ip" <> Some (JString ip)) ->
       rejected_with (InvalidIp name (dict_get d "ip"))) /\
    (status_code r = 200%Z -> json_declared = true ->
       forall d ip, json_result r = Val (JObject d) ->
       dict_get d "ip" = Some (JString ip) -> is_valid_ipv4 ip = false ->
       rejected_with (InvalidIp name (Some (JString ip)))) /\
    (status_code r = 200%Z -> json_declared = true ->
       forall d ip, json_result r = Val (JObject d) ->
       dict_get d "ip" = Some (JString ip) -> is_valid_ipv4 ip = true ->
       get_json name url s =
         (Val (Some (d, elapsed, String.length (content r))),
          after_request s w url
            [(DEBUG, Requesting name url);
             (INFO, HttpOk name elapsed (String.length (content r)))])) /\
    (forall ip c, In c (list_ascii_of_string ip) ->
       PyStr.is_ascii_digit c = false -> c <> "."%char -> is_valid_ipv4 ip = false) /\
    (forall ip o e, In o (PyStr.split "." ip) -> ipaddress._parse_octet o = Exc e ->
       is_valid_ipv4 ip = false) /\
    is_valid_ipv4 "999.1.1.1" = false /\
    is_valid_ipv4 "2001:db8::1" = false /\
    is_valid_ipv4 "example.com" = false /\
    (status_code r = 200%Z -> json_declared = true ->
       json_result r =
         Val (JObject [("ip", JString "203.0.113.5"); ("country_code", JString "us")]) ->
       forall k s0 rest, s = querying name k s0 ->
       exists md s',
         fetch_loop k ((name, url, "country_code") :: rest) s0 = (Val (Some md), s') /\
         m_provider md = name /\ m_ip md = JString "203.0.113.5" /\
         m_country_code md = "US").
Proof.
  intros P name url s t0 t1 r w Hans elapsed json_declared rejected_with.
  subst elapsed json_declared rejected_with. cbv beta.
  repeat match goal with |- _ /\ _ => split end.
  - intros. now apply get_json_status.
  - intros. now apply get_json_content_type.
  - intros Hs Hct detail Hj.
    rewrite (get_json_unparsable name Hans Hs Hct Hj). simpl. split; [reflexivity|].
    eexists. reflexivity.
  - intros. eapply get_json_not_dict; eauto.
  - intros. eapply get_json_ip_not_str; eauto.
  - intros. eapply get_json_bad_ip; eauto.
  - intros. eapply get_json_accepts; eauto.
  - intros. eapply is_valid_ipv4_foreign_char; eauto.
  - intros. eapply is_valid_ipv4_bad_octet; eauto.
  - rewrite is_valid_ipv4_eq. reflexivity.
  - rewrite is_valid_ipv4_eq. reflexivity.
  - rewrite is_valid_ipv4_eq. reflexivity.
  - intros Hs Hct Hj k s0 rest ->.
    assert (Hv : is_valid_ipv4 "203.0.113.5" = true)
      by (rewrite is_valid_ipv4_eq; reflexivity).
    pose proof (get_json_accepts name Hans Hs Hct Hj eq_refl Hv) as Hget.
    destruct (@fetch_loop_accept P k name url "country_code" rest _ _ _ _ _ Hget)
      as (ip & Hip & _ & Hloop).
    simpl in Hip. inversion Hip; subst ip.
    eexists. eexists. split; [exact Hloop|]. repeat split.
Qed.

(** The example of the specification, run on the scripted world. *)
Lemma validator_checks_in_order_witness :
  fst (get_json "ipapi" "https://ipapi.co/json"
         (Scripted.start 100 Scripted.all_up [])) =
    Val (Some ([("ip", JString "203.0.113.5"); ("country_code", JString "us")],
               (100 + (1 # 100) - 100) * 1000, 2%nat)).
Proof.
  pose proof (@validator_checks_in_order Scripted.platform "ipapi"
                "https://ipapi.co/json" (Scripted.start 100 Scripted.all_up [])
                100 (100 + (1 # 100)) (Scripted.json_response Scripted.example_body)
                (Scripted.tick (Scripted.tick
                   (env (Scripted.start 100 Scripted.all_up [])))))
    as H.
  cbv zeta in H.
  destruct H as (_ & _ & _ & _ & _ & _ & Hok & _).
  - do 2 eexists. repeat split.
  - rewrite (Hok eq_refl eq_refl _ "203.0.113.5" eq_refl eq_refl eq_refl).
    reflexivity.
Defined.

(** ** First success wins *)

Section Miss.
Context {P : Platform}.

Lemma loop_start_frame s :
  same_cache s (loop_start s) /\ requests_sent (loop_start s) = requests_sent s /\
  processes_run (loop_start s) = processes_run s.
Proof. unfold loop_start, miss_state, same_cache. simpl. auto. Qed.

(** A miss, unfolded down to the loop. *)
Lemma get_ip_data_miss_loop s :
  cache_stale s ->
  get_ip_data s =
    match fetch_loop 1 (drawn_order s) (loop_start s) with
    | (Val None, s2) => (Val None, snd (logger ERROR MetadataUnavailable s2))
    | (Val (Some md), s2) =>
        probe_and_assemble md false
          (snd (store_cache md (fst (monotonic (env s))) s2))
    | (Exc e, s2) => (Exc e, s2)
    end.
Proof.
  intros H. rewrite (get_ip_data_miss s H). unfold bind at 1. rewrite refresh_eq.
  cbv zeta.
  change (fst (random_sample providers
                 (env (snd (logger INFO Refreshing (miss_state s))))))
    with (drawn_order s).
  change (set_env (snd (random_sample providers
                          (env (snd (logger INFO Refreshing (miss_state s))))))
            (snd (logger INFO Refreshing (miss_state s))))
    with (loop_start s).
  destruct (fetch_loop 1 (drawn_order s) (loop_start s)) as [[[md|]|e] s2];
    reflexivity.
Qed.

Lemma fetch_loop_first_success k pre name url code_key post s s1 j elapsed n s2 :
  rejected_run k pre s s1 ->
  get_json name url (querying name (k + List.length pre) s1)
    = (Val (Some (j, elapsed, n)), s2) ->
  exists ip s3,
    dict_get j "ip" = Some (JString ip) /\ is_valid_ipv4 ip = true /\
    fetch_loop k (pre ++ (name, url, code_key) :: post) s =
      (Val (Some (metadata_of name (JString ip) j code_key elapsed n
                    (k + List.length pre))), s3) /\
    same_cache s s3 /\ processes_run s3 = processes_run s /\
    requests_sent s3 = (requests_sent s ++ map url_of pre ++ [url])%list.
Proof.
  intros Hrun Hget.
  destruct (@fetch_loop_accept P _ name url code_key post _ _ _ _ _ Hget)
    as (ip & Hip & Hv & Hloop).
  exists ip. eexists. split; [exact Hip|]. split; [exact Hv|].
  rewrite (fetch_loop_skip _ Hrun). split; [exact Hloop|].
  destruct (rejected_run_frame Hrun) as (Hc & Hp & Hr).
  destruct (get_json_frame _ _ _ Hget) as (Hc' & Hp' & Hr').
  simpl in *. unfold same_cache in *. simpl in *.
  repeat split; try (intuition congruence).
  rewrite Hr', Hr. now rewrite <- app_assoc.
Qed.

End Miss.

(** C2.  First success wins.  On a cache miss, let the order drawn be
    [pre ++ B :: post]: if every provider of [pre] is rejected and [B] is
    accepted, then the loop returns the metadata of [B] with the attempt
    counter [1 + length pre] (so 1 for the first provider), [get_ip_data]
    returns a result whose provider is [B], and the requests sent by the
    call are those to [pre] and the one to [B]: no provider of [post] is
    contacted, whatever it would have answered. *)
Theorem first_success_wins :
  forall (P : Platform) (s : state) (pre post : list provider)
         (name url code_key : string) (s1 s2 : state) (j : dict) (elapsed : Q)
         (n : nat),
    cache_stale s ->
    drawn_order s = (pre ++ (name, url, code_key) :: post)%list ->
    rejected_run 1 pre (loop_start s) s1 ->
    get_json name url (querying name (1 + List.length pre) s1)
      = (Val (Some (j, elapsed, n)), s2) ->
    exists md res s3 s',
      fetch_loop 1 (drawn_order s) (loop_start s) = (Val (Some md), s3) /\
      m_provider md = name /\
      m_attempt md = (1 + List.length pre)%nat /\
      get_ip_data s = (Val (Some res), s') /\
      r_provider res = name /\ r_ip res = m_ip md /\
      r_country_code res = m_country_code md /\
      requests_sent s' = (requests_sent s ++ map url_of pre ++ [url])%list.
Proof.
  intros P s pre post name url code_key s1 s2 j elapsed n Hstale Horder Hrun Hget.
  edestruct (@fetch_loop_first_success P 1 pre name url code_key post)
    as (ip & s3 & Hip & Hv & Hloop & Hc & Hp & Hr); [exact Hrun|exact Hget|].
  rewrite get_ip_data_miss_loop by exact Hstale. rewrite Horder, Hloop.
  set (md := metadata_of name (JString ip) j code_key elapsed n (1 + List.length pre)).
  set (s4 := snd (store_cache md (fst (monotonic (env s))) s3)).
  assert (Hmd : m_ip md = JString ip) by reflexivity.
  exists md. eexists. exists s3. eexists.
  split; [reflexivity|]. split; [reflexivity|]. split; [reflexivity|].
  rewrite (probe_and_assemble_eq md false s4 Hmd). cbv zeta.
  split; [reflexivity|]. split; [reflexivity|]. split; [reflexivity|].
  split; [reflexivity|].
  simpl. destruct (ping_ip_frame ip s4) as (_ & Hreq & _).
  rewrite Hreq. subst s4. simpl. rewrite Hr.
  destruct (loop_start_frame s) as (_ & Hr0 & _). now rewrite Hr0.
Qed.

(** The order A, B, C, D with A down and the others up: the result comes
    from B, reached at attempt 2, and C and D receive no request. *)
Lemma first_success_wins_witness :
  exists md res s3 s',
    fetch_loop 1 (drawn_order (Scripted.start 100 Scripted.first_down []))
      (loop_start (Scripted.start 100 Scripted.first_down []))
      = (Val (Some md), s3) /\
    m_provider md = "ipwhois" /\
    m_attempt md = 2%nat /\
    get_ip_data (Scripted.start 100 Scripted.first_down []) = (Val (Some res), s') /\
    r_provider res = "ipwhois" /\ r_ip res = m_ip md /\
    r_country_code res = m_country_code md /\
    requests_sent s' = ["https://ipapi.co/json"; "https://ipwho.is/"].
Proof.
  pose (s := Scripted.start 100 Scripted.first_down []).
  pose (r1 := get_json "ipapi" "https://ipapi.co/json"
                (querying "ipapi" 1 (loop_start s))).
  pose (r2 := get_json "ipwhois" "https://ipwho.is/" (querying "ipwhois" 2 (snd r1))).
  pose (t := match fst r2 with Val (Some x) => x | _ => ([], 0, 0%nat) end).
  apply (@first_success_wins Scripted.platform s
           [("ipapi", "https://ipapi.co/json", "country_code")]
           [("ifconfig", "https://ifconfig.co/json", "country_iso");
            ("ipsb", "https://api.ip.sb/geoip", "country_code")]
           "ipwhois" "https://ipwho.is/" "country_code"
           (snd r1) (snd r2) (fst (fst t)) (snd (fst t)) (snd t)).
  - left. reflexivity.
  - reflexivity.
  - econstructor; [|constructor]. vm_compute. reflexivity.
  - vm_compute. reflexivity.
Defined.

(** ** Exhaustion *)

Section Exhaustion.
Context {P : Platform}.

Lemma fetch_loop_exhausted k order s s1 :
  rejected_run k order s s1 ->
  fetch_loop k order s = (Val None, snd (logger ERROR AllProvidersFailed s1)).
Proof.
  intros Hrun. rewrite <- (app_nil_r order).
  rewrite (fetch_loop_skip [] Hrun). apply fetch_loop_nil.
Qed.

Lemma providers_urls_distinct : NoDup (map url_of providers).
Proof.
  unfold providers. simpl.
  repeat (constructor; [simpl; intuition discriminate|]). constructor.
Qed.

End Exhaustion.

(** C3.  Exhaustion.  On a cache miss, if every provider of the order drawn
    is rejected, the loop sends exactly one request to each provider of the
    order and returns nothing, and [get_ip_data] returns the empty result;
    the order being a permutation of the configured providers, each of the
    N configured providers is requested once and none twice.  The cache is
    not written (data, timestamp and the count of writes are unchanged) and
    no ping process is run.  The loop does the same on any list of
    providers, of any length, that are all rejected. *)
Theorem exhaustion_is_total :
  forall (P : Platform) (s s1 : state),
    cache_stale s ->
    Permutation providers (drawn_order s) ->
    rejected_run 1 (drawn_order s) (loop_start s) s1 ->
    exists s2 s',
      fetch_loop 1 (drawn_order s) (loop_start s) = (Val None, s2) /\
      get_ip_data s = (Val None, s') /\
      requests_sent s' = (requests_sent s ++ map url_of (drawn_order s))%list /\
      List.length (map url_of (drawn_order s)) = List.length providers /\
      Permutation (map url_of providers) (map url_of (drawn_order s)) /\
      NoDup (map url_of (drawn_order s)) /\
      _ip_cache_data s' = _ip_cache_data s /\
      _ip_cache_timestamp s' = _ip_cache_timestamp s /\
      cache_writes s' = cache_writes s /\
      processes_run s' = processes_run s /\
      (forall k order s0 s0',
         rejected_run k order s0 s0' ->
         fst (fetch_loop k order s0) = Val None /\
         requests_sent (snd (fetch_loop k order s0))
           = (requests_sent s0 ++ map url_of order)%list).
Proof.
  intros P s s1 Hstale Hperm Hrun.
  pose proof (fetch_loop_exhausted Hrun) as Hloop.
  destruct (rejected_run_frame Hrun) as ((Hd & Ht & Hw) & Hp & Hr).
  destruct (loop_start_frame s) as ((Hd0 & Ht0 & Hw0) & Hr0 & Hp0).
  do 2 eexists. split; [exact Hloop|].
  rewrite get_ip_data_miss_loop by exact Hstale. rewrite Hloop.
  split; [reflexivity|]. simpl.
  assert (Hpm : Permutation (map url_of providers) (map url_of (drawn_order s)))
    by (apply Permutation_map; exact Hperm).
  repeat split.
  - rewrite Hr, Hr0. reflexivity.
  - rewrite <- (Permutation_length Hpm). reflexivity.
  - exact Hpm.
  - eapply Permutation_NoDup; [exact Hpm|apply providers_urls_distinct].
  - congruence.
  - congruence.
  - congruence.
  - congruence.
  - rewrite (fetch_loop_exhausted H). reflexivity.
  - rewrite (fetch_loop_exhausted H). simpl.
    destruct (rejected_run_frame H) as (_ & _ & Hr'). exact Hr'.
Qed.

(** With every provider unreachable, the four configured providers are
    requested once each and nothing else happens. *)
Lemma exhaustion_is_total_witness :
  exists s2 s',
    fetch_loop 1 (drawn_order (Scripted.start 100 Scripted.all_down []))
      (loop_start (Scripted.start 100 Scripted.all_down [])) = (Val None, s2) /\
    get_ip_data (Scripted.start 100 Scripted.all_down []) = (Val None, s') /\
    requests_sent s' =
      ["https://ipapi.co/json"; "https://ipwho.is/"; "https://ifconfig.co/json";
       "https://api.ip.sb/geoip"] /\
    List.length (map url_of (drawn_order (Scripted.start 100 Scripted.all_down [])))
      = 4%nat /\
    Permutation (map url_of providers)
      (map url_of (drawn_order (Scripted.start 100 Scripted.all_down []))) /\
    NoDup (map url_of (drawn_order (Scripted.start 100 Scripted.all_down []))) /\
    _ip_cache_data s' = None /\
    _ip_cache_timestamp s' = 0 /\
    cache_writes s' = 0%nat /\
    processes_run s' = [] /\
    (forall k order (s0 s0' : @state Scripted.platform),
       rejected_run k order s0 s0' ->
       fst (fetch_loop k order s0) = Val None /\
       requests_sent (snd (fetch_loop k order s0))
         = (requests_sent s0 ++ map url_of order)%list).
Proof.
  pose (s := Scripted.start 100 Scripted.all_down []).
  pose (r1 := get_json "ipapi" "https://ipapi.co/json"
                (querying "ipapi" 1 (loop_start s))).
  pose (r2 := get_json "ipwhois" "https://ipwho.is/" (querying "ipwhois" 2 (snd r1))).
  pose (r3 := get_json "ifconfig" "https://ifconfig.co/json"
                (querying "ifconfig" 3 (snd r2))).
  pose (r4 := get_json "ipsb" "https://api.ip.sb/geoip" (querying "ipsb" 4 (snd r3))).
  apply (@exhaustion_is_total Scripted.platform s (snd r4)).
  - left. reflexivity.
  - apply Permutation_refl.
  - apply rejected_cons with (s1 := snd r1); [vm_compute; reflexivity|].
    apply rejected_cons with (s1 := snd r2); [vm_compute; reflexivity|].
    apply rejected_cons with (s1 := snd r3); [vm_compute; reflexivity|].
    apply rejected_cons with (s1 := snd r4); [vm_compute; reflexivity|].
    constructor.
Defined.

(** ** The cache *)

Section Cache.
Context {P : Platform}.

(** The probe never raises and touches neither the cache nor the
    network, whatever the metadata holds under ["ip"]. *)
Lemma probe_and_assemble_not_str md hit s :
  (forall a, m_ip md <> JString a) ->
  exists s',
    probe_and_assemble md hit s = (Val (Some (assembled md None)), s') /\
    same_cache s s' /\ requests_sent s' = requests_sent s.
Proof.
  intros H. unfold probe_and_assemble. unfold bind at 1.
  rewrite ping_ip_not_str by exact H.
  eexists. split; [reflexivity|]. simpl. unfold same_cache. simpl. auto.
Qed.

Lemma probe_and_assemble_any md hit s :
  exists latency s',
    probe_and_assemble md hit s = (Val (Some (assembled md latency)), s') /\
    same_cache s s' /\ requests_sent s' = requests_sent s /\
    (forall ip, m_ip md = JString ip ->
       latency = reported (fst (subprocess_run (ping_argv ip) (env s))) /\
       processes_run s' = (processes_run s ++ [ping_argv ip])%list).
Proof.
  assert (D : (exists ip, m_ip md = JString ip) \/ (forall a, m_ip md <> JString a))
    by (destruct (m_ip md); try (right; discriminate); left; eauto).
  destruct D as [[ip Hip]|Hno].
  - pose proof (probe_and_assemble_eq md hit s Hip) as H. cbv zeta in H.
    pose proof (probe_and_assemble_frame md hit s Hip) as (Hc & Hr & Hp).
    do 2 eexists. split; [exact H|]. rewrite H in Hc, Hr, Hp. simpl in Hc, Hr, Hp.
    split; [exact Hc|]. split; [exact Hr|].
    intros ip' Hip'. rewrite Hip in Hip'. inversion Hip'; subst ip'.
    split; [reflexivity|exact Hp].
  - destruct (probe_and_assemble_not_str md hit s Hno) as (s' & H & Hc & Hr).
    exists None, s'. split; [exact H|]. split; [exact Hc|]. split; [exact Hr|].
    intros ip Hip. exfalso. exact (Hno ip Hip).
Qed.

(** What a call served from the cache does. *)
Lemma get_ip_data_served s cached :
  _ip_cache_data s = Some cached ->
  float64.sub (fst (monotonic (env s))) (_ip_cache_timestamp s) < CACHE_TTL_SECONDS ->
  exists latency s',
    get_ip_data s = (Val (Some (assembled cached latency)), s') /\
    same_cache s s' /\ requests_sent s' = requests_sent s /\
    (forall ip, m_ip cached = JString ip ->
       latency = reported (fst (subprocess_run (ping_argv ip)
                                  (snd (monotonic (env s))))) /\
       processes_run s' = (processes_run s ++ [ping_argv ip])%list).
Proof.
  intros Hdata Hlt. rewrite (get_ip_data_hit s Hdata Hlt).
  destruct (probe_and_assemble_any cached true (hit_state s cached))
    as (latency & s' & Heq & Hc & Hr & Hp).
  exists latency, s'. split; [exact Heq|]. split; [exact Hc|]. split; [exact Hr|].
  exact Hp.
Qed.

(** The requests of a run of the loop go to an initial part of the order,
    which is not empty unless the order is. *)
Lemma fetch_loop_requests k order s :
  let s' := snd (fetch_loop k order s) in
  same_cache s s' /\ processes_run s' = processes_run s /\
  exists sent rest,
    order = (sent ++ rest)%list /\
    requests_sent s' = (requests_sent s ++ map url_of sent)%list /\
    (order <> [] -> sent <> []).
Proof.
  cbv zeta. pose proof (fetch_loop_end order k s) as H.
  destruct (fetch_loop k order s) as [o s']. simpl in *.
  inversion H as [s1 Hrun Ho Hs
                 |pre name url ck post s1 j el n s2 ip Ho Hrun Hget Hip Hv Hout Hst
                 |pre name url ck post s1 e s2 Ho Hrun Hget Hout Hst]; subst.
  - destruct (rejected_run_frame Hrun) as (Hc & Hp & Hr). simpl.
    repeat split; try apply Hc; trivial.
    exists order, []. rewrite app_nil_r. auto.
  - destruct (rejected_run_frame Hrun) as (Hc & Hp & Hr).
    destruct (get_json_frame _ _ _ Hget) as (Hc' & Hp' & Hr'). simpl in *.
    unfold same_cache in *. simpl in *.
    split; [intuition congruence|]. split; [congruence|].
    exists (pre ++ [(name, url, ck)])%list, post.
    rewrite <- app_assoc. split; [reflexivity|]. split.
    + rewrite Hr', Hr, map_app, <- app_assoc. reflexivity.
    + intros _ E. apply app_eq_nil in E. destruct E; discriminate.
  - destruct (rejected_run_frame Hrun) as (Hc & Hp & Hr).
    destruct (get_json_frame _ _ _ Hget) as (Hc' & Hp' & Hr'). simpl in *.
    unfold same_cache in *. simpl in *.
    split; [intuition congruence|]. split; [congruence|].
    exists (pre ++ [(name, url, ck)])%list, post.
    rewrite <- app_assoc. split; [reflexivity|]. split.
    + rewrite Hr', Hr, map_app, <- app_assoc. reflexivity.
    + intros _ E. apply app_eq_nil in E. destruct E; discriminate.
Qed.

(** What a call that misses the cache does to it: nothing when the loop
    yields no metadata, and otherwise one write of that metadata together
    with the reading of the clock taken at line 186. *)
Lemma get_ip_data_refreshed s :
  cache_stale s ->
  let run := fetch_loop 1 (drawn_order s) (loop_start s) in
  let s' := snd (get_ip_data s) in
  match fst run with
  | Val (Some md) =>
      exists latency,
        fst (get_ip_data s) = Val (Some (assembled md latency)) /\
        _ip_cache_data s' = Some md /\
        _ip_cache_timestamp s' = fst (monotonic (env s)) /\
        cache_writes s' = S (cache_writes s) /\
        (forall ip, m_ip md = JString ip ->
           latency = reported (fst (subprocess_run (ping_argv ip) (env (snd run)))) /\
           processes_run s' = (processes_run s ++ [ping_argv ip])%list)
  | o =>
      fst (get_ip_data s) = match o with Exc e => Exc e | _ => Val None end /\
      same_cache s s' /\ processes_run s' = processes_run s
  end /\
  exists sent rest,
    drawn_order s = (sent ++ rest)%list /\
    requests_sent s' = (requests_sent s ++ map url_of sent)%list /\
    (drawn_order s <> [] -> sent <> []).
Proof.
  intros Hstale. cbv zeta. rewrite get_ip_data_miss_loop by exact Hstale.
  pose proof (fetch_loop_requests 1 (drawn_order s) (loop_start s)) as Hf.
  cbv zeta in Hf.
  destruct (loop_start_frame s) as (Hc0 & Hr0 & Hp0).
  destruct (fetch_loop 1 (drawn_order s) (loop_start s)) as [[[md|]|e] s2];
    cbn [fst snd] in Hf |- *; destruct Hf as (Hc & Hp & sent & rest & Ho & Hr & Hne).
  - destruct (probe_and_assemble_any md false
                (snd (store_cache md (fst (monotonic (env s))) s2)))
      as (latency & s' & Heq & Hc' & Hr' & Hpr).
    rewrite Heq. simpl. unfold same_cache in *. simpl in *. split.
    + exists latency. repeat split; try (intuition congruence).
      * apply (Hpr ip H).
      * destruct (Hpr ip H) as (_ & Hx). rewrite Hx, Hp. reflexivity.
    + exists sent, rest. repeat split; trivial. rewrite Hr', Hr. reflexivity.
  - split.
    + split; [reflexivity|]. split; [|simpl; rewrite Hp, Hp0; reflexivity].
      eapply same_cache_trans; [exact Hc0|exact Hc].
    + exists sent, rest. repeat split; trivial; simpl; rewrite Hr, Hr0; reflexivity.
  - split.
    + split; [reflexivity|]. split; [|simpl; rewrite Hp, Hp0; reflexivity].
      eapply same_cache_trans; [exact Hc0|exact Hc].
    + exists sent, rest. repeat split; trivial; simpl; rewrite Hr, Hr0; reflexivity.
Qed.

End Cache.

(** C4, as stated, fails: the difference of line 191 is a difference of
    doubles.  The entry was stored when the clock read the double
    1.095513149 and the call reads the double 31.095513149: the exact
    difference is [30 - 7 * 2 ^ -52], under the TTL, but it is no double and
    is rounded to 30.0, so the test of line 191 fails and the call runs the
    provider loop, sends a request and replaces the entry. *)
Lemma ttl_gap_is_refreshed :
  let stored_at := 4933752609615879 # 4503599627370496 in
  let now := 34189878278987 # 1099511627776 in
  let s := Scripted.cached stored_at now Scripted.all_up [] in
  (exists eps, 0 < eps /\ now == stored_at + CACHE_TTL_SECONDS - eps) /\
  float64.sub now stored_at == CACHE_TTL_SECONDS /\
  cache_hit_test s = false /\
  requests_sent (snd (get_ip_data s)) = ["https://ipapi.co/json"] /\
  fst (get_ip_data s)
    = Val (Some {| r_provider := "ipapi"; r_ip := JString "203.0.113.5";
                   r_country_code := "US"; r_ping_ms := 0 |}) /\
  _ip_cache_timestamp (snd (get_ip_data s)) = now /\
  ~ (forall (P : Platform) (s : state) (cached : metadata) (eps : Q),
       _ip_cache_data s = Some cached -> 0 < eps ->
       fst (monotonic (env s)) == _ip_cache_timestamp s + CACHE_TTL_SECONDS - eps ->
       requests_sent (snd (get_ip_data s)) = requests_sent s).
Proof.
  cbv zeta.
  assert (Heps : 0 < 7 # 4503599627370496 /\
                 (34189878278987 # 1099511627776)
                   == (4933752609615879 # 4503599627370496) + CACHE_TTL_SECONDS
                      - (7 # 4503599627370496)).
  { split; reflexivity. }
  split; [exists (7 # 4503599627370496); exact Heps|].
  split; [vm_compute; reflexivity|].
  split; [vm_compute; reflexivity|].
  split; [vm_compute; reflexivity|].
  split; [vm_compute; reflexivity|].
  split; [vm_compute; reflexivity|].
  intros H.
  specialize (H Scripted.platform
                (Scripted.cached (4933752609615879 # 4503599627370496)
                   (34189878278987 # 1099511627776) Scripted.all_up [])
                Scripted.example_metadata (7 # 4503599627370496) eq_refl
                (proj1 Heps) (proj2 Heps)).
  vm_compute in H. discriminate H.
Qed.

(** C4, amended.  The TTL boundary is strict on the difference of doubles
    that line 191 computes.  Let the cache hold an entry stored at
    [stored_at] and let the clock read [now] at line 186; [TTL_MARGIN] is
    [2 ^ -49], half a unit in the last place below the TTL.  For every
    [eps > TTL_MARGIN], a call at [now = stored_at + TTL - eps] returns the
    cached provider, address and country code, sends no request and leaves
    the entry and its timestamp as they are.  For every [eps >= - TTL_MARGIN]
    (so at exactly [stored_at + TTL], after it, and also up to [TTL_MARGIN]
    before it, where the difference is rounded to the TTL) a call at
    [now = stored_at + TTL + eps] runs the provider loop on a freshly drawn
    order, whose first provider receives a request; the expired entry is
    replaced, together with its timestamp, when the loop returns metadata,
    and is kept unchanged (not deleted) when it does not. *)
Theorem cache_ttl_boundary :
  forall (P : Platform) (s : state) (cached : metadata),
    _ip_cache_data s = Some cached ->
    let now := fst (monotonic (env s)) in
    let stored_at := _ip_cache_timestamp s in
    (forall eps, TTL_MARGIN < eps -> now == stored_at + CACHE_TTL_SECONDS - eps ->
       exists latency s',
         get_ip_data s = (Val (Some (assembled cached latency)), s') /\
         requests_sent s' = requests_sent s /\
         _ip_cache_data s' = Some cached /\
         _ip_cache_timestamp s' = stored_at /\
         cache_writes s' = cache_writes s) /\
    (forall eps, - TTL_MARGIN <= eps -> now == stored_at + CACHE_TTL_SECONDS + eps ->
       let s' := snd (get_ip_data s) in
       (exists sent rest,
          drawn_order s = (sent ++ rest)%list /\
          requests_sent s' = (requests_sent s ++ map url_of sent)%list /\
          (drawn_order s <> [] -> sent <> [])) /\
       match fst (fetch_loop 1 (drawn_order s) (loop_start s)) with
       | Val (Some md) =>
           (exists latency, fst (get_ip_data s) = Val (Some (assembled md latency))) /\
           _ip_cache_data s' = Some md /\
           _ip_cache_timestamp s' = now /\
           cache_writes s' = S (cache_writes s)
       | Val None =>
           fst (get_ip_data s) = Val None /\
           _ip_cache_data s' = Some cached /\
           _ip_cache_timestamp s' = stored_at /\
           cache_writes s' = cache_writes s
       | Exc e =>
           fst (get_ip_data s) = Exc e /\
           _ip_cache_data s' = Some cached /\
           _ip_cache_timestamp s' = stored_at /\
           cache_writes s' = cache_writes s
       end).
Proof.
  intros P s cached Hdata now stored_at. split.
  - intros eps Heps Hnow.
    assert (Hlt : float64.sub now stored_at < CACHE_TTL_SECONDS).
    { apply sub_lt_TTL. lra. }
    destruct (get_ip_data_served s Hdata Hlt) as (latency & s' & Heq & Hc & Hr & _).
    exists latency, s'. destruct Hc as (Hd & Ht & Hw).
    repeat split; trivial. congruence.
  - intros eps Heps Hnow.
    assert (Hstale : cache_stale s).
    { right. fold now stored_at. apply round_from_TTL. lra. }
    pose proof (get_ip_data_refreshed Hstale) as H. cbv zeta in H |- *.
    destruct H as (Hcase & Hsent). split; [exact Hsent|].
    destruct (fst (fetch_loop 1 (drawn_order s) (loop_start s))) as [[md|]|e].
    + destruct Hcase as (latency & Hres & Hd & Ht & Hw & _). eauto 10.
    + destruct Hcase as (Hres & (Hd & Ht & Hw) & _).
      repeat split; trivial. congruence.
    + destruct Hcase as (Hres & (Hd & Ht & Hw) & _).
      repeat split; trivial. congruence.
Qed.

(** An entry stored at 100 is served at 129.99 and refreshed at 130. *)
Lemma cache_ttl_boundary_witness :
  (exists latency s',
     get_ip_data (Scripted.cached 100 (12999 # 100) Scripted.all_up [])
       = (Val (Some (assembled Scripted.example_metadata latency)), s') /\
     requests_sent s' = [] /\
     _ip_cache_timestamp s' = 100) /\
  (exists sent rest,
     providers = (sent ++ rest)%list /\
     requests_sent (snd (get_ip_data (Scripted.cached 100 130 Scripted.all_up [])))
       = map url_of sent /\
     sent <> []).
Proof.
  split.
  - destruct (@cache_ttl_boundary Scripted.platform
                (Scripted.cached 100 (12999 # 100) Scripted.all_up [])
                Scripted.example_metadata eq_refl) as [Hhit _].
    destruct (Hhit (1 # 100)) as (latency & s' & Heq & Hr & _ & Ht & _).
    + reflexivity.
    + vm_compute. reflexivity.
    + exists latency, s'. repeat split; assumption.
  - destruct (@cache_ttl_boundary Scripted.platform
                (Scripted.cached 100 130 Scripted.all_up [])
                Scripted.example_metadata eq_refl) as [_ Hmiss].
    destruct (Hmiss 0) as ((sent & rest & Ho & Hr & Hne) & _).
    + unfold TTL_MARGIN. lra.
    + vm_compute. reflexivity.
    + exists sent, rest. repeat split; trivial. apply Hne. discriminate.
Defined.

(** ** Every call, on either path *)

Section Outcome.
Context {P : Platform}.

Lemma cache_hit_test_true s :
  cache_hit_test s = true ->
  exists cached, _ip_cache_data s = Some cached /\
    float64.sub (fst (monotonic (env s))) (_ip_cache_timestamp s) < CACHE_TTL_SECONDS.
Proof.
  unfold cache_hit_test. destruct (_ip_cache_data s) as [cached|]; [|discriminate].
  intros H. apply Qltb_lt in H. eauto.
Qed.

Lemma cache_hit_test_false s : cache_hit_test s = false -> cache_stale s.
Proof.
  unfold cache_hit_test, cache_stale.
  destruct (_ip_cache_data s) as [cached|]; [|auto].
  intros H. apply Qltb_ge in H. auto.
Qed.

Lemma initial_state_valid w : cache_valid (initial_state w).
Proof. intros md H. discriminate H. Qed.

Lemma fetch_loop_validated k order s md :
  fst (fetch_loop k order s) = Val (Some md) -> validated md.
Proof.
  intros H. pose proof (fetch_loop_end order k s) as E. rewrite H in E.
  inversion E; subst. eexists. split; [reflexivity|eassumption].
Qed.

(** What a call does, on either path.  With metadata to go on, it returns
    the identity of the metadata and the latency reported by a probe of its
    own, run on the address of the metadata; the cache holds the metadata
    afterwards.  Without, it returns the empty result (or the exception that
    left the loop), runs no probe and leaves the cache alone. *)
Lemma get_ip_data_outcome s :
  cache_valid s ->
  let s' := snd (get_ip_data s) in
  match chosen_metadata s with
  | Some md =>
      exists ip,
        m_ip md = JString ip /\ is_valid_ipv4 ip = true /\
        fst (get_ip_data s) =
          Val (Some (assembled md
                       (reported (fst (subprocess_run (ping_argv ip) (probe_world s)))))) /\
        _ip_cache_data s' = Some md /\
        processes_run s' = (processes_run s ++ [ping_argv ip])%list
  | None =>
      fst (get_ip_data s) =
        match fst (loop_run s) with Exc e => Exc e | _ => Val None end /\
      same_cache s s' /\ processes_run s' = processes_run s
  end.
Proof.
  intros Hvalid. cbv zeta. unfold chosen_metadata, probe_world.
  destruct (cache_hit_test s) eqn:Htest.
  - destruct (cache_hit_test_true s Htest) as (cached & Hdata & Hlt).
    rewrite Hdata. destruct (Hvalid cached Hdata) as (ip & Hip & Hv).
    destruct (get_ip_data_served s Hdata Hlt) as (latency & s' & Heq & Hc & Hr & Hpr).
    destruct (Hpr ip Hip) as (Hl & Hp).
    exists ip. rewrite Heq. simpl. subst latency.
    destruct Hc as (Hd & _). repeat split; trivial. congruence.
  - pose proof (get_ip_data_refreshed (cache_hit_test_false s Htest)) as H.
    cbv zeta in H. destruct H as (H & _). unfold loop_run.
    destruct (fst (fetch_loop 1 (drawn_order s) (loop_start s))) as [[md|]|e] eqn:Hrun.
    + destruct (fetch_loop_validated _ _ _ Hrun) as (ip & Hip & Hv).
      destruct H as (latency & Hres & Hd & _ & _ & Hpr).
      destruct (Hpr ip Hip) as (Hl & Hp). subst latency.
      exists ip. repeat split; trivial.
    + exact H.
    + exact H.
Qed.

(** The invariant is kept by every call. *)
Lemma get_ip_data_keeps_valid s :
  cache_valid s -> cache_valid (snd (get_ip_data s)).
Proof.
  intros Hvalid. pose proof (get_ip_data_outcome Hvalid) as H. cbv zeta in H.
  unfold chosen_metadata in H. destruct (cache_hit_test s) eqn:Htest.
  - destruct (cache_hit_test_true s Htest) as (cached & Hdata & _).
    rewrite Hdata in H. destruct H as (ip & Hip & Hv & _ & Hd & _).
    intros md Hmd. rewrite Hd in Hmd. inversion Hmd; subst. exists ip. auto.
  - destruct (fst (loop_run s)) as [[md|]|e] eqn:Hrun.
    + destruct H as (ip & Hip & Hv & _ & Hd & _).
      intros md' Hmd. rewrite Hd in Hmd. inversion Hmd; subst. exists ip. auto.
    + destruct H as (_ & (Hd & _) & _). intros md Hmd. rewrite Hd in Hmd. auto.
    + destruct H as (_ & (Hd & _) & _). intros md Hmd. rewrite Hd in Hmd. auto.
Qed.

Lemma set_env_valid w s : cache_valid s -> cache_valid (set_env w s).
Proof. intros H md Hmd. exact (H md Hmd). Qed.

(** Every state the process reaches satisfies the invariant. *)
Lemma reachable_valid s : reachable s -> cache_valid s.
Proof.
  induction 1 as [w|s w _ IH].
  - apply initial_state_valid.
  - apply get_ip_data_keeps_valid, set_env_valid, IH.
Qed.

End Outcome.

(** C5, as stated, fails: the timestamp of the entry is the reading that
    the fetching call took at line 186, before its provider loop, not the
    time of the cache write.  Every request takes ten seconds.  The first
    call reads the clock at 100 and writes the cache when the clock has
    passed 110; a second call at 135 is within TTL of that write, but 35
    seconds after the timestamp: it misses the cache, asks the providers
    again and returns the address and country they report now. *)
Lemma identity_changes_within_ttl_of_write :
  let s := @initial_state Slow.platform (Slow.at_clock 100 Scripted.all_up) in
  let written_at := Scripted.clock (env (snd (loop_run s))) in
  let s1 := snd (get_ip_data s) in
  let w2 := Slow.at_clock 135 Slow.all_moved in
  fst (get_ip_data s)
    = Val (Some {| r_provider := "ipapi"; r_ip := JString "203.0.113.5";
                   r_country_code := "US"; r_ping_ms := 0 |}) /\
  _ip_cache_timestamp s1 = 100 /\
  110 <= written_at /\
  135 - written_at < CACHE_TTL_SECONDS /\
  float64.sub 135 written_at < CACHE_TTL_SECONDS /\
  cache_hit_test (@set_env Slow.platform w2 s1) = false /\
  fst (get_ip_data (@set_env Slow.platform w2 s1))
    = Val (Some {| r_provider := "ipapi"; r_ip := JString "198.51.100.7";
                   r_country_code := "DE"; r_ping_ms := 0 |}) /\
  requests_sent (snd (get_ip_data (@set_env Slow.platform w2 s1)))
    = ["https://ipapi.co/json"; "https://ipapi.co/json"].
Proof.
  cbv zeta. repeat split; vm_compute; try reflexivity; intros H; discriminate H.
Qed.

(** C5, amended.  The identity is stable within the TTL window of the
    timestamp and the probe is always fresh.  In a state that satisfies the invariant of the cache, as
    every reachable state does: if a call returns a result, and a second
    call reads the clock less than TTL (by the difference of doubles of line
    191) after the timestamp of the cache, then the second call returns the
    same provider, address and country code without sending a request.
    When the first call fetched, that timestamp is the reading of the clock
    it took at line 186, before its provider loop, and not the time at
    which it wrote the cache.  Each of the two calls runs one ping process
    on that address, and each reports the latency of its own probe: the two
    [ping_ms] values can differ, as they do in the scripted run of the
    second part. *)
Theorem identity_stable_probe_fresh :
  (forall (P : Platform) (s s1 : state) (res1 : resolution) (w : world),
     cache_valid s ->
     get_ip_data s = (Val (Some res1), s1) ->
     float64.sub (fst (monotonic w)) (_ip_cache_timestamp s1) < CACHE_TTL_SECONDS ->
     exists res2 s2 ip,
       get_ip_data (set_env w s1) = (Val (Some res2), s2) /\
       r_provider res2 = r_provider res1 /\
       r_ip res2 = r_ip res1 /\
       r_country_code res2 = r_country_code res1 /\
       requests_sent s2 = requests_sent s1 /\
       r_ip res1 = JString ip /\
       processes_run s1 = (processes_run s ++ [ping_argv ip])%list /\
       processes_run s2 = (processes_run s1 ++ [ping_argv ip])%list /\
       r_ping_ms res1 =
         match reported (fst (subprocess_run (ping_argv ip) (probe_world s))) with
         | Some l => l
         | None => 0
         end /\
       r_ping_ms res2 =
         match reported (fst (subprocess_run (ping_argv ip) (snd (monotonic w)))) with
         | Some l => l
         | None => 0
         end /\
       (cache_hit_test s = false ->
          _ip_cache_timestamp s1 = fst (monotonic (env s)))) /\
  (let s := Scripted.start 100 Scripted.all_up
              [Val Scripted.ping_reply; Val "time<1 ms"] in
   let s1 := snd (get_ip_data s) in
   let s2 := snd (get_ip_data s1) in
   exists res1 res2,
     get_ip_data s = (Val (Some res1), s1) /\
     get_ip_data s1 = (Val (Some res2), s2) /\
     float64.sub (fst (monotonic (env s1))) (_ip_cache_timestamp s1) < CACHE_TTL_SECONDS /\
     r_provider res2 = r_provider res1 /\
     r_ip res2 = r_ip res1 /\
     r_country_code res2 = r_country_code res1 /\
     ~ r_ping_ms res2 == r_ping_ms res1).
Proof.
  split.
  - intros P s s1 res1 w Hvalid Hcall Hlt.
    pose proof (get_ip_data_outcome Hvalid) as H1. cbv zeta in H1.
    pose proof (get_ip_data_refreshed (s := s)) as Hfresh.
    rewrite Hcall in H1. simpl in H1.
    destruct (chosen_metadata s) as [md|] eqn:Hchosen.
    + destruct H1 as (ip & Hip & Hv & Hres & Hd & Hp).
      inversion Hres; subst res1. clear Hres.
      assert (Hd' : _ip_cache_data (set_env w s1) = Some md) by exact Hd.
      destruct (get_ip_data_served (set_env w s1) Hd' Hlt)
        as (latency & s2 & Heq & Hc & Hr & Hpr).
      destruct (Hpr ip Hip) as (Hl & Hp2).
      exists (assembled md latency), s2, ip.
      repeat split; trivial.
      * simpl. now rewrite Hl.
      * intros Htest. specialize (Hfresh (cache_hit_test_false s Htest)).
        cbv zeta in Hfresh. destruct Hfresh as (Hfresh & _).
        unfold chosen_metadata in Hchosen. rewrite Htest in Hchosen.
        unfold loop_run in Hchosen.
        destruct (fst (fetch_loop 1 (drawn_order s) (loop_start s))) as [[md'|]|e];
          try discriminate.
        destruct Hfresh as (_ & _ & _ & Ht & _). rewrite Hcall in Ht. exact Ht.
    + destruct H1 as (Hres & _).
      destruct (fst (loop_run s)) as [[?|]|?]; discriminate.
  - cbv zeta.
    exists (match fst (get_ip_data (Scripted.start 100 Scripted.all_up
                                  [Val Scripted.ping_reply; Val "time<1 ms"])) with
            | Val (Some r) => r
            | _ => assembled Scripted.example_metadata None
            end).
    exists (match fst (get_ip_data (snd (get_ip_data
                        (Scripted.start 100 Scripted.all_up
                           [Val Scripted.ping_reply; Val "time<1 ms"])))) with
            | Val (Some r) => r
            | _ => assembled Scripted.example_metadata None
            end).
    do 6 (split; [vm_compute; reflexivity|]).
    vm_compute. intros H. discriminate H.
Qed.

(** Two calls in a row, the first from an empty cache. *)
Lemma identity_stable_probe_fresh_witness :
  let s := Scripted.start 100 Scripted.all_up [Val Scripted.ping_reply] in
  let s1 := snd (get_ip_data s) in
  exists res2 s2,
    get_ip_data (@set_env Scripted.platform (Scripted.tick (env s1)) s1)
      = (Val (Some res2), s2) /\
    r_provider res2 = "ipapi" /\
    r_ip res2 = JString "203.0.113.5" /\
    r_country_code res2 = "US" /\
    requests_sent s2 = ["https://ipapi.co/json"].
Proof.
  cbv zeta.
  pose (s := Scripted.start 100 Scripted.all_up [Val Scripted.ping_reply]).
  pose (res1 := match fst (get_ip_data s) with
                | Val (Some r) => r
                | _ => assembled Scripted.example_metadata None
                end).
  destruct (proj1 identity_stable_probe_fresh Scripted.platform s
              (snd (get_ip_data s)) res1 (Scripted.tick (env (snd (get_ip_data s)))))
    as (res2 & s2 & ip & Hcall & Hp & Hi & Hc & Hr & _).
  - apply initial_state_valid.
  - vm_compute. reflexivity.
  - vm_compute. reflexivity.
  - exists res2, s2. split; [exact Hcall|].
    split; [rewrite Hp; vm_compute; reflexivity|].
    split; [rewrite Hi; vm_compute; reflexivity|].
    split; [rewrite Hc; vm_compute; reflexivity|].
    rewrite Hr. vm_compute. reflexivity.
Defined.

(** What the handler of [ping_ip] and line 228 do guarantee.  When the
    ping process does not deliver an output (it cannot be started, it is
    killed by the timeout), or its output matches no latency pattern, or the
    matched figure is not a number, [ping_ip] returns [None]; and a call of
    [get_ip_data] that has metadata to go on (from the cache or from the
    loop) then returns that provider, address and country code with
    [ping_ms] equal to 0, in every state that satisfies the invariant of the
    cache, as every reachable state does.  Whatever the probe does, a call that has metadata
    returns a non-empty result. *)
Theorem probe_failure_degrades :
  forall (P : Platform) (s : state),
    (forall ip, probe_failed (fst (subprocess_run (ping_argv ip) (env s))) ->
       fst (ping_ip (JString ip) s) = Val None) /\
    (forall md ip,
       cache_valid s -> chosen_metadata s = Some md -> m_ip md = JString ip ->
       probe_failed (fst (subprocess_run (ping_argv ip) (probe_world s))) ->
       fst (get_ip_data s) =
         Val (Some {| r_provider := m_provider md; r_ip := m_ip md;
                      r_country_code := m_country_code md; r_ping_ms := 0 |})) /\
    (forall md,
       cache_valid s -> chosen_metadata s = Some md ->
       exists ping_ms,
         fst (get_ip_data s) =
           Val (Some {| r_provider := m_provider md; r_ip := m_ip md;
                        r_country_code := m_country_code md; r_ping_ms := ping_ms |})).
Proof.
  intros P s. split; [|split].
  - intros ip Hfail. rewrite ping_ip_returns. now rewrite (reported_failed Hfail).
  - intros md ip Hvalid Hchosen Hip Hfail.
    pose proof (get_ip_data_outcome Hvalid) as H. cbv zeta in H.
    rewrite Hchosen in H. destruct H as (ip' & Hip' & _ & Hres & _).
    rewrite Hip in Hip'. inversion Hip'; subst ip'.
    rewrite Hres, (reported_failed Hfail). reflexivity.
  - intros md Hvalid Hchosen.
    pose proof (get_ip_data_outcome Hvalid) as H. cbv zeta in H.
    rewrite Hchosen in H. destruct H as (ip & _ & _ & Hres & _).
    eexists. rewrite Hres. reflexivity.
Qed.

(** A provider answers and the ping binary is missing. *)
Lemma probe_failure_degrades_witness :
  fst (get_ip_data (Scripted.start 100 Scripted.all_up [])) =
    Val (Some {| r_provider := "ipapi"; r_ip := JString "203.0.113.5";
                 r_country_code := "US"; r_ping_ms := 0 |}).
Proof.
  set (s := Scripted.start 100 Scripted.all_up []).
  pose (md := match chosen_metadata s with
              | Some md => md
              | None => Scripted.example_metadata
              end).
  destruct (@probe_failure_degrades Scripted.platform s) as (_ & H & _).
  rewrite (H md "203.0.113.5").
  - vm_compute. reflexivity.
  - apply initial_state_valid.
  - vm_compute. reflexivity.
  - vm_compute. reflexivity.
  - vm_compute. constructor.
Defined.

(** A probe whose output matches the pattern is logged as successful. *)
Lemma ping_ip_matched {P : Platform} (ip : string) (s : state) out g l :
  fst (subprocess_run (ping_argv ip) (env s)) = Val out ->
  re.search out = Some g -> float_of_group g = Val l ->
  fst (ping_ip (JString ip) s) = Val (Some l) /\
  log (snd (ping_ip (JString ip) s))
    = (log s ++ [(INFO, PingSuccessful (JString ip) l)])%list.
Proof.
  intros Hrun Hs Hf. unfold ping_ip, ping_argv in *. run.
  destruct (subprocess_run _ (env s)) as [o w]. simpl in Hrun. subst o.
  simpl. rewrite Hs. simpl. rewrite Hf. simpl. split; reflexivity.
Qed.

Lemma lost_ping_search : re.search lost_ping_output = Some "1001".
Proof. vm_compute. reflexivity. Qed.

Lemma float_of_1001 : float_of_group "1001" = Val 1001.
Proof. vm_compute. reflexivity. Qed.

(** C6: the code does not do what the claim says.  When no reply arrives
    before the deadline, [ping] exits with status 1 and prints its
    statistics, which end in [time 1001ms], the time the run took.
    [subprocess.run] is called without [check], so the status is ignored,
    and the pattern of line 127 matches [time 1001ms]: [ping_ip] logs that
    the ping was successful and returns 1001.0, and [get_ip_data] publishes
    a [ping_ms] of 1001.0 for a host that did not answer, where the claim
    and the docstring of the module promise 0.0. *)
Theorem lost_ping_reported_as_latency :
  forall (P : Platform) (s : state),
    (forall ip,
       fst (subprocess_run (ping_argv ip) (env s)) = Val lost_ping_output ->
       fst (ping_ip (JString ip) s) = Val (Some 1001) /\
       log (snd (ping_ip (JString ip) s))
         = (log s ++ [(INFO, PingSuccessful (JString ip) 1001)])%list) /\
    (forall md ip,
       cache_valid s -> chosen_metadata s = Some md -> m_ip md = JString ip ->
       fst (subprocess_run (ping_argv ip) (probe_world s)) = Val lost_ping_output ->
       fst (get_ip_data s) =
         Val (Some {| r_provider := m_provider md; r_ip := m_ip md;
                      r_country_code := m_country_code md; r_ping_ms := 1001 |})) /\
    re.search lost_ping_output = Some "1001" /\
    ~ probe_failed (Val lost_ping_output).
Proof.
  pose proof lost_ping_search as Hsearch. pose proof float_of_1001 as Hfloat.
  intros P s. split; [|split; [|split]].
  - intros ip Hrun. exact (ping_ip_matched ip s Hrun Hsearch Hfloat).
  - intros md ip Hvalid Hchosen Hip Hrun.
    pose proof (get_ip_data_outcome Hvalid) as H. cbv zeta in H.
    rewrite Hchosen in H. destruct H as (ip' & Hip' & _ & Hres & _).
    rewrite Hip in Hip'. inversion Hip'; subst ip'.
    rewrite Hres, Hrun. unfold reported. rewrite Hsearch, Hfloat. reflexivity.
  - exact Hsearch.
  - intros H. inversion H as [e He|out Hnone Hout|out g e Hs Hf Hout]; subst.
    + rewrite Hsearch in Hnone. discriminate Hnone.
    + rewrite Hsearch in Hs. inversion Hs; subst g.
      rewrite Hfloat in Hf. discriminate Hf.
Qed.

(** A provider answers and the address does not reply to the ping. *)
Lemma lost_ping_reported_as_latency_witness :
  fst (get_ip_data (Scripted.start 100 Scripted.all_up [Val lost_ping_output])) =
    Val (Some {| r_provider := "ipapi"; r_ip := JString "203.0.113.5";
                 r_country_code := "US"; r_ping_ms := 1001 |}).
Proof.
  set (s := Scripted.start 100 Scripted.all_up [Val lost_ping_output]).
  pose (md := match chosen_metadata s with
              | Some md => md
              | None => Scripted.example_metadata
              end).
  destruct (@lost_ping_reported_as_latency Scripted.platform s) as (_ & H & _).
  rewrite (H md "203.0.113.5").
  - vm_compute. reflexivity.
  - apply initial_state_valid.
  - vm_compute. reflexivity.
  - vm_compute. reflexivity.
  - vm_compute. reflexivity.
Defined.

(** ** The timestamp of the cache *)

Section Timestamp.
Context {P : Platform}.

Lemma get_ip_data_hit_frame s :
  cache_fresh s ->
  same_cache s (snd (get_ip_data s)) /\
  requests_sent (snd (get_ip_data s)) = requests_sent s.
Proof.
  intros (cached & Hdata & Hlt).
  destruct (get_ip_data_served s Hdata Hlt) as (latency & s' & Heq & Hc & Hr & _).
  rewrite Heq. auto.
Qed.

Lemma cache_hits_frame s s' :
  cache_hits s s' -> same_cache s s' /\ requests_sent s' = requests_sent s.
Proof.
  induction 1 as [s|s w out s1 s2 Hfresh Hcall Hrest IH].
  - split; [apply same_cache_refl|reflexivity].
  - destruct (get_ip_data_hit_frame Hfresh) as (Hc & Hr).
    rewrite Hcall in Hc, Hr. simpl in Hc, Hr. destruct IH as (Hc' & Hr').
    split.
    + eapply same_cache_trans; [|exact Hc']. exact Hc.
    + rewrite Hr', Hr. reflexivity.
Qed.

End Timestamp.

(** C10.  The TTL does not slide.  A call served from the cache leaves the
    cached metadata, its timestamp and the count of cache writes unchanged
    and sends no request.  Any call either leaves the cache as it is or
    stores, in one write, the metadata its own loop has just fetched
    together with the reading of the clock of that call: the timestamp is
    never written alone.  Hence after any number of calls served from the
    cache the timestamp is still the one of the last fetch, and a call that
    reads the clock at or after that timestamp plus TTL misses the cache and
    runs the provider loop. *)
Theorem cache_ttl_not_sliding :
  forall (P : Platform) (s : state),
    (cache_fresh s ->
       same_cache s (snd (get_ip_data s)) /\
       requests_sent (snd (get_ip_data s)) = requests_sent s) /\
    (same_cache s (snd (get_ip_data s)) \/
     exists md,
       cache_hit_test s = false /\
       fst (loop_run s) = Val (Some md) /\
       _ip_cache_data (snd (get_ip_data s)) = Some md /\
       _ip_cache_timestamp (snd (get_ip_data s)) = fst (monotonic (env s)) /\
       cache_writes (snd (get_ip_data s)) = S (cache_writes s)) /\
    (forall s' w,
       cache_hits s s' ->
       CACHE_TTL_SECONDS <= fst (monotonic w) - _ip_cache_timestamp s ->
       _ip_cache_data s' = _ip_cache_data s /\
       _ip_cache_timestamp s' = _ip_cache_timestamp s /\
       cache_writes s' = cache_writes s /\
       requests_sent s' = requests_sent s /\
       cache_hit_test (set_env w s') = false /\
       exists sent rest,
         drawn_order (set_env w s') = (sent ++ rest)%list /\
         requests_sent (snd (get_ip_data (set_env w s')))
           = (requests_sent s' ++ map url_of sent)%list /\
         (drawn_order (set_env w s') <> [] -> sent <> [])).
Proof.
  intros P s. split; [|split].
  - apply get_ip_data_hit_frame.
  - destruct (cache_hit_test s) eqn:Htest.
    + left. destruct (cache_hit_test_true s Htest) as (cached & Hd & Hlt).
      apply get_ip_data_hit_frame. exists cached. auto.
    + pose proof (get_ip_data_refreshed (cache_hit_test_false s Htest)) as H.
      cbv zeta in H. destruct H as (H & _). unfold loop_run.
      destruct (fst (fetch_loop 1 (drawn_order s) (loop_start s))) as [[md|]|e].
      * right. exists md. destruct H as (latency & _ & Hd & Ht & Hw & _). auto.
      * left. apply H.
      * left. apply H.
  - intros s' w Hhits Hlate.
    destruct (cache_hits_frame Hhits) as ((Hd & Ht & Hw) & Hr).
    assert (Htest : cache_hit_test (set_env w s') = false).
    { unfold cache_hit_test. simpl. destruct (_ip_cache_data s'); [|reflexivity].
      apply Qltb_ge. rewrite Ht. unfold float64.sub. apply round_from_TTL.
      unfold TTL_MARGIN. lra. }
    repeat split; trivial.
    pose proof (get_ip_data_refreshed (cache_hit_test_false _ Htest)) as H.
    cbv zeta in H. destruct H as (_ & H). exact H.
Qed.

(** An entry stored at 100: two calls served from the cache at 110 and at
    120 leave the timestamp at 100, and a call at 130 runs the loop. *)
Lemma cache_ttl_not_sliding_witness :
  let s := Scripted.cached 100 110 Scripted.all_up [] in
  let s1 := snd (get_ip_data s) in
  let w1 := {| Scripted.clock := 120; Scripted.web := Scripted.all_up;
               Scripted.shuffle := fun l => l; Scripted.pings := [] |} in
  let s2 := snd (get_ip_data (@set_env Scripted.platform w1 s1)) in
  let w2 := {| Scripted.clock := 130; Scripted.web := Scripted.all_up;
               Scripted.shuffle := fun l => l; Scripted.pings := [] |} in
  _ip_cache_timestamp s2 = 100 /\
  cache_hit_test (@set_env Scripted.platform w2 s2) = false.
Proof.
  cbv zeta.
  pose (s := Scripted.cached 100 110 Scripted.all_up []).
  pose (w1 := {| Scripted.clock := 120; Scripted.web := Scripted.all_up;
                 Scripted.shuffle := fun l => l; Scripted.pings := [] |}).
  pose (w2 := {| Scripted.clock := 130; Scripted.web := Scripted.all_up;
                 Scripted.shuffle := fun l => l; Scripted.pings := [] |}).
  destruct (@cache_ttl_not_sliding Scripted.platform s) as (_ & _ & H).
  destruct (H (snd (get_ip_data (@set_env Scripted.platform w1 (snd (get_ip_data s)))))
              w2) as (_ & Ht & _ & _ & Htest & _).
  - apply hits_more with (w := env s) (out := fst (get_ip_data s))
                         (s1 := snd (get_ip_data s)).
    + exists Scripted.example_metadata. split; [reflexivity|].
      vm_compute. reflexivity.
    + vm_compute. reflexivity.
    + apply hits_more
        with (w := w1)
             (out := fst (get_ip_data (@set_env Scripted.platform w1
                                         (snd (get_ip_data s)))))
             (s1 := snd (get_ip_data (@set_env Scripted.platform w1
                                        (snd (get_ip_data s))))).
      * exists Scripted.example_metadata. split; vm_compute; reflexivity.
      * vm_compute. reflexivity.
      * apply hits_none.
  - vm_compute. intros H0. discriminate H0.
  - split; [exact Ht|exact Htest].
Defined.

(** ** The country code *)

Section Country.
Context {P : Platform}.

Lemma upper_empty (s : string) : PyStr.upper s = "" <-> s = "".
Proof. destruct s; simpl; split; intros H; try reflexivity; discriminate H. Qed.

Lemma upper_uint (d : Decimal.uint) :
  PyStr.upper (NilEmpty.string_of_uint d) = NilEmpty.string_of_uint d.
Proof. induction d; simpl; try rewrite IHd; reflexivity. Qed.

(** The decimal text of an integer has no letter and is not empty. *)
Lemma upper_of_int (n : Z) : PyStr.upper (PyStr.of_int n) = PyStr.of_int n.
Proof.
  unfold PyStr.of_int, NilZero.string_of_int, NilZero.string_of_uint.
  destruct (Z.to_int n) as [d|d]; destruct d; simpl; try rewrite upper_uint;
    reflexivity.
Qed.

Lemma of_int_not_empty (n : Z) : PyStr.of_int n <> "".
Proof.
  unfold PyStr.of_int, NilZero.string_of_int, NilZero.string_of_uint.
  destruct (Z.to_int n) as [d|d]; destruct d; discriminate.
Qed.

(** [str] of a value that is not a string is never empty, as long as the
    [repr] of a float is not. *)
Lemma str_not_empty (v : json) :
  (forall q, repr_finite q <> "") ->
  str repr_finite repr_str v = "" -> v = JString "".
Proof.
  intros Hfloat. destruct v as [|[|]|n|x|s|items|members]; simpl; try discriminate.
  - intros H. exfalso. exact (of_int_not_empty n H).
  - destruct x; simpl; try discriminate. intros H. exfalso. exact (Hfloat _ H).
  - intros ->. reflexivity.
Qed.

End Country.

(** C9, as stated, fails, on two counts.  A key that is present with the
    empty string as its value yields the empty country code, so a missing
    key is not the only way to get it: the provider answers
    [{"ip": "203.0.113.5", "country_code": ""}].  And a numeric value does
    not always produce its decimal text: a float is printed by [repr] and
    upper-cased, so the number [1e999], which the decoder reads as the float
    infinity, produces ["INF"], and [NaN] produces ["NAN"]. *)
Lemma country_empty_or_not_decimal :
  let j := [("ip", JString "203.0.113.5"); ("country_code", JString "")] in
  dict_get j "country_code" = Some (JString "") /\
  @country_code_of Scripted.platform j "country_code" = "" /\
  fst (get_ip_data
         (Scripted.start 100
            (fun _ => Val (Scripted.json_response Scripted.body_without_country)) []))
    = Val (Some {| r_provider := "ipapi"; r_ip := JString "203.0.113.5";
                   r_country_code := ""; r_ping_ms := 0 |}) /\
  ~ (forall (P : Platform) (d : dict) (code_key : string),
       country_code_of d code_key = "" -> dict_get d code_key = None) /\
  (forall P : Platform,
     country_code_of
       [("ip", JString "203.0.113.5"); ("country_code", JFloat PosInf)]
       "country_code" = "INF" /\
     country_code_of
       [("ip", JString "203.0.113.5"); ("country_code", JFloat NaN)]
       "country_code" = "NAN") /\
  fst (get_ip_data
         (Scripted.start 100
            (fun _ => Val (Scripted.json_response
                             (JObject [("ip", JString "203.0.113.5");
                                       ("country_code", JFloat PosInf)]))) []))
    = Val (Some {| r_provider := "ipapi"; r_ip := JString "203.0.113.5";
                   r_country_code := "INF"; r_ping_ms := 0 |}).
Proof.
  cbv zeta. split; [reflexivity|]. split; [reflexivity|].
  split; [vm_compute; reflexivity|].
  split.
  - intros H.
    specialize (H Scripted.platform
                  [("ip", JString "203.0.113.5"); ("country_code", JString "")]
                  "country_code" eq_refl).
    discriminate H.
  - split; [intros P; split; reflexivity|]. vm_compute. reflexivity.
Qed.

(** C9, amended.  The country code is the upper-cased [str] of the value
    under the provider's country key, and of the empty string when the key
    is missing.  So a missing key yields the empty string, and so does a key
    whose value is the empty string; a JSON null yields ["NONE"], an integer
    its decimal text, which is not empty, a float its [repr] in upper case,
    which is ["INF"], ["-INF"] or ["NAN"] for the floats that are no
    numbers of the decimal notation; and, the [repr] of a float not being
    empty, the country code is empty only for a missing key or an empty
    string value.  The metadata built by the loop carries exactly this
    country code. *)
Theorem country_code_is_upper_str :
  forall (P : Platform) (j : dict) (code_key : string),
    (dict_get j code_key = None -> country_code_of j code_key = "") /\
    (forall v, dict_get j code_key = Some v ->
       country_code_of j code_key = PyStr.upper (str repr_finite repr_str v)) /\
    (dict_get j code_key = Some (JString "") -> country_code_of j code_key = "") /\
    (dict_get j code_key = Some JNull -> country_code_of j code_key = "NONE") /\
    (forall n, dict_get j code_key = Some (JInt n) ->
       country_code_of j code_key = PyStr.of_int n /\
       country_code_of j code_key <> "") /\
    (forall x, dict_get j code_key = Some (JFloat x) ->
       country_code_of j code_key = PyStr.upper (repr_float repr_finite x)) /\
    (dict_get j code_key = Some (JFloat PosInf) -> country_code_of j code_key = "INF") /\
    (dict_get j code_key = Some (JFloat NegInf) -> country_code_of j code_key = "-INF") /\
    (dict_get j code_key = Some (JFloat NaN) -> country_code_of j code_key = "NAN") /\
    ((forall q, repr_finite q <> "") ->
       (country_code_of j code_key = "" <->
        dict_get j code_key = None \/ dict_get j code_key = Some (JString ""))) /\
    (forall k name url rest s elapsed n s1,
       get_json name url (querying name k s) = (Val (Some (j, elapsed, n)), s1) ->
       exists md s2,
         fetch_loop k ((name, url, code_key) :: rest) s = (Val (Some md), s2) /\
         m_country_code md = country_code_of j code_key).
Proof.
  intros P j code_key. unfold country_code_of, dict_get_default.
  repeat match goal with |- _ /\ _ => split end.
  - intros ->. reflexivity.
  - intros v ->. reflexivity.
  - intros ->. reflexivity.
  - intros ->. reflexivity.
  - intros n ->. simpl. rewrite upper_of_int. split; [reflexivity|].
    apply of_int_not_empty.
  - intros x ->. reflexivity.
  - intros ->. reflexivity.
  - intros ->. reflexivity.
  - intros ->. reflexivity.
  - intros Hfloat. split.
    + intros H. apply (proj1 (upper_empty _)) in H.
      destruct (dict_get j code_key) as [v|]; [|now left].
      right. f_equal. simpl in H. now apply str_not_empty.
    + intros [-> | ->]; reflexivity.
  - intros k name url rest s elapsed n s1 Hget.
    destruct (@fetch_loop_accept P k name url code_key rest _ _ _ _ _ Hget)
      as (ip & _ & _ & Hloop).
    do 2 eexists. split; [exact Hloop|reflexivity].
Qed.

(** The amended claim on a null country, on an integer and on the float
    infinity. *)
Lemma country_code_is_upper_str_witness :
  @country_code_of Scripted.platform
    [("ip", JString "203.0.113.5"); ("country_code", JNull)] "country_code" = "NONE" /\
  @country_code_of Scripted.platform
    [("ip", JString "203.0.113.5"); ("country_code", JInt 49)] "country_code" = "49" /\
  @country_code_of Scripted.platform
    [("ip", JString "203.0.113.5"); ("country_code", JFloat PosInf)] "country_code"
    = "INF".
Proof.
  split; [|split].
  - destruct (@country_code_is_upper_str Scripted.platform
                [("ip", JString "203.0.113.5"); ("country_code", JNull)]
                "country_code") as (_ & _ & _ & H & _).
    apply H. reflexivity.
  - destruct (@country_code_is_upper_str Scripted.platform
                [("ip", JString "203.0.113.5"); ("country_code", JInt 49)]
                "country_code") as (_ & _ & _ & _ & H & _).
    destruct (H 49%Z eq_refl) as (H1 & _). rewrite H1. reflexivity.
  - destruct (@country_code_is_upper_str Scripted.platform
                [("ip", JString "203.0.113.5"); ("country_code", JFloat PosInf)]
                "country_code") as (_ & _ & _ & _ & _ & _ & H & _).
    apply H. reflexivity.
Defined.

(** ** Exceptions *)

Section Exceptions.
Context {P : Platform}.

Lemma get_json_contained name url s :
  http_contained -> exists result, fst (get_json name url s) = Val result.
Proof.
  intros Hhttp. unfold get_json. run.
  destruct (monotonic (env s)) as [t0 w1]. simpl.
  specialize (Hhttp url w1).
  destruct (session_get url w1) as [[r|e] w2]; simpl in *.
  - destruct (monotonic w2) as [t1 w3]. simpl.
    destruct (negb (status_code r =? 200)%Z); simpl; eauto.
    destruct (negb (PyStr.startswith _ _)); simpl; eauto.
    destruct (json_result r) as [v|e]; simpl.
    + destruct v; simpl; eauto.
      destruct (match dict_get members "ip" with
                | Some (JString s0) => negb (is_valid_ipv4 s0)
                | _ => true
                end); simpl; eauto.
    + rewrite Hhttp. destruct (monotonic w3). simpl. eauto.
  - rewrite Hhttp. destruct (monotonic w2). simpl. eauto.
Qed.

(** An exception that line 108 does not handle, raised by [r.json()] on a
    response that passed the first two checks, leaves [get_json]. *)
Lemma get_json_escape name url s t0 r t1 w e :
  answers s url t0 r t1 w -> status_code r = 200%Z ->
  PyStr.startswith (declared_type r) "application/json" = true ->
  json_result r = Exc e -> is_RequestException_or_ValueError e = false ->
  fst (get_json name url s) = Exc e.
Proof.
  intros (w1 & w2 & Hc0 & Hget & Hc1) Hs Hct Hj He.
  unfold get_json. run. rewrite Hc0. simpl. rewrite Hget. simpl. rewrite Hc1. simpl.
  rewrite Hs. unfold declared_type in Hct. simpl. rewrite Hct. simpl.
  rewrite Hj. simpl. rewrite He. reflexivity.
Qed.

(** With an HTTP side that raises only handled exceptions, no call of
    [get_ip_data] raises: the probe and the loop body handle [Exception]. *)
Lemma get_ip_data_contained s :
  http_contained -> exists result, fst (get_ip_data s) = Val result.
Proof.
  intros Hhttp. destruct (cache_hit_test s) eqn:Htest.
  - destruct (cache_hit_test_true s Htest) as (cached & Hd & Hlt).
    destruct (get_ip_data_served s Hd Hlt) as (latency & s' & Heq & _).
    rewrite Heq. simpl. eauto.
  - pose proof (get_ip_data_refreshed (cache_hit_test_false s Htest)) as H.
    cbv zeta in H. destruct H as (H & _).
    pose proof (fetch_loop_end (drawn_order s) 1 (loop_start s)) as E.
    destruct (fst (fetch_loop 1 (drawn_order s) (loop_start s))) as [[md|]|e].
    + destruct H as (latency & Hres & _). rewrite Hres. eauto.
    + destruct H as (Hres & _). rewrite Hres. eauto.
    + exfalso. inversion E; subst.
      match goal with
      | Hg : get_json ?n ?u ?st = (Exc _, _) |- _ =>
          destruct (get_json_contained n u st Hhttp) as (x & Hx);
          rewrite Hg in Hx; discriminate Hx
      end.
Qed.

(** The exception of the first provider's [r.json()] reaches the caller of
    [get_ip_data]: the call of [get_json] at line 151 is outside the [try]
    of the loop body, and [get_ip_data] has no handler. *)
Lemma get_ip_data_escape s name url code_key rest t0 r t1 w e :
  cache_stale s ->
  drawn_order s = (name, url, code_key) :: rest ->
  answers (querying name 1 (loop_start s)) url t0 r t1 w ->
  status_code r = 200%Z ->
  PyStr.startswith (declared_type r) "application/json" = true ->
  json_result r = Exc e -> is_RequestException_or_ValueError e = false ->
  fst (get_ip_data s) = Exc e.
Proof.
  intros Hstale Horder Hans Hs Hct Hj He.
  pose proof (get_json_escape name Hans Hs Hct Hj He) as Hget.
  rewrite get_ip_data_miss_loop by exact Hstale.
  rewrite Horder, fetch_loop_cons.
  destruct (get_json name url (querying name 1 (loop_start s))) as [o s1].
  simpl in Hget. subst o. reflexivity.
Qed.

End Exceptions.

(** C7: the code does not do what the claim says.  The first provider drawn
    answers with status 200, content type [application/json] and a body
    nested deeper than the recursion limit: [r.json()] raises
    [RecursionError], which is neither a [RequestException] nor a
    [ValueError], and [get_ip_data] raises it instead of trying the next
    provider. *)
Theorem recursion_error_escapes :
  fst (get_ip_data (Scripted.start 100 (fun _ => Val Scripted.too_deep) []))
    = Exc RecursionError /\
  requests_sent
    (snd (get_ip_data (Scripted.start 100 (fun _ => Val Scripted.too_deep) [])))
    = ["https://ipapi.co/json"].
Proof.
  split.
  - apply (@get_ip_data_escape Scripted.platform _ "ipapi" "https://ipapi.co/json"
             "country_code"
             [("ipwhois", "https://ipwho.is/", "country_code");
              ("ifconfig", "https://ifconfig.co/json", "country_iso");
              ("ipsb", "https://api.ip.sb/geoip", "country_code")]
             (100 + (1 # 100)) Scripted.too_deep (100 + (1 # 100) + (1 # 100))
             (Scripted.tick (Scripted.tick (Scripted.tick
                {| Scripted.clock := 100;
                   Scripted.web := fun _ => Val Scripted.too_deep;
                   Scripted.shuffle := fun l => l; Scripted.pings := [] |})))).
    + left. reflexivity.
    + reflexivity.
    + do 2 eexists. repeat split.
    + reflexivity.
    + reflexivity.
    + reflexivity.
    + reflexivity.
  - vm_compute. reflexivity.
Qed.

(** ** Threads *)

Section ThreadFacts.
Import Threads.

Lemma consistent_more history history' view :
  incl history history' -> consistent history view -> consistent history' view.
Proof.
  intros Hincl (d & t & Hview & Hin). exists d, t. split; [exact Hview|].
  apply Hincl. exact Hin.
Qed.

(** Calls that do not overlap: every [get] sees the pair of the last [put]
    before it, or the initial pair. *)
Lemma run_serial_consistent calls :
  forall g,
    Forall (fun view =>
              view = [] \/ consistent ((g_data g, g_timestamp g) :: stored calls) view)
      (fst (run_serial calls g)).
Proof.
  induction calls as [|c calls IH]; intros g; simpl.
  - constructor.
  - destruct c as [|md now]; simpl.
    + specialize (IH g). destruct (run_serial calls g) as [views g']. simpl in *.
      constructor; [|exact IH].
      right. exists (g_data g), (g_timestamp g). split; [reflexivity|now left].
    + specialize (IH {| g_data := Some md; g_timestamp := now |}).
      destruct (run_serial calls _) as [views g']. simpl in *.
      constructor; [now left|].
      eapply Forall_impl; [|exact IH]. intros view [Hv|Hv]; [now left|right].
      eapply consistent_more; [|exact Hv]. intros x Hx. right. exact Hx.
Qed.

End ThreadFacts.

(** C8, as stated, fails: the source has no lock, and a thread that reads
    the cache between the two assignments of another thread's write sees the
    metadata of that write with the timestamp of the previous one.  The
    cache holds [(md1, 100)]; one thread stores [(md2, 131)] while another
    reads: under the schedule writer, reader, reader, writer the reader sees
    [(md2, 100)], a pair that no write stored. *)
Lemma unlocked_read_is_torn :
  let md1 := Scripted.example_metadata in
  let md2 := {| m_provider := "ipapi"; m_ip := JString "203.0.113.5";
                m_country_code := "US"; m_http_latency_ms := 10;
                m_http_payload_bytes := 2; m_attempt := 1 |} in
  let g := {| Threads.g_data := Some md1; Threads.g_timestamp := 100 |} in
  Threads.run_two [true; false; false; true] (Threads.put md2 131) Threads.get g
    = ([], [Threads.SawData (Some md2); Threads.SawTimestamp 100],
       {| Threads.g_data := Some md2; Threads.g_timestamp := 131 |}) /\
  ~ Threads.consistent [(Some md1, 100); (Some md2, 131)]
      [Threads.SawData (Some md2); Threads.SawTimestamp 100] /\
  ~ (forall (schedule : list bool) (md : metadata) (now : Q) (g0 : Threads.globals),
       let view := snd (fst (Threads.run_two schedule (Threads.put md now)
                               Threads.get g0)) in
       List.length view = 2%nat ->
       Threads.consistent
         [(Threads.g_data g0, Threads.g_timestamp g0); (Some md, now)] view).
Proof.
  cbv zeta.
  assert (Htorn :
    ~ Threads.consistent
        [(Some Scripted.example_metadata, 100);
         (Some {| m_provider := "ipapi"; m_ip := JString "203.0.113.5";
                  m_country_code := "US"; m_http_latency_ms := 10;
                  m_http_payload_bytes := 2; m_attempt := 1 |}, 131)]
        [Threads.SawData
           (Some {| m_provider := "ipapi"; m_ip := JString "203.0.113.5";
                    m_country_code := "US"; m_http_latency_ms := 10;
                    m_http_payload_bytes := 2; m_attempt := 1 |});
         Threads.SawTimestamp 100]).
  { intros (d & t & Hview & Hin). inversion Hview; subst d t.
    destruct Hin as [H|[H|[]]]; discriminate H. }
  split; [reflexivity|]. split; [exact Htorn|].
  intros H. apply Htorn.
  exact (H [true; false; false; true]
           {| m_provider := "ipapi"; m_ip := JString "203.0.113.5";
              m_country_code := "US"; m_http_latency_ms := 10;
              m_http_payload_bytes := 2; m_attempt := 1 |} 131
           {| Threads.g_data := Some Scripted.example_metadata;
              Threads.g_timestamp := 100 |} eq_refl).
Qed.

(** C8, amended.  The cache is two module globals, stored by two
    assignments and read by two loads, with no lock.  When calls do not
    overlap (each call makes its accesses to the cache before the next call
    makes any) every read sees metadata and timestamp stored by one and the
    same write, or the pair the process started with.  This is the
    execution that [get_ip_data] describes: its read of the cache is the
    two loads, and its write the two stores, run without interruption. *)
Theorem serial_reads_are_consistent :
  (forall (calls : list Threads.call) (g : Threads.globals),
     Forall (fun view =>
               view = [] \/
               Threads.consistent
                 ((Threads.g_data g, Threads.g_timestamp g) :: Threads.stored calls)
                 view)
       (fst (Threads.run_serial calls g))) /\
  (forall (P : Platform) (s : state),
     exists d t,
       load_cache s = (Val (d, t), s) /\
       Threads.run_thread Threads.get (Threads.globals_of s)
         = ([Threads.SawData d; Threads.SawTimestamp t], Threads.globals_of s)) /\
  (forall (P : Platform) (s : state) (md : metadata) (now : Q),
     snd (Threads.run_thread (Threads.put md now) (Threads.globals_of s))
       = Threads.globals_of (snd (store_cache md now s))).
Proof.
  split; [exact run_serial_consistent|]. split.
  - intros P s. do 2 eexists. split; reflexivity.
  - intros P s md now. reflexivity.
Qed.

(** * Further properties *)

(** ** The addresses [is_valid_ipv4] accepts *)

Section DottedQuads.
Context {P : Platform}.

Lemma digit_char_cases (c : ascii) :
  PyStr.is_ascii_digit c = true -> In c digit_chars.
Proof.
  destruct c as [[] [] [] [] [] [] [] []]; intros H; vm_compute in H;
    try discriminate H; simpl; tauto.
Qed.

Lemma digit_text_cases (o : string) :
  o <> "" -> PyStr.all_digits o = true -> (String.length o <= 3)%nat ->
  In o digit_texts.
Proof.
  intros Hne Hd Hlen. unfold digit_texts.
  destruct o as [|a [|b [|c [|x o]]]]; simpl in Hd, Hlen.
  - now destruct Hne.
  - apply andb_true_iff in Hd as [Ha _]. apply digit_char_cases in Ha.
    apply in_or_app. left. apply in_flat_map. exists a. split; [exact Ha|now left].
  - apply andb_true_iff in Hd as [Ha Hd]. apply andb_true_iff in Hd as [Hb _].
    apply digit_char_cases in Ha, Hb.
    apply in_or_app. right. apply in_or_app. left.
    apply in_flat_map. exists a. split; [exact Ha|].
    apply in_flat_map. exists b. split; [exact Hb|now left].
  - apply andb_true_iff in Hd as [Ha Hd]. apply andb_true_iff in Hd as [Hb Hd].
    apply andb_true_iff in Hd as [Hc _].
    apply digit_char_cases in Ha, Hb, Hc.
    apply in_or_app. right. apply in_or_app. right.
    apply in_flat_map. exists a. split; [exact Ha|].
    apply in_flat_map. exists b. split; [exact Hb|].
    apply in_flat_map. exists c. split; [exact Hc|now left].
  - lia.
Qed.

Lemma digit_texts_canonical : forallb octet_text_canonical digit_texts = true.
Proof. vm_compute. reflexivity. Qed.

Lemma octet_values_parse : forallb octet_value_parses octet_values = true.
Proof. vm_compute. reflexivity. Qed.

(** An octet that parses is written in the one canonical way. *)
Lemma parse_octet_canonical (o : string) (n : Z) :
  ipaddress._parse_octet o = Val n -> o = PyStr.of_int n /\ octet n.
Proof.
  intros H.
  assert (Hin : In o digit_texts).
  { unfold ipaddress._parse_octet in H.
    destruct (String.eqb_spec o ""); [discriminate H|].
    destruct (PyStr.isdigit o) eqn:Hd; [|discriminate H]. simpl in H.
    destruct (3 <? String.length o)%nat eqn:Hl; [discriminate H|].
    apply Nat.ltb_ge in Hl.
    apply digit_text_cases; trivial. now apply isdigit_all_digits. }
  pose proof (proj1 (forallb_forall _ _) digit_texts_canonical o Hin) as Hc.
  unfold octet_text_canonical in Hc. rewrite H in Hc.
  apply andb_true_iff in Hc as [Hc Hhi]. apply andb_true_iff in Hc as [Heq Hlo].
  apply String.eqb_eq in Heq. apply Z.leb_le in Hlo, Hhi.
  split; [exact Heq|split; assumption].
Qed.

Lemma octet_parses (n : Z) :
  octet n ->
  ipaddress._parse_octet (PyStr.of_int n) = Val n /\
  PyStr.contains "." (PyStr.of_int n) = false /\
  PyStr.contains "/" (PyStr.of_int n) = false.
Proof.
  intros [Hlo Hhi].
  assert (Hin : In n octet_values).
  { unfold octet_values. rewrite <- (Z2Nat.id n) by exact Hlo.
    apply in_map, in_seq. lia. }
  pose proof (proj1 (forallb_forall _ _) octet_values_parse n Hin) as Hc.
  unfold octet_value_parses in Hc.
  apply andb_true_iff in Hc as [Hc Hslash]. apply andb_true_iff in Hc as [Hp Hdot].
  apply negb_true_iff in Hslash, Hdot.
  destruct (ipaddress._parse_octet (PyStr.of_int n)) as [m|e]; [|discriminate Hp].
  apply Z.eqb_eq in Hp. subst m. auto.
Qed.

(** Splitting at a separator and joining again gives the text back. *)
Lemma split_not_nil (sep : ascii) (s : string) : PyStr.split sep s <> [].
Proof.
  destruct s as [|c t]; simpl; [discriminate|].
  destruct (Ascii.eqb c sep); [discriminate|].
  destruct (PyStr.split sep t); discriminate.
Qed.

Lemma join_cons (sep p : string) (rest : list string) :
  rest <> [] -> join sep (p :: rest) = p ++ sep ++ join sep rest.
Proof. destruct rest; [now intros []|reflexivity]. Qed.

Lemma join_split (sep : ascii) (s : string) :
  join (String sep EmptyString) (PyStr.split sep s) = s.
Proof.
  induction s as [|c t IH]; [reflexivity|]. simpl.
  destruct (Ascii.eqb_spec c sep) as [->|Hne].
  - rewrite join_cons by apply split_not_nil. simpl. now rewrite IH.
  - pose proof (split_not_nil sep t) as Hnil.
    destruct (PyStr.split sep t) as [|w ws]; [now destruct Hnil|].
    destruct ws as [|w' ws].
    + simpl in IH |- *. now rewrite IH.
    + simpl in IH |- *. now rewrite IH.
Qed.

Lemma contains_app (c : ascii) (p q : string) :
  PyStr.contains c (p ++ q) = PyStr.contains c p || PyStr.contains c q.
Proof.
  induction p as [|a p IH]; [reflexivity|]. simpl. rewrite IH.
  now rewrite orb_assoc.
Qed.

Lemma split_without_sep (sep : ascii) (p : string) :
  PyStr.contains sep p = false -> PyStr.split sep p = [p].
Proof.
  induction p as [|a p IH]; [reflexivity|]. simpl. intros H.
  apply orb_false_iff in H as [Ha Hp]. rewrite Ha, (IH Hp). reflexivity.
Qed.

Lemma split_app (sep : ascii) (p rest : string) :
  PyStr.contains sep p = false ->
  PyStr.split sep (p ++ String sep rest) = p :: PyStr.split sep rest.
Proof.
  induction p as [|a p IH]; simpl; intros H.
  - now rewrite Ascii.eqb_refl.
  - apply orb_false_iff in H as [Ha Hp]. rewrite Ha, (IH Hp). reflexivity.
Qed.

Lemma of_int_octet_not_empty (n : Z) : PyStr.of_int n <> "".
Proof.
  unfold PyStr.of_int, NilZero.string_of_int, NilZero.string_of_uint.
  destruct (Z.to_int n) as [d|d]; destruct d; discriminate.
Qed.

Lemma IPv4Address_dotted (a b c d : Z) :
  octet a -> octet b -> octet c -> octet d ->
  ipaddress.IPv4Address (dotted a b c d)
    = Val (((a * 256 + b) * 256 + c) * 256 + d)%Z.
Proof.
  intros Ha Hb Hc Hd.
  destruct (octet_parses Ha) as (Pa & Da & Sa).
  destruct (octet_parses Hb) as (Pb & Db & Sb).
  destruct (octet_parses Hc) as (Pc & Dc & Sc).
  destruct (octet_parses Hd) as (Pd & Dd & Sd).
  unfold ipaddress.IPv4Address, dotted. simpl map.
  change (join "." [PyStr.of_int a; PyStr.of_int b; PyStr.of_int c; PyStr.of_int d])
    with (PyStr.of_int a ++ String "." (PyStr.of_int b
            ++ String "." (PyStr.of_int c ++ String "." (PyStr.of_int d)))).
  assert (Hslash :
    PyStr.contains "/" (PyStr.of_int a ++ String "." (PyStr.of_int b
       ++ String "." (PyStr.of_int c ++ String "." (PyStr.of_int d)))) = false).
  { rewrite contains_app, Sa. simpl. rewrite contains_app, Sb. simpl.
    rewrite contains_app, Sc. simpl. exact Sd. }
  rewrite Hslash. unfold ipaddress._ip_int_from_string.
  destruct (String.eqb_spec
              (PyStr.of_int a ++ String "." (PyStr.of_int b
                 ++ String "." (PyStr.of_int c ++ String "." (PyStr.of_int d)))) "")
    as [E|_].
  { exfalso. destruct (PyStr.of_int a) eqn:Ea; [|discriminate E].
    exact (of_int_octet_not_empty a Ea). }
  rewrite split_app by exact Da. rewrite split_app by exact Db.
  rewrite split_app by exact Dc. rewrite split_without_sep by exact Dd.
  cbn [List.length Nat.eqb negb ipaddress.from_octets].
  rewrite Pa, Pb, Pc, Pd. f_equal. lia.
Qed.

(** An accepted text is a canonical dotted quad. *)
Lemma valid_is_dotted (s : string) :
  is_valid_ipv4 s = true ->
  exists a b c d, octet a /\ octet b /\ octet c /\ octet d /\ s = dotted a b c d.
Proof.
  rewrite is_valid_ipv4_eq.
  destruct (ipaddress.IPv4Address s) as [n|e] eqn:E; [intros _|discriminate].
  unfold ipaddress.IPv4Address, ipaddress._ip_int_from_string in E.
  destruct (PyStr.contains "/" s); [discriminate E|].
  destruct (String.eqb s ""); [discriminate E|].
  destruct (List.length (PyStr.split "." s) =? 4)%nat eqn:Hlen; [|discriminate E].
  simpl in E. apply Nat.eqb_eq in Hlen.
  pose proof (join_split "." s) as Hjoin.
  destruct (PyStr.split "." s) as [|o1 [|o2 [|o3 [|o4 [|x l]]]]]; try discriminate Hlen.
  simpl in E.
  destruct (ipaddress._parse_octet o1) as [a|] eqn:E1; [|discriminate E].
  destruct (ipaddress._parse_octet o2) as [b|] eqn:E2; [|discriminate E].
  destruct (ipaddress._parse_octet o3) as [c|] eqn:E3; [|discriminate E].
  destruct (ipaddress._parse_octet o4) as [d|] eqn:E4; [|discriminate E].
  destruct (parse_octet_canonical _ E1) as (-> & Ha).
  destruct (parse_octet_canonical _ E2) as (-> & Hb).
  destruct (parse_octet_canonical _ E3) as (-> & Hc).
  destruct (parse_octet_canonical _ E4) as (-> & Hd).
  exists a, b, c, d. repeat split; try apply Ha; try apply Hb; try apply Hc;
    try apply Hd. symmetry. exact Hjoin.
Qed.

End DottedQuads.

(** X1.  [is_valid_ipv4] accepts exactly the canonical dotted quads: a text
    is accepted if and only if it is the decimal texts of four numbers
    between 0 and 255 joined by dots (so without sign, blank, leading zero,
    fifth part or missing part), and the address parsed from it is the
    number with these four bytes. *)
Theorem is_valid_ipv4_dotted_quads :
  forall (P : Platform) (s : string),
    (is_valid_ipv4 s = true <->
     exists a b c d,
       octet a /\ octet b /\ octet c /\ octet d /\ s = dotted a b c d) /\
    (forall a b c d,
       octet a -> octet b -> octet c -> octet d -> s = dotted a b c d ->
       ipaddress.IPv4Address s = Val (((a * 256 + b) * 256 + c) * 256 + d)%Z).
Proof.
  intros P s. split; [split|].
  - apply valid_is_dotted.
  - intros (a & b & c & d & Ha & Hb & Hc & Hd & ->).
    rewrite is_valid_ipv4_eq, (IPv4Address_dotted Ha Hb Hc Hd). reflexivity.
  - intros a b c d Ha Hb Hc Hd ->. now apply IPv4Address_dotted.
Qed.

(** The address of the specification's example. *)
Lemma is_valid_ipv4_dotted_quads_witness :
  @is_valid_ipv4 Scripted.platform "203.0.113.5" = true /\
  ipaddress.IPv4Address "203.0.113.5" = Val 3405803781%Z.
Proof.
  destruct (@is_valid_ipv4_dotted_quads Scripted.platform "203.0.113.5") as [Hiff Hval].
  assert (H203 : octet 203) by (unfold octet; lia).
  assert (H0 : octet 0) by (unfold octet; lia).
  assert (H113 : octet 113) by (unfold octet; lia).
  assert (H5 : octet 5) by (unfold octet; lia).
  split.
  - apply Hiff. exists 203%Z, 0%Z, 113%Z, 5%Z. repeat split; try lia.
  - rewrite (Hval 203 0 113 5 H203 H0 H113 H5 eq_refl)%Z. reflexivity.
Defined.

(** ** The latency pattern *)

Section Pattern.

Lemma append_assoc_s (a b c : string) : (a ++ b) ++ c = a ++ (b ++ c).
Proof. induction a as [|x a IH]; simpl; [reflexivity|now rewrite IH]. Qed.

Lemma substring_whole (s : string) : String.substring 0 (String.length s) s = s.
Proof. induction s as [|c s IH]; simpl; [reflexivity|now rewrite IH]. Qed.

Lemma drop_prefix_sound (p s r : string) :
  re.drop_prefix p s = Some r -> s = p ++ r.
Proof.
  unfold re.drop_prefix. revert s r.
  induction p as [|a p IH]; intros s r H.
  - assert (E : String.prefix "" s = true) by (destruct s; reflexivity).
    rewrite E in H. cbn [String.length] in H.
    rewrite Nat.sub_0_r, substring_whole in H. inversion H. reflexivity.
  - destruct s as [|b s]; [discriminate H|]. cbn [String.prefix] in H.
    destruct (Ascii.ascii_dec a b) as [->|]; [|discriminate H].
    cbn [String.length Nat.sub String.substring] in H.
    cbn [append]. f_equal. apply IH. exact H.
Qed.

Lemma drop_prefix_complete (p r : string) : re.drop_prefix p (p ++ r) = Some r.
Proof.
  unfold re.drop_prefix. induction p as [|a p IH].
  - assert (E : String.prefix "" r = true) by (destruct r; reflexivity).
    cbn [append String.length]. rewrite E, Nat.sub_0_r, substring_whole. reflexivity.
  - cbn [append String.prefix String.length Nat.sub String.substring].
    destruct (Ascii.ascii_dec a a) as [_|n]; [|now destruct n]. exact IH.
Qed.

Lemma skip_sign_sound (s : string) :
  exists sign, (sign = "" \/ sign = "=" \/ sign = "<") /\ s = sign ++ re.skip_sign s.
Proof.
  destruct s as [|c t]; simpl.
  - exists "". auto.
  - destruct (Ascii.eqb_spec c "=") as [->|]; simpl.
    + exists "=". auto.
    + destruct (Ascii.eqb_spec c "<") as [->|]; simpl.
      * exists "<". auto.
      * exists "". auto.
Qed.

Lemma skip_spaces_sound (s : string) :
  exists sp, all_spaces sp = true /\ s = sp ++ re.skip_spaces s.
Proof.
  induction s as [|c t (sp & Hsp & IH)]; simpl.
  - exists "". auto.
  - destruct (PyStr.is_space c) eqn:Hc.
    + exists (String c sp). simpl. rewrite Hc, Hsp. split; [reflexivity|].
      now rewrite <- IH.
    + exists "". auto.
Qed.

Lemma take_num_sound (s : string) :
  s = fst (re.take_num s) ++ snd (re.take_num s) /\
  all_num_chars (fst (re.take_num s)) = true.
Proof.
  induction s as [|c t [IH1 IH2]]; simpl; [auto|].
  destruct (re.is_num_char c) eqn:Hc; [|auto].
  destruct (re.take_num t) as [g r]. simpl in *. rewrite Hc, IH2.
  split; [now rewrite <- IH1|reflexivity].
Qed.

(** The pattern, tried at the start of a text. *)
Lemma match_here_sound (s g : string) :
  re.match_here s = Some g ->
  exists frag post, s = frag ++ post /\ latency_fragment frag g.
Proof.
  unfold re.match_here.
  destruct (re.drop_prefix "time" s) as [s1|] eqn:E1; [|discriminate].
  apply drop_prefix_sound in E1.
  destruct (skip_sign_sound s1) as (sign & Hsign & E2).
  destruct (skip_spaces_sound (re.skip_sign s1)) as (sp1 & Hsp1 & E3).
  destruct (take_num_sound (re.skip_spaces (re.skip_sign s1))) as (E4 & Hg).
  destruct (re.take_num (re.skip_spaces (re.skip_sign s1))) as [g' s2]. simpl in E4, Hg.
  destruct (String.eqb_spec g' "") as [|Hne]; [discriminate|].
  destruct (skip_spaces_sound s2) as (sp2 & Hsp2 & E5).
  destruct (re.drop_prefix "ms" (re.skip_spaces s2)) as [post|] eqn:E6; [|discriminate].
  apply drop_prefix_sound in E6. intros H. inversion H; subst g'.
  exists ("time" ++ sign ++ sp1 ++ g ++ sp2 ++ "ms"), post. split.
  - rewrite E1, E2, E3, E4, E5, E6 at 1.
    repeat rewrite append_assoc_s. reflexivity.
  - now constructor.
Qed.

Lemma space_is_no_sign (c : ascii) :
  PyStr.is_space c = true -> Ascii.eqb c "=" || Ascii.eqb c "<" = false.
Proof.
  destruct c as [[] [] [] [] [] [] [] []]; intros H; vm_compute in H;
    try discriminate H; reflexivity.
Qed.

Lemma num_char_is_no_sign (c : ascii) :
  re.is_num_char c = true -> Ascii.eqb c "=" || Ascii.eqb c "<" = false.
Proof.
  destruct c as [[] [] [] [] [] [] [] []]; intros H; vm_compute in H;
    try discriminate H; reflexivity.
Qed.

Lemma num_char_is_no_space (c : ascii) :
  re.is_num_char c = true -> PyStr.is_space c = false.
Proof.
  destruct c as [[] [] [] [] [] [] [] []]; intros H; vm_compute in H;
    try discriminate H; reflexivity.
Qed.

Lemma space_is_no_num_char (c : ascii) :
  PyStr.is_space c = true -> re.is_num_char c = false.
Proof.
  destruct c as [[] [] [] [] [] [] [] []]; intros H; vm_compute in H;
    try discriminate H; reflexivity.
Qed.

Lemma skip_spaces_app (sp rest : string) :
  all_spaces sp = true -> starts_without PyStr.is_space rest ->
  re.skip_spaces (sp ++ rest) = rest.
Proof.
  induction sp as [|c sp IH]; simpl; intros Hsp Hrest.
  - destruct rest as [|c t]; [reflexivity|]. simpl in *. now rewrite Hrest.
  - apply andb_true_iff in Hsp as [Hc Hsp]. rewrite Hc. now apply IH.
Qed.

Lemma take_num_app (g rest : string) :
  all_num_chars g = true -> starts_without re.is_num_char rest ->
  re.take_num (g ++ rest) = (g, rest).
Proof.
  induction g as [|c g IH]; simpl; intros Hg Hrest.
  - destruct rest as [|c t]; [reflexivity|]. simpl in *. now rewrite Hrest.
  - apply andb_true_iff in Hg as [Hc Hg]. rewrite Hc, (IH Hg Hrest). reflexivity.
Qed.

Lemma spaces_then (test : ascii -> bool) (sp rest : string) :
  (forall c, PyStr.is_space c = true -> test c = false) ->
  all_spaces sp = true -> starts_without test rest ->
  starts_without test (sp ++ rest).
Proof.
  intros Htest Hsp Hrest. destruct sp as [|c t]; simpl in *; [exact Hrest|].
  apply andb_true_iff in Hsp as [Hc _]. now apply Htest.
Qed.

Lemma match_here_complete (frag g post : string) :
  latency_fragment frag g -> re.match_here (frag ++ post) = Some g.
Proof.
  intros H. destruct H as [sign sp1 g sp2 Hsign Hsp1 Hg Hne Hsp2].
  unfold re.match_here.
  assert (Hms : starts_without re.is_num_char (sp2 ++ "ms" ++ post)).
  { apply spaces_then; [apply space_is_no_num_char|exact Hsp2|reflexivity]. }
  assert (Hms' : starts_without PyStr.is_space ("ms" ++ post)) by reflexivity.
  assert (Hgs : starts_without PyStr.is_space (g ++ sp2 ++ "ms" ++ post)).
  { destruct g as [|c t]; [now destruct Hne|]. simpl in Hg |- *.
    apply andb_true_iff in Hg as [Hc _]. now apply num_char_is_no_space. }
  assert (Hsig : re.skip_sign (sp1 ++ g ++ sp2 ++ "ms" ++ post)
                 = sp1 ++ g ++ sp2 ++ "ms" ++ post).
  { destruct sp1 as [|c t]; simpl.
    - destruct g as [|c t]; [now destruct Hne|]. simpl in Hg |- *.
      apply andb_true_iff in Hg as [Hc _]. now rewrite (num_char_is_no_sign _ Hc).
    - simpl in Hsp1. apply andb_true_iff in Hsp1 as [Hc _].
      now rewrite (space_is_no_sign _ Hc). }
  assert (E : ("time" ++ sign ++ sp1 ++ g ++ sp2 ++ "ms") ++ post
              = "time" ++ sign ++ sp1 ++ g ++ sp2 ++ "ms" ++ post).
  { repeat rewrite append_assoc_s. reflexivity. }
  rewrite E, drop_prefix_complete.
  assert (Hskip : re.skip_sign (sign ++ sp1 ++ g ++ sp2 ++ "ms" ++ post)
                  = sp1 ++ g ++ sp2 ++ "ms" ++ post).
  { destruct Hsign as [->|[->| ->]]; [exact Hsig|reflexivity|reflexivity]. }
  rewrite Hskip, (skip_spaces_app _ _ Hsp1 Hgs), (take_num_app _ _ Hg Hms).
  destruct (String.eqb_spec g "") as [|_]; [contradiction|].
  rewrite (skip_spaces_app _ _ Hsp2 Hms'), drop_prefix_complete. reflexivity.
Qed.

Lemma search_sound (s g : string) :
  re.search s = Some g ->
  exists pre frag post, s = pre ++ frag ++ post /\ latency_fragment frag g.
Proof.
  induction s as [|c t IH].
  - intros H. vm_compute in H. discriminate H.
  - simpl. destruct (re.match_here (String c t)) as [g'|] eqn:E.
    + intros H. inversion H; subst g'.
      destruct (match_here_sound _ E) as (frag & post & Hs & Hf).
      exists "", frag, post. auto.
    + intros H. destruct (IH H) as (pre & frag & post & Hs & Hf).
      exists (String c pre), frag, post. simpl. now rewrite <- Hs.
Qed.

Lemma search_complete (pre frag g post : string) :
  latency_fragment frag g -> exists g', re.search (pre ++ frag ++ post) = Some g'.
Proof.
  intros Hf. induction pre as [|c pre IH].
  - cbn [append]. exists g.
    pose proof (match_here_complete post Hf) as H.
    destruct (frag ++ post) as [|x y].
    + vm_compute in H. discriminate H.
    + cbn [re.search]. now rewrite H.
  - cbn [append re.search].
    destruct (re.match_here (String c (pre ++ frag ++ post))) as [g'|].
    + now exists g'.
    + exact IH.
Qed.

End Pattern.

Section Latency.
Context {P : Platform}.

Lemma int_of_digits_nonneg (s : string) : (0 <= PyStr.int_of_digits s)%Z.
Proof.
  unfold PyStr.int_of_digits.
  assert (H : forall l acc, (0 <= acc)%Z ->
            (0 <= fold_left (fun a c => 10 * a + PyStr.digit_value c) l acc)%Z).
  { induction l as [|c l IH]; intros acc Hacc; cbn [fold_left]; [exact Hacc|].
    apply IH. unfold PyStr.digit_value. lia. }
  apply H. lia.
Qed.

(** The figure of a latency is never negative. *)
Lemma float_of_group_nonneg (g : string) (q : Q) :
  float_of_group g = Val q -> 0 <= q.
Proof.
  unfold float_of_group.
  destruct (PyStr.split "." g) as [|i [|f [|x l]]]; try discriminate.
  - destruct (PyStr.isdigit i); [|discriminate]. intros H. inversion H.
    pose proof (int_of_digits_nonneg i).
    unfold Qle, inject_Z. cbn [Qnum Qden]. lia.
  - destruct (PyStr.all_digits i && PyStr.all_digits f
              && negb (String.eqb i "" && String.eqb f "")); [|discriminate].
    intros H. inversion H. apply Qle_shift_div_l.
    + pose proof (Z.pow_pos_nonneg 10 (Z.of_nat (String.length f))).
      unfold Qlt, inject_Z. cbn [Qnum Qden]. lia.
    + rewrite Qmult_0_l. pose proof (int_of_digits_nonneg (i ++ f)).
      unfold Qle, inject_Z. cbn [Qnum Qden]. lia.
Qed.

Lemma reported_nonneg (o : outcome string) (l : Q) : reported o = Some l -> 0 <= l.
Proof.
  unfold reported. destruct o as [out|e]; [|discriminate].
  destruct (re.search out) as [g|]; [|discriminate].
  destruct (float_of_group g) as [q|e] eqn:E; [|discriminate].
  intros H. inversion H; subst. exact (float_of_group_nonneg _ E).
Qed.

Lemma assembled_nonneg md ip w :
  0 <= r_ping_ms (assembled md (reported (fst (subprocess_run (ping_argv ip) w)))).
Proof.
  unfold assembled. simpl.
  destruct (reported (fst (subprocess_run (ping_argv ip) w))) as [l|] eqn:E.
  - exact (reported_nonneg _ E).
  - apply Qle_refl.
Qed.

Lemma probe_and_assemble_nonneg md hit s res :
  fst (probe_and_assemble md hit s) = Val (Some res) -> 0 <= r_ping_ms res.
Proof.
  destruct (probe_and_assemble_any md hit s) as (latency & s' & Heq & _ & _ & Hstr).
  rewrite Heq. simpl. intros H. inversion H; subst res. clear H.
  assert (D : (exists ip, m_ip md = JString ip) \/ (forall a, m_ip md <> JString a))
    by (destruct (m_ip md); try (right; discriminate); left; eauto).
  destruct D as [[ip Hip]|Hno].
  - destruct (Hstr ip Hip) as (-> & _). apply assembled_nonneg.
  - destruct (probe_and_assemble_not_str md hit s Hno) as (s'' & Heq' & _).
    rewrite Heq in Heq'. inversion Heq' as [[Ha Hs]]. simpl. rewrite Ha.
    apply Qle_refl.
Qed.

End Latency.

(** X2.  The probe reports a latency exactly for the outputs that show one.
    If [ping_ip] returns a latency, the output of the process contains a
    fragment of the form [time], an optional [=] or [<], white space, a
    non-empty run of digits and dots, white space, [ms], and the latency is
    the value [float] gives to that run, which is not negative.  Conversely
    every output that contains such a fragment is matched by the search of
    line 127, and [ping_ip] returns the value of the leftmost match (or
    [None] when [float] refuses it); a fragment at the very start of the
    output is the match. *)
Theorem ping_latency_pattern :
  forall (P : Platform) (ip : string) (s : state),
    (forall l,
       fst (ping_ip (JString ip) s) = Val (Some l) ->
       exists out pre frag g post,
         fst (subprocess_run (ping_argv ip) (env s)) = Val out /\
         out = pre ++ frag ++ post /\ latency_fragment frag g /\
         float_of_group g = Val l /\ 0 <= l) /\
    (forall out pre frag g post,
       fst (subprocess_run (ping_argv ip) (env s)) = Val out ->
       out = pre ++ frag ++ post -> latency_fragment frag g ->
       exists g',
         re.search out = Some g' /\
         fst (ping_ip (JString ip) s)
           = Val (match float_of_group g' with Val l => Some l | Exc _ => None end)) /\
    (forall frag g post,
       latency_fragment frag g -> re.search (frag ++ post) = Some g).
Proof.
  intros P ip s. split; [|split].
  - intros l H. rewrite ping_ip_returns in H. inversion H as [Hr]. clear H.
    unfold reported in Hr.
    destruct (fst (subprocess_run (ping_argv ip) (env s))) as [out|e]; [|discriminate].
    destruct (re.search out) as [g|] eqn:Es; [|discriminate].
    destruct (float_of_group g) as [q|e] eqn:Ef; [|discriminate].
    inversion Hr; subst q.
    destruct (search_sound _ Es) as (pre & frag & post & Hout & Hfrag).
    exists out, pre, frag, g, post. repeat split; trivial.
    exact (float_of_group_nonneg _ Ef).
  - intros out pre frag g post Hrun -> Hfrag.
    destruct (search_complete pre post Hfrag) as (g' & Hs).
    exists g'. split; [exact Hs|].
    rewrite ping_ip_returns, Hrun. unfold reported. rewrite Hs. reflexivity.
  - intros frag g post Hfrag.
    pose proof (match_here_complete post Hfrag) as H.
    destruct (frag ++ post) as [|x y].
    + vm_compute in H. discriminate H.
    + cbn [re.search]. now rewrite H.
Qed.

(** The reply line of a ping: the latency is 12.3. *)
Lemma ping_latency_pattern_witness :
  exists out pre frag g post,
    fst (@subprocess_run Scripted.platform (ping_argv "203.0.113.5")
           (env (Scripted.start 100 Scripted.all_up [Val Scripted.ping_reply])))
      = Val out /\
    out = pre ++ frag ++ post /\ latency_fragment frag g /\
    float_of_group g = Val (123 # 10) /\ 0 <= 123 # 10.
Proof.
  destruct (@ping_latency_pattern Scripted.platform "203.0.113.5"
              (Scripted.start 100 Scripted.all_up [Val Scripted.ping_reply]))
    as (H & _).
  apply (H (123 # 10)). vm_compute. reflexivity.
Defined.

(** X3.  The [ping_ms] of a result is never negative: it is the value of a
    run of digits and dots, or the 0.0 of a failed probe. *)
Theorem ping_ms_never_negative :
  forall (P : Platform) (s s' : state) (res : resolution),
    get_ip_data s = (Val (Some res), s') -> 0 <= r_ping_ms res.
Proof.
  intros P s s' res H.
  destruct (cache_hit_test s) eqn:Htest.
  - destruct (cache_hit_test_true s Htest) as (cached & Hd & Hlt).
    rewrite (get_ip_data_hit s Hd Hlt) in H.
    eapply probe_and_assemble_nonneg. rewrite H. reflexivity.
  - rewrite get_ip_data_miss_loop in H by exact (cache_hit_test_false s Htest).
    destruct (fetch_loop 1 (drawn_order s) (loop_start s)) as [[[md|]|e] s2];
      try discriminate H.
    eapply probe_and_assemble_nonneg. rewrite H. reflexivity.
Qed.

(** A call whose probe reads 12.3 ms. *)
Lemma ping_ms_never_negative_witness :
  exists res,
    fst (get_ip_data (Scripted.start 100 Scripted.all_up [Val Scripted.ping_reply]))
      = Val (Some res) /\
    r_ping_ms res == 123 # 10 /\ 0 <= r_ping_ms res.
Proof.
  pose (s := Scripted.start 100 Scripted.all_up [Val Scripted.ping_reply]).
  pose (res := {| r_provider := "ipapi"; r_ip := JString "203.0.113.5";
                  r_country_code := "US"; r_ping_ms := 123 # 10 |}).
  exists res. split; [vm_compute; reflexivity|]. split; [reflexivity|].
  apply (@ping_ms_never_negative Scripted.platform s (snd (get_ip_data s)) res).
  vm_compute. reflexivity.
Defined.

(** ** The log of the loop *)

Section Logs.
Context {P : Platform}.

(** [get_json] logs the request and, unless it raises, one more record. *)
Lemma get_json_log (name url : string) (s : state) :
  exists l,
    log (snd (get_json name url s)) = (log s ++ (DEBUG, Requesting name url) :: l)%list /\
    Forall (fun r => from_get_json (snd r) = true) l /\
    match fst (get_json name url s) with
    | Val _ => List.length l = 1%nat
    | Exc _ => l = []
    end.
Proof.
  unfold get_json. run.
  repeat step;
    (eexists; split; [rewrite <- ?app_assoc; reflexivity|];
     split; [repeat constructor|reflexivity]).
Qed.

Lemma from_get_json_not_missing (r : level * message) :
  from_get_json (snd r) = true -> is_missing_keys r = false.
Proof.
  destruct r as [lvl m]. destruct m; simpl; intros H; try reflexivity;
    discriminate H.
Qed.

(** The loop never logs that a response misses required keys: a response
    that [get_json] returns has its ["ip"]. *)
Lemma fetch_loop_log (order : list provider) :
  forall k s,
    exists l,
      log (snd (fetch_loop k order s)) = (log s ++ l)%list /\
      Forall (fun r => is_missing_keys r = false) l.
Proof.
  induction order as [|[[name url] code_key] rest IH]; intros k s.
  - rewrite fetch_loop_nil. simpl. eexists. split; [reflexivity|].
    repeat constructor.
  - rewrite fetch_loop_cons.
    destruct (get_json_log name url (querying name k s)) as (l & Hl & Hfrom & _).
    assert (Hl' : Forall (fun r => is_missing_keys r = false)
                    ((INFO, Querying name k) :: (DEBUG, Requesting name url) :: l)).
    { constructor; [reflexivity|]. constructor; [reflexivity|].
      eapply Forall_impl; [|exact Hfrom]. apply from_get_json_not_missing. }
    simpl in Hl. rewrite <- app_assoc in Hl. simpl in Hl.
    destruct (get_json name url (querying name k s))
      as [[[[[j elapsed] n]|]|e] s1] eqn:Hget; simpl in Hl.
    + destruct (get_json_validated _ _ _ Hget) as (ip & Hip & _).
      unfold getitem. rewrite Hip. simpl. rewrite Hl.
      exists ((INFO, Querying name k) :: (DEBUG, Requesting name url) :: l
              ++ [(INFO, ProviderSuccess name (JString ip) (country_code_of j code_key)
                           k elapsed n)])%list.
      split.
      * rewrite <- app_assoc. reflexivity.
      * change (Forall (fun r => is_missing_keys r = false)
                  (((INFO, Querying name k) :: (DEBUG, Requesting name url) :: l)
                   ++ [(INFO, ProviderSuccess name (JString ip)
                                (country_code_of j code_key) k elapsed n)])%list).
        apply Forall_app. split; [exact Hl'|]. repeat constructor.
    + destruct (IH (S k) s1) as (l2 & Hl2 & Hf2).
      exists (((INFO, Querying name k) :: (DEBUG, Requesting name url) :: l) ++ l2)%list.
      split.
      * rewrite Hl2, Hl, <- app_assoc. reflexivity.
      * apply Forall_app. split; assumption.
    + simpl. eexists. split; [exact Hl|exact Hl'].
Qed.

End Logs.


(** X11.  The handler of lines 175-177 is never entered.  No run of the
    provider loop, on any list of providers and whatever they answer, logs
    that a response misses required keys: a response that [get_json]
    returns always has its ["ip"], so the body of the [try] cannot raise. *)
Theorem missing_keys_never_logged :
  forall (P : Platform) (k : nat) (order : list provider) (s : state),
    exists l,
      log (snd (fetch_loop k order s)) = (log s ++ l)%list /\
      forall name, ~ In (WARNING, MissingKeys name) l.
Proof.
  intros P k order s. destruct (fetch_loop_log order k s) as (l & Hl & Hf).
  exists l. split; [exact Hl|]. intros name Hin.
  pose proof (proj1 (Forall_forall _ _) Hf _ Hin) as H. discriminate H.
Qed.

(** ** What one call costs *)

Section Bounds.
Context {P : Platform}.




End Bounds.



(** ** What the cache and the results hold *)

Section Sound.
Context {P : Platform}.

Lemma upper_char_idem (c : ascii) :
  PyStr.upper_char (PyStr.upper_char c) = PyStr.upper_char c.
Proof. destruct c as [[] [] [] [] [] [] [] []]; reflexivity. Qed.

Lemma upper_idem (s : string) : PyStr.upper (PyStr.upper s) = PyStr.upper s.
Proof.
  induction s as [|c s IH]; simpl; [reflexivity|].
  now rewrite upper_char_idem, IH.
Qed.

(** The metadata the loop returns is sound, and its attempt is not before
    the one the loop started with. *)
Lemma fetch_loop_sound k order s md :
  fst (fetch_loop k order s) = Val (Some md) ->
  validated md /\ PyStr.upper (m_country_code md) = m_country_code md /\
  (k <= m_attempt md)%nat.
Proof.
  intros H. pose proof (fetch_loop_end order k s) as E. rewrite H in E.
  inversion E; subst. split; [|split].
  - eexists. split; [reflexivity|eassumption].
  - simpl. unfold country_code_of. apply upper_idem.
  - simpl. lia.
Qed.

(** What a call does to the cache: nothing, or one write of the metadata
    its loop has fetched, with the reading of the clock of the call. *)
Lemma get_ip_data_cache_effect s :
  same_cache s (snd (get_ip_data s)) \/
  exists md,
    cache_hit_test s = false /\
    fst (loop_run s) = Val (Some md) /\
    _ip_cache_data (snd (get_ip_data s)) = Some md /\
    _ip_cache_timestamp (snd (get_ip_data s)) = fst (monotonic (env s)) /\
    cache_writes (snd (get_ip_data s)) = S (cache_writes s).
Proof.
  destruct (cache_hit_test s) eqn:Htest.
  - left. destruct (cache_hit_test_true s Htest) as (cached & Hd & Hlt).
    destruct (get_ip_data_served s Hd Hlt) as (latency & s' & Heq & Hc & _).
    rewrite Heq. exact Hc.
  - pose proof (get_ip_data_refreshed (cache_hit_test_false s Htest)) as H.
    cbv zeta in H. destruct H as (H & _). unfold loop_run.
    destruct (fst (fetch_loop 1 (drawn_order s) (loop_start s))) as [[md|]|e].
    + right. exists md. destruct H as (latency & _ & Hd & Ht & Hw & _). auto.
    + left. apply H.
    + left. apply H.
Qed.

Lemma get_ip_data_keeps_sound s :
  cache_sound s -> cache_sound (snd (get_ip_data s)).
Proof.
  intros Hs md Hmd.
  destruct (get_ip_data_cache_effect s) as [(Hd & _)|(md' & _ & Hrun & Hd & _)].
  - rewrite Hd in Hmd. exact (Hs md Hmd).
  - rewrite Hd in Hmd. inversion Hmd; subst md'.
    destruct (fetch_loop_sound _ _ _ Hrun) as (Hv & Hu & Ha).
    split; [exact Hv|]. split; [exact Hu|exact Ha].
Qed.

Lemma reachable_sound s : reachable s -> cache_sound s.
Proof.
  induction 1 as [w|s w _ IH].
  - intros md H. discriminate H.
  - apply get_ip_data_keeps_sound. intros md H. exact (IH md H).
Qed.

Lemma cache_sound_valid s : cache_sound s -> cache_valid s.
Proof. intros H md Hmd. exact (proj1 (H md Hmd)). Qed.

(** The metadata a result is assembled from. *)
Lemma get_ip_data_from_sound s res s' :
  cache_sound s -> get_ip_data s = (Val (Some res), s') ->
  exists md latency, sound_metadata md /\ res = assembled md latency.
Proof.
  intros Hs Hcall.
  pose proof (get_ip_data_outcome (cache_sound_valid Hs)) as H. cbv zeta in H.
  rewrite Hcall in H. simpl in H.
  destruct (chosen_metadata s) as [md|] eqn:Hchosen.
  - destruct H as (ip & _ & _ & Hres & _). inversion Hres; subst res.
    exists md. eexists. split; [|reflexivity].
    unfold chosen_metadata in Hchosen. destruct (cache_hit_test s).
    + exact (Hs md Hchosen).
    + unfold loop_run in Hchosen.
      destruct (fst (fetch_loop 1 (drawn_order s) (loop_start s))) as [[md'|]|e] eqn:Hrun;
        try discriminate Hchosen.
      inversion Hchosen; subst md'.
      destruct (fetch_loop_sound _ _ _ Hrun) as (Hv & Hu & Ha).
      split; [exact Hv|]. split; [exact Hu|exact Ha].
  - destruct H as (Hres & _).
    destruct (fst (loop_run s)) as [[?|]|?]; discriminate Hres.
Qed.

(** The count of writes tells whether the cache is filled. *)
Lemma reachable_writes s :
  reachable s -> (cache_writes s = 0%nat <-> _ip_cache_data s = None).
Proof.
  induction 1 as [w|s w _ IH].
  - simpl. tauto.
  - destruct (get_ip_data_cache_effect (set_env w s))
      as [(Hd & _ & Hw)|(md & _ & _ & Hd & _ & Hw)].
    + rewrite Hd, Hw. exact IH.
    + rewrite Hd, Hw. split; discriminate.
Qed.

End Sound.

(** X6.  What a running process holds and returns.  In every state the
    process reaches, from an empty cache and through any calls and any
    behaviour of the world, the cached metadata has an address that is a
    canonical dotted quad, a country code without lower-case ASCII letter
    (upper-casing it changes nothing) and an attempt of at least 1; and
    every result that [get_ip_data] returns there carries such an address
    and such a country code. *)
Theorem reachable_results_sound :
  forall (P : Platform) (s : state),
    reachable s ->
    (forall md, _ip_cache_data s = Some md ->
       (exists a b c d,
          octet a /\ octet b /\ octet c /\ octet d /\
          m_ip md = JString (dotted a b c d)) /\
       PyStr.upper (m_country_code md) = m_country_code md /\
       (1 <= m_attempt md)%nat) /\
    (forall w res s',
       get_ip_data (set_env w s) = (Val (Some res), s') ->
       (exists a b c d,
          octet a /\ octet b /\ octet c /\ octet d /\
          r_ip res = JString (dotted a b c d)) /\
       PyStr.upper (r_country_code res) = r_country_code res).
Proof.
  intros P s Hreach. pose proof (reachable_sound Hreach) as Hs. split.
  - intros md Hmd. destruct (Hs md Hmd) as ((ip & Hip & Hv) & Hu & Ha).
    split; [|split; assumption].
    destruct (valid_is_dotted ip Hv) as (a & b & c & d & Ha' & Hb & Hc & Hd & ->).
    exists a, b, c, d. auto.
  - intros w res s' Hcall.
    assert (Hs' : cache_sound (set_env w s)) by (intros md H; exact (Hs md H)).
    destruct (get_ip_data_from_sound Hs' Hcall)
      as (md & latency & ((ip & Hip & Hv) & Hu & _) & ->).
    split; [|exact Hu].
    destruct (valid_is_dotted ip Hv) as (a & b & c & d & Ha' & Hb & Hc & Hd & ->).
    exists a, b, c, d. auto.
Qed.

(** The first call of a process whose providers answer the example body. *)
Lemma reachable_results_sound_witness :
  exists a b c d,
    octet a /\ octet b /\ octet c /\ octet d /\
    JString "203.0.113.5" = JString (dotted a b c d).
Proof.
  pose (w := {| Scripted.clock := 100; Scripted.web := Scripted.all_up;
                Scripted.shuffle := fun l => l; Scripted.pings := [] |}
             : @world Scripted.platform).
  pose (res := {| r_provider := "ipapi"; r_ip := JString "203.0.113.5";
                  r_country_code := "US"; r_ping_ms := 0 |}).
  destruct (@reachable_results_sound Scripted.platform (initial_state w)
              (reach_start w)) as (_ & H).
  destruct (H w res (snd (get_ip_data (set_env w (initial_state w)))))
    as (Hip & _).
  - vm_compute. reflexivity.
  - exact Hip.
Defined.

(** X10.  The cache is never cleared.  In every state the process reaches
    the count of cache writes is zero exactly when the cache is empty; a
    call makes at most one write, and when the cache holds an entry before
    a call it holds one after it, whether the call is served from the
    cache, refreshes it, finds every provider failing or raises. *)
Theorem cache_is_never_cleared :
  forall (P : Platform) (s : state),
    reachable s ->
    (cache_writes s = 0%nat <-> _ip_cache_data s = None) /\
    (forall w,
       (cache_writes s <= cache_writes (snd (get_ip_data (set_env w s))))%nat /\
       (cache_writes (snd (get_ip_data (set_env w s))) <= S (cache_writes s))%nat /\
       (_ip_cache_data s <> None ->
        _ip_cache_data (snd (get_ip_data (set_env w s))) <> None)).
Proof.
  intros P s Hreach. split; [exact (reachable_writes Hreach)|].
  intros w.
  destruct (get_ip_data_cache_effect (set_env w s))
    as [(Hd & _ & Hw)|(md & _ & _ & Hd & _ & Hw)]; simpl in *.
  - rewrite Hw, Hd. repeat split; try lia. auto.
  - rewrite Hw, Hd. repeat split; try lia. discriminate.
Qed.

(** A process that has made one successful call. *)
Lemma cache_is_never_cleared_witness :
  let w : @world Scripted.platform :=
    {| Scripted.clock := 100; Scripted.web := Scripted.all_up;
       Scripted.shuffle := fun l => l; Scripted.pings := [] |} in
  let s := snd (get_ip_data (@set_env Scripted.platform w (initial_state w))) in
  (cache_writes s = 0%nat <-> _ip_cache_data s = None) /\
  _ip_cache_data s <> None.
Proof.
  cbv zeta.
  pose (w := {| Scripted.clock := 100; Scripted.web := Scripted.all_up;
                Scripted.shuffle := fun l => l; Scripted.pings := [] |}
             : @world Scripted.platform).
  destruct (@cache_is_never_cleared Scripted.platform
              (snd (get_ip_data (@set_env Scripted.platform w (initial_state w))))
              (reach_call w (reach_start w))) as (H & _).
  split; [exact H|]. vm_compute. discriminate.
Defined.

(** ** The two endpoints *)

Section Endpoints.
Context {P : Platform}.

Lemma ip_json_state s : snd (ip_json s) = snd (get_ip_data s).
Proof. unfold ip_json. destruct (get_ip_data s) as [[[d|]|e] s']; reflexivity. Qed.

Lemma metrics_state s : snd (metrics s) = snd (get_ip_data s).
Proof. unfold metrics. destruct (get_ip_data s) as [[[d|]|e] s']; reflexivity. Qed.

(** A call returns nothing exactly when it misses the cache and its loop
    finds no provider. *)
Lemma get_ip_data_none s :
  fst (get_ip_data s) = Val None <->
  cache_hit_test s = false /\ fst (loop_run s) = Val None.
Proof.
  destruct (cache_hit_test s) eqn:Htest.
  - destruct (cache_hit_test_true s Htest) as (cached & Hd & Hlt).
    destruct (get_ip_data_served s Hd Hlt) as (latency & s' & Heq & _).
    rewrite Heq. simpl. split; [discriminate|]. intros (H & _). discriminate H.
  - pose proof (get_ip_data_refreshed (cache_hit_test_false s Htest)) as H.
    cbv zeta in H. destruct H as (H & _). unfold loop_run.
    destruct (fst (fetch_loop 1 (drawn_order s) (loop_start s))) as [[md|]|e].
    + destruct H as (latency & Heq & _). rewrite Heq.
      split; [discriminate|]. intros (_ & H). discriminate H.
    + destruct H as (Heq & _). rewrite Heq. tauto.
    + destruct H as (Heq & _). rewrite Heq.
      split; [discriminate|]. intros (_ & H). discriminate H.
Qed.

(** The state after a call that returns nothing. *)
Lemma get_ip_data_none_frame s :
  fst (get_ip_data s) = Val None ->
  same_cache s (snd (get_ip_data s)) /\
  processes_run (snd (get_ip_data s)) = processes_run s.
Proof.
  intros Hnone. destruct (proj1 (get_ip_data_none s) Hnone) as (Htest & Hrun).
  pose proof (get_ip_data_refreshed (cache_hit_test_false s Htest)) as H.
  cbv zeta in H. destruct H as (H & _). unfold loop_run in Hrun.
  rewrite Hrun in H. destruct H as (_ & Hc & Hp). auto.
Qed.

(** The latency of a result is not negative. *)
Lemma get_ip_data_ping_nonneg s s' res :
  get_ip_data s = (Val (Some res), s') -> 0 <= r_ping_ms res.
Proof.
  intros H. destruct (cache_hit_test s) eqn:Htest.
  - destruct (cache_hit_test_true s Htest) as (cached & Hd & Hlt).
    rewrite (get_ip_data_hit s Hd Hlt) in H.
    eapply probe_and_assemble_nonneg. rewrite H. reflexivity.
  - rewrite get_ip_data_miss_loop in H by exact (cache_hit_test_false s Htest).
    destruct (fetch_loop 1 (drawn_order s) (loop_start s)) as [[[md|]|e] s2];
      try discriminate H.
    eapply probe_and_assemble_nonneg. rewrite H. reflexivity.
Qed.

(** What a text response is when it is one. *)
Lemma text_response_val status text r :
  text_response status text = Val r ->
  reply_status r = status /\ reply_body_of r = TextBody text /\
  utf8_encodable text = true.
Proof.
  unfold text_response. destruct (utf8_encodable text); [|discriminate].
  intros H. inversion H. auto.
Qed.

(** The text of line 258 ends in the sample of [ip_current_info], on a line
    of its own. *)
Lemma metrics_body_last_line data :
  exists head,
    metrics_body data = head ++ newline ++ ip_current_info_line data ++ newline.
Proof.
  exists ("# HELP ip_info Public IP info with ping latency" ++ newline
          ++ "# TYPE ip_info gauge" ++ newline
          ++ ip_info_line data ++ newline
          ++ "" ++ newline
          ++ "# HELP ip_current_info Current public IP as text in label, stable series"
          ++ newline
          ++ "# TYPE ip_current_info gauge").
  unfold metrics_body, metrics_lines. cbn [join].
  rewrite !append_assoc_s. reflexivity.
Qed.

End Endpoints.

(** X7.  What the endpoints can raise.  Provided the HTTP library raises
    only what line 108 handles ([RequestException] or [ValueError], from the
    request or from decoding the body), [get_ip_data] and [/ip] return in
    every state and whatever the clock, the sampling and the ping binary do
    (missing binary, timeout, any other exception); [/ip] replies 200 when
    there is a result and 502 when there is none.  [/metrics] replies 502
    when there is none; when there is one it replies 200 if the text it
    has built can be encoded as UTF-8, and otherwise raises the
    [UnicodeEncodeError] of line 258, which nothing handles. *)
Theorem endpoints_raise_only_on_encoding :
  forall (P : Platform) (s : state),
    http_contained ->
    exists data r1,
      fst (get_ip_data s) = Val data /\
      fst (fst (ip_json s)) = Val r1 /\
      reply_status r1 = (match data with Some _ => 200 | None => 502 end)%Z /\
      match data with
      | None =>
          exists r2, fst (fst (metrics s)) = Val r2 /\ reply_status r2 = 502%Z
      | Some d =>
          if utf8_encodable (metrics_body d)
          then exists r2, fst (fst (metrics s)) = Val r2 /\ reply_status r2 = 200%Z
          else fst (fst (metrics s)) = Exc (ValueError "UnicodeEncodeError")
      end.
Proof.
  intros P s Hok. destruct (get_ip_data_contained s Hok) as (data & Hdata).
  exists data. unfold ip_json, metrics.
  destruct (get_ip_data s) as [o s']. simpl in Hdata. subst o.
  destruct data as [d|]; eexists; (split; [reflexivity|]);
    (split; [reflexivity|]); (split; [reflexivity|]).
  - simpl. unfold text_response.
    destruct (utf8_encodable (metrics_body d)); [|reflexivity].
    eexists. split; reflexivity.
  - eexists. split; reflexivity.
Qed.

(** A host without network and without ping binary: both endpoints reply
    502. *)
Lemma endpoints_raise_only_on_encoding_witness :
  exists r1 r2,
    fst (get_ip_data (@initial_state Offline.platform 0)) = Val None /\
    fst (fst (ip_json (@initial_state Offline.platform 0))) = Val r1 /\
    reply_status r1 = 502%Z /\
    fst (fst (metrics (@initial_state Offline.platform 0))) = Val r2 /\
    reply_status r2 = 502%Z.
Proof.
  destruct (@endpoints_raise_only_on_encoding Offline.platform
              (@initial_state Offline.platform 0))
    as (data & r1 & Hdata & Hip & Hs1 & Hm).
  - intros url w. reflexivity.
  - assert (Hnone : data = None).
    { assert (H : fst (get_ip_data (@initial_state Offline.platform 0)) = Val None)
        by (vm_compute; reflexivity).
      rewrite H in Hdata. inversion Hdata. reflexivity. }
    subst data. destruct Hm as (r2 & Hm & Hs2).
    exists r1, r2. split; [exact Hdata|]. split; [exact Hip|].
    split; [exact Hs1|]. split; [exact Hm|exact Hs2].
Defined.

(** The encoding does fail.  A provider puts the escape [\ud800] into its
    country code: the validator accepts the response, [/ip] replies 200
    with that country code, and [/metrics] raises. *)
Lemma metrics_raises_on_surrogate :
  let s := @initial_state Surrogate.platform
             (Slow.at_clock 100 Surrogate.answers) in
  fst (fst (ip_json s))
    = Val {| reply_status := 200; reply_mimetype := "application/json";
             reply_body_of :=
               JsonBody (JObject
                 [ ("provider", JString "ipapi");
                   ("ip", JString "203.0.113.5");
                   ("country_code", JString (String Surrogate.lone EmptyString));
                   ("ping_ms", JFloat (Finite 0)) ]) |} /\
  fst (fst (metrics s)) = Exc (ValueError "UnicodeEncodeError").
Proof. cbv zeta. split; vm_compute; reflexivity. Qed.

(** X8.  A fresh cache shields the endpoints from the network.  While the
    cached entry is younger than the TTL, by the test of line 191, neither
    endpoint sends a request or changes the cache, whatever the providers
    would answer: [/ip] replies 200 with the cached provider, address and
    country code, and [/metrics] replies 200 with the text built from them,
    unless that text cannot be encoded as UTF-8, in which case it raises
    the [UnicodeEncodeError] of line 258. *)
Theorem fresh_cache_shields_endpoints :
  forall (P : Platform) (s : state),
    cache_fresh s ->
    exists cached latency,
      _ip_cache_data s = Some cached /\
      fst (fst (ip_json s)) =
        Val {| reply_status := 200; reply_mimetype := "application/json";
               reply_body_of := JsonBody (JObject (to_dict (assembled cached latency))) |} /\
      (utf8_encodable (metrics_body (assembled cached latency)) = true ->
       fst (fst (metrics s)) =
         Val {| reply_status := 200; reply_mimetype := "text/plain";
                reply_body_of :=
                  TextBody (join newline (metrics_lines (assembled cached latency))
                            ++ newline) |}) /\
      (utf8_encodable (metrics_body (assembled cached latency)) = false ->
       fst (fst (metrics s)) = Exc (ValueError "UnicodeEncodeError")) /\
      requests_sent (snd (ip_json s)) = requests_sent s /\
      requests_sent (snd (metrics s)) = requests_sent s /\
      same_cache s (snd (ip_json s)) /\ same_cache s (snd (metrics s)).
Proof.
  intros P s (cached & Hd & Hlt).
  destruct (get_ip_data_served s Hd Hlt) as (latency & s' & Heq & Hc & Hr & _).
  exists cached, latency. rewrite ip_json_state, metrics_state.
  unfold ip_json, metrics. rewrite Heq. simpl. unfold text_response.
  split; [exact Hd|]. split; [reflexivity|].
  split; [intros ->; reflexivity|]. split; [intros ->; reflexivity|]. auto.
Qed.

(** An entry stored 10 seconds ago, every provider down. *)
Lemma fresh_cache_shields_endpoints_witness :
  exists cached latency,
    _ip_cache_data (Scripted.cached 90 100 Scripted.all_down []) = Some cached /\
    fst (fst (ip_json (Scripted.cached 90 100 Scripted.all_down []))) =
      Val {| reply_status := 200; reply_mimetype := "application/json";
             reply_body_of := JsonBody (JObject (to_dict (assembled cached latency))) |} /\
    fst (fst (metrics (Scripted.cached 90 100 Scripted.all_down []))) =
      Val {| reply_status := 200; reply_mimetype := "text/plain";
             reply_body_of :=
               TextBody (join newline
                           (@metrics_lines Scripted.platform (assembled cached latency))
                         ++ newline) |} /\
    requests_sent (snd (ip_json (Scripted.cached 90 100 Scripted.all_down []))) = [] /\
    requests_sent (snd (metrics (Scripted.cached 90 100 Scripted.all_down []))) = [].
Proof.
  destruct (@fresh_cache_shields_endpoints Scripted.platform
              (Scripted.cached 90 100 Scripted.all_down []))
    as (cached & latency & Hd & Hip & Hm & _ & Hr1 & Hr2 & _).
  - exists Scripted.example_metadata. split; [reflexivity|]. vm_compute. reflexivity.
  - exists cached, latency. split; [exact Hd|]. split; [exact Hip|].
    split; [apply Hm; reflexivity|]. split; [exact Hr1|exact Hr2].
Defined.

(** X9.  No stale fallback.  A reply of [/ip] or [/metrics] has status 200
    or 502; it is 502 exactly when the call missed the cache (empty, or an
    entry as old as the TTL or older) and the loop found no provider, also
    when the cache still holds an entry.  A 502 reply has an empty body
    ([{}] for [/ip], no text for [/metrics]); the call behind it ran no
    ping and left the cache as it was. *)
Theorem endpoint_502_iff_exhausted :
  forall (P : Platform) (s : state) (r : reply),
    fst (fst (ip_json s)) = Val r \/ fst (fst (metrics s)) = Val r ->
    (reply_status r = 200 \/ reply_status r = 502)%Z /\
    (reply_status r = 502%Z <->
     cache_hit_test s = false /\ fst (loop_run s) = Val None) /\
    (reply_status r = 502%Z ->
     (reply_body_of r = JsonBody (JObject []) \/ reply_body_of r = TextBody "") /\
     processes_run (snd (get_ip_data s)) = processes_run s /\
     same_cache s (snd (get_ip_data s))).
Proof.
  intros P s r Hr.
  pose proof (get_ip_data_none s) as Hiff.
  pose proof (get_ip_data_none_frame s) as Hframe.
  unfold ip_json, metrics in Hr.
  destruct (get_ip_data s) as [[[d|]|e] s']; simpl in *.
  - assert (Hs : reply_status r = 200%Z).
    { destruct Hr as [Hr|Hr]; [inversion Hr; reflexivity|].
      exact (proj1 (text_response_val _ _ Hr)). }
    rewrite Hs. split; [now left|]. split.
    + split; [discriminate|]. intros H. apply Hiff in H. discriminate H.
    + discriminate.
  - destruct (Hframe eq_refl) as (Hc & Hp).
    assert (Hs : reply_status r = 502%Z)
      by (destruct Hr as [Hr|Hr]; inversion Hr; reflexivity).
    rewrite Hs. split; [now right|]. split.
    + split; [intros _; now apply Hiff|reflexivity].
    + intros _. split; [|split; assumption].
      destruct Hr as [Hr|Hr]; inversion Hr; simpl; auto.
  - destruct Hr as [Hr|Hr]; discriminate Hr.
Qed.

(** An entry stored 40 seconds ago, every provider down: 502, although the
    cache holds an address. *)
Lemma endpoint_502_iff_exhausted_witness :
  let s := Scripted.cached 60 100 Scripted.all_down [] in
  _ip_cache_data s = Some Scripted.example_metadata /\
  cache_hit_test s = false /\ fst (loop_run s) = Val None /\
  processes_run (snd (get_ip_data s)) = processes_run s.
Proof.
  cbv zeta.
  destruct (@endpoint_502_iff_exhausted Scripted.platform
              (Scripted.cached 60 100 Scripted.all_down [])
              {| reply_status := 502; reply_mimetype := "text/plain";
                 reply_body_of := TextBody "" |})
    as (_ & Hiff & Hrest).
  - right. vm_compute. reflexivity.
  - split; [reflexivity|].
    destruct (proj1 Hiff eq_refl) as (Htest & Hrun).
    destruct (Hrest eq_refl) as (_ & Hp & _).
    split; [exact Htest|]. split; [exact Hrun|exact Hp].
Defined.

(** X12.  The address label of [/metrics] needs no escaping.  In every
    state the process reaches, the text of a 200 reply of [/metrics] ends
    in a line of its own that is exactly the [ip_current_info] sample with
    a canonical dotted quad as the value of its label; that value consists
    of ASCII digits and dots only, so it holds no quote, backslash or line
    feed; and a call of [/ip] in that state replies 200 with the same quad
    as its ["ip"].  Nothing of the kind holds for the lines before it: the
    country code of the [ip_info] sample is the provider's text, put
    between the quotes as it is. *)
Theorem ip_label_is_a_dotted_quad :
  forall (P : Platform) (s : state) (w : world) (r : reply),
    reachable s ->
    fst (fst (metrics (set_env w s))) = Val r ->
    reply_status r = 200%Z ->
    exists head a b c d,
      octet a /\ octet b /\ octet c /\ octet d /\
      reply_body_of r =
        TextBody (head ++ newline
                    ++ "ip_current_info{label=" ++ quote ++ "ip_address" ++ quote
                    ++ ",value=" ++ quote ++ dotted a b c d ++ quote ++ "} 1"
                    ++ newline) /\
      (forall ch, In ch (list_ascii_of_string (dotted a b c d)) ->
         PyStr.is_ascii_digit ch = true \/ ch = "."%char) /\
      exists provider country ping_ms,
        fst (fst (ip_json (set_env w s))) =
          Val {| reply_status := 200; reply_mimetype := "application/json";
                 reply_body_of :=
                   JsonBody (JObject [ ("provider", JString provider);
                                       ("ip", JString (dotted a b c d));
                                       ("country_code", JString country);
                                       ("ping_ms", JFloat (Finite ping_ms)) ]) |}.
Proof.
  intros P s w r Hreach Hr Hs.
  assert (Hsound : cache_sound (set_env w s)).
  { intros md H. exact (reachable_sound Hreach H). }
  pose proof (@get_ip_data_from_sound P (set_env w s)) as Hfrom.
  unfold metrics in Hr. unfold ip_json.
  destruct (get_ip_data (set_env w s)) as [[[res|]|e] s'] eqn:Hcall; simpl in Hr.
  - destruct (text_response_val _ _ Hr) as (_ & Hbody & _).
    destruct (Hfrom res s' Hsound eq_refl)
      as (md & latency & ((ip & Hip & Hv) & _ & _) & Hres).
    assert (Hchars : forall ch, In ch (list_ascii_of_string ip) ->
                       PyStr.is_ascii_digit ch = true \/ ch = "."%char).
    { rewrite is_valid_ipv4_eq in Hv.
      destruct (ipaddress.IPv4Address ip) as [n|e] eqn:E; [|discriminate Hv].
      exact (IPv4Address_chars ip E). }
    destruct (valid_is_dotted ip Hv) as (a & b & c & d & Ha & Hb & Hc & Hd & Hdot).
    subst ip.
    assert (Hrip : r_ip res = JString (dotted a b c d)) by (subst res; exact Hip).
    destruct (metrics_body_last_line res) as (head & Hlast).
    exists head, a, b, c, d.
    split; [exact Ha|]. split; [exact Hb|]. split; [exact Hc|]. split; [exact Hd|].
    split.
    { rewrite Hbody, Hlast. unfold ip_current_info_line. rewrite Hrip.
      cbn [str]. rewrite !append_assoc_s. reflexivity. }
    split; [exact Hchars|].
    exists (r_provider res), (r_country_code res), (r_ping_ms res).
    simpl. unfold to_dict. rewrite Hrip. reflexivity.
  - inversion Hr; subst r. discriminate Hs.
  - discriminate Hr.
Qed.

(** The first call of a process whose providers answer the example body. *)
Lemma ip_label_is_a_dotted_quad_witness :
  exists head a b c d,
    octet a /\ octet b /\ octet c /\ octet d /\
    TextBody (@metrics_body Scripted.platform
                {| r_provider := "ipapi"; r_ip := JString "203.0.113.5";
                   r_country_code := "US"; r_ping_ms := 0 |}) =
      TextBody (head ++ newline
                  ++ "ip_current_info{label=" ++ quote ++ "ip_address" ++ quote
                  ++ ",value=" ++ quote ++ dotted a b c d ++ quote ++ "} 1"
                  ++ newline).
Proof.
  pose (w := {| Scripted.clock := 100; Scripted.web := Scripted.all_up;
                Scripted.shuffle := fun l => l; Scripted.pings := [] |}
             : @world Scripted.platform).
  pose (res := {| r_provider := "ipapi"; r_ip := JString "203.0.113.5";
                  r_country_code := "US"; r_ping_ms := 0 |}).
  destruct (@ip_label_is_a_dotted_quad Scripted.platform (initial_state w) w
              {| reply_status := 200; reply_mimetype := "text/plain";
                 reply_body_of := TextBody (@metrics_body Scripted.platform res) |}
              (reach_start w))
    as (head & a & b & c & d & Ha & Hb & Hc & Hd & Hbody & _).
  - vm_compute. reflexivity.
  - reflexivity.
  - exists head, a, b, c, d.
    split; [exact Ha|]. split; [exact Hb|]. split; [exact Hc|]. split; [exact Hd|].
    exact Hbody.
Defined.

(** ** The processes a running service starts *)

Section Processes.
Context {P : Platform}.

(** A call starts no process, or one ping of a validated address. *)
Lemma get_ip_data_pings_validated s :
  cache_valid s ->
  processes_run (snd (get_ip_data s)) = processes_run s \/
  exists ip,
    is_valid_ipv4 ip = true /\
    processes_run (snd (get_ip_data s)) = (processes_run s ++ [ping_argv ip])%list.
Proof.
  intros Hvalid. pose proof (get_ip_data_outcome Hvalid) as H. cbv zeta in H.
  destruct (chosen_metadata s) as [md|].
  - destruct H as (ip & _ & Hv & _ & _ & Hp). right. exists ip. auto.
  - destruct H as (_ & _ & Hp). left. exact Hp.
Qed.

End Processes.

(** X13.  The only processes the service ever starts are pings of
    canonical dotted quads.  In every state the process reaches, each
    command line it has run is [ping -4 -c 1 -w 2] followed by one
    argument, the decimal text of four octets joined by dots: no text of a
    provider reaches the command line before it has passed the validator,
    and a cached address is one that passed it. *)
Theorem only_dotted_quads_are_pinged :
  forall (P : Platform) (s : state),
    reachable s ->
    Forall (fun argv =>
              exists a b c d,
                octet a /\ octet b /\ octet c /\ octet d /\
                argv = ["ping"; "-4"; "-c"; "1"; "-w"; "2"; dotted a b c d])
           (processes_run s).
Proof.
  intros P s Hreach. induction Hreach as [w|s w Hreach IH].
  - constructor.
  - assert (Hvalid : cache_valid (set_env w s)).
    { intros md H. exact (proj1 (reachable_sound Hreach H)). }
    destruct (get_ip_data_pings_validated Hvalid) as [Hp|(ip & Hv & Hp)];
      rewrite Hp; simpl.
    + exact IH.
    + apply Forall_app. split; [exact IH|].
      constructor; [|constructor].
      destruct (valid_is_dotted ip Hv) as (a & b & c & d & Ha & Hb & Hc & Hd & ->).
      exists a, b, c, d. auto 6.
Qed.

(** A process after its first successful call. *)
Lemma only_dotted_quads_are_pinged_witness :
  Forall (fun argv =>
            exists a b c d,
              octet a /\ octet b /\ octet c /\ octet d /\
              argv = ["ping"; "-4"; "-c"; "1"; "-w"; "2"; dotted a b c d])
         [["ping"; "-4"; "-c"; "1"; "-w"; "2"; "203.0.113.5"]].
Proof.
  pose (w := {| Scripted.clock := 100; Scripted.web := Scripted.all_up;
                Scripted.shuffle := fun l => l; Scripted.pings := [] |}
             : @world Scripted.platform).
  exact (@only_dotted_quads_are_pinged Scripted.platform
           (snd (get_ip_data (@set_env Scripted.platform w (initial_state w))))
           (reach_call w (reach_start w))).
Defined.
